(** * HRreport: the column classifier and the cross-source aggregation

    A shallow embedding of [detect_column_type], [analyze_excel_data],
    [upload_excel] with its cleaning of the sheets, [create_professional_chart],
    [create_time_series_chart], [generate_pdf_report] and [generate_reports]
    from [HRreport.py], with the pandas and numpy operations they call.

    Conventions of the model:
    - float64 arithmetic is idealised as exact rational arithmetic ([Q], with
      [==] for numeric equality); a square root is kept symbolically, as its
      radicand.  The null percentage of a data quality record is kept twice:
      as that rational, and as the binary64 number the program stores;
    - a Python [dict] the code only builds and looks up is a [gmap]: equality
      of [gmap]s is equality of mappings, as [==] on Python dicts is, and the
      insertion order of keys is not recorded.  Inputs that the code iterates
      ([dataframes.items()], [sheets.items()], [df.columns]) are lists, in
      iteration order; the report, which iterates the dicts of the analysis,
      takes them as the lists of their items;
    - the report is the story handed to [doc.build]: its flowables in order,
      a paragraph with the values its text interpolates, an image with what
      the chart shows; fonts, colours and sizes are left out.  Of the
      exceptions that end the report, the one the code itself brings about is
      modelled; a text reportlab's markup parser refuses, and a failure of
      [savefig] or [doc.build], are further ways to fail that are not;
    - text is a [string] of bytes; [lower] and [strip] act on ASCII. *)

From Stdlib Require Import Ascii QArith Qround Qabs DecimalString.
From Stdlib Require DecimalZ Floats Uint63.
From stdpp Require Import gmap strings list fin_maps.

Local Open Scope Q_scope.
Local Open Scope Z_scope.
Local Open Scope nat_scope.
Local Open Scope stdpp_scope.

(** ** Python string methods *)

Module PyStr.

(** The ASCII characters [str.isspace] accepts. *)
Definition is_space (a : ascii) : bool :=
  let n := nat_of_ascii a in
  ((9 <=? n) && (n <=? 13)) || ((28 <=? n) && (n <=? 32)).

Definition lower_ascii (a : ascii) : ascii :=
  let n := nat_of_ascii a in
  if (65 <=? n) && (n <=? 90) then ascii_of_nat (n + 32) else a.

Fixpoint lower (s : string) : string :=
  match s with
  | EmptyString => EmptyString
  | String a s' => String (lower_ascii a) (lower s')
  end.

Fixpoint lstrip (s : string) : string :=
  match s with
  | EmptyString => EmptyString
  | String a s' => if is_space a then lstrip s' else s
  end.

Fixpoint rstrip (s : string) : string :=
  match s with
  | EmptyString => EmptyString
  | String a s' =>
      match rstrip s' with
      | EmptyString => if is_space a then EmptyString else String a EmptyString
      | r => String a r
      end
  end.

Definition strip (s : string) : string := rstrip (lstrip s).

Fixpoint startswith (p s : string) : bool :=
  match p, s with
  | EmptyString, _ => true
  | String a p', String b s' => bool_decide (a = b) && startswith p' s'
  | String _ _, EmptyString => false
  end.

(** [sub in s] *)
Fixpoint contains (sub s : string) : bool :=
  startswith sub s ||
  match s with
  | EmptyString => false
  | String _ s' => contains sub s'
  end.

Definition endswith (p s : string) : bool :=
  startswith (String.rev p) (String.rev s).

(** [any(keyword in s for keyword in keywords)] *)
Definition any_in (keywords : list string) (s : string) : bool :=
  existsb (fun keyword => contains keyword s) keywords.

(** [str(n)] of a Python [int]. *)
Definition of_Z (z : Z) : string := NilZero.string_of_int (Z.to_int z).

End PyStr.

(** ** pandas values, columns and frames *)

(** A cell of a column.  [NaN] stands for every missing marker ([None], [nan],
    [NaT]); a [Timestamp] is held as nanoseconds since the epoch. *)
Inductive cell : Type :=
  | NaN
  | Int (z : Z)
  | Float (q : Q)
  | Bool (b : bool)
  | Timestamp (ns : Z)
  | Str (s : string).

Inductive dtype : Type := int64 | float64 | bool_ | datetime64 | object.

(** A column with its dtype.  An [int64] or [bool] column has no missing
    value; a [float64] or [datetime64] column marks one by [None]; an [object]
    column holds arbitrary cells. *)
Inductive Series : Type :=
  | SInt (l : list Z)
  | SFloat (l : list (option Q))
  | SBool (l : list bool)
  | SDatetime (l : list (option Z))
  | SObject (l : list cell).

Definition dtype_of (s : Series) : dtype :=
  match s with
  | SInt _ => int64
  | SFloat _ => float64
  | SBool _ => bool_
  | SDatetime _ => datetime64
  | SObject _ => object
  end.

Definition values (s : Series) : list cell :=
  match s with
  | SInt l => Int <$> l
  | SFloat l => (fun o => from_option Float NaN o) <$> l
  | SBool l => Bool <$> l
  | SDatetime l => (fun o => from_option Timestamp NaN o) <$> l
  | SObject l => l
  end.

Definition isnull (c : cell) : bool :=
  match c with NaN => true | _ => false end.

(** [series.dropna()]: the values that are not missing. *)
Definition dropna (s : Series) : list cell :=
  List.filter (fun c => negb (isnull c)) (values s).

(** [series.isnull().sum()] *)
Definition null_count_of (s : Series) : nat :=
  length (List.filter isnull (values s)).

Definition is_numeric_dtype (s : Series) : bool :=
  match dtype_of s with
  | int64 | float64 | bool_ => true
  | _ => false
  end.

Definition is_integer_dtype (s : Series) : bool :=
  match dtype_of s with int64 => true | _ => false end.

(** The number a cell holds, when it holds one ([True] is 1). *)
Definition number_of (c : cell) : option Q :=
  match c with
  | Int z => Some (inject_Z z)
  | Float q => Some q
  | Bool b => Some (if b then 1%Q else 0%Q)
  | _ => None
  end.

(** Python's [==] on two cells that are not missing: numbers compare by
    value across [int], [float] and [bool]. *)
Definition cell_eqb (c d : cell) : bool :=
  match number_of c, number_of d with
  | Some p, Some q => Qeq_bool p q
  | None, None =>
      match c, d with
      | Timestamp m, Timestamp n => bool_decide (m = n)
      | Str s, Str t => bool_decide (s = t)
      | _, _ => false
      end
  | _, _ => false
  end.

(** [series.unique()] on values that are not missing: the distinct values,
    each at its first occurrence. *)
Fixpoint unique (l : list cell) : list cell :=
  match l with
  | [] => []
  | c :: l' => c :: List.filter (fun d => negb (cell_eqb c d)) (unique l')
  end.

(** [series.nunique()] *)
Definition nunique (s : Series) : nat := length (unique (dropna s)).

(** [series.value_counts().items()]: each distinct value that is not missing
    with its number of occurrences.  pandas orders the pairs by falling count;
    the order kept here is that of first occurrence. *)
Definition value_counts (s : Series) : list (cell * nat) :=
  let clean := dropna s in
  (fun c => (c, length (List.filter (cell_eqb c) clean))) <$> unique clean.

(** What [pd.to_datetime] makes of one value: it refuses it (an exception
    under [errors='raise'], [NaT] under [errors='coerce']), or reads it as
    [NaT], or as a timestamp in nanoseconds since the epoch. *)
Inductive Parsed : Type :=
  | Refused
  | NotATime
  | Stamp (ns : Z).

(** What the model takes from outside the program: the text date parser
    behind [pd.to_datetime] and the printing of floats and timestamps by
    [str].  The parser is given the first value of the list it works on
    where that value is text, from which pandas infers one format for the
    list. *)
Record Runtime : Type := {
  parse_datetime : option string -> string -> Parsed;
  str_float : Q -> string;
  str_timestamp : Z -> string
}.

(** A runtime for closed examples: no text is a date, a float prints as its
    integer part followed by [.0], a timestamp as its nanoseconds. *)
Definition plain_runtime : Runtime := {|
  parse_datetime := fun _ _ => Refused;
  str_float := fun q => PyStr.of_Z (Qfloor q) +:+ ".0";
  str_timestamp := PyStr.of_Z
|}.

Definition int64_max : Z := 9223372036854775807.

(** The least int64, which pandas reads as [NaT]. *)
Definition int64_min : Z := -9223372036854775808.

(** The integer part of a rational, towards zero. *)
Definition Qtruncate (q : Q) : Z := Z.quot (Qnum q) (Z.pos (Qden q)).

(** The first value of a list of values, where it is text. *)
Definition format_context (l : list cell) : option string :=
  match l with
  | Str s :: _ => Some s
  | _ => None
  end.

(** The timestamp of a value that was read as one. *)
Definition stamp_of (p : Parsed) : option Z :=
  match p with
  | Stamp ns => Some ns
  | _ => None
  end.

Definition refused (p : Parsed) : bool :=
  match p with
  | Refused => true
  | _ => false
  end.

Section Pandas.
Variable rt : Runtime.

(** [pd.to_datetime] on one value of a list whose first value gives
    [context]: an int64 counts nanoseconds since the epoch, the least int64
    being [NaT]; a float is cut to its integer part, and is [NaT] beyond the
    int64 range; a [bool] is refused; text goes through the parser. *)
Definition to_datetime1 (context : option string) (c : cell) : Parsed :=
  match c with
  | NaN => NotATime
  | Int z => if bool_decide (z = int64_min) then NotATime else Stamp z
  | Float q =>
      if negb (Qle_bool q (inject_Z int64_min))
         && negb (Qle_bool (inject_Z (int64_max + 1)%Z) q)
      then Stamp (Qtruncate q)
      else NotATime
  | Bool _ => Refused
  | Timestamp ns => Stamp ns
  | Str s => parse_datetime rt context s
  end.

(** [pd.to_datetime(values, errors='raise')] returns rather than raises;
    [values] holds no missing value. *)
Definition to_datetime_raise (l : list cell) : bool :=
  forallb (fun c => negb (refused (to_datetime1 (format_context l) c))) l.

(** [pd.to_datetime(series, errors='coerce').dropna().tolist()] *)
Definition to_datetime_coerce (s : Series) : list Z :=
  omap (fun c => stamp_of (to_datetime1 (format_context (dropna s)) c))
       (values s).

(** [str(value)] *)
Definition py_str (c : cell) : string :=
  match c with
  | NaN => "nan"
  | Int z => PyStr.of_Z z
  | Float q => str_float rt q
  | Bool b => if b then "True" else "False"
  | Timestamp ns => str_timestamp rt ns
  | Str s => s
  end.

End Pandas.

(** [pd.to_numeric(series, errors='coerce').dropna().tolist()] *)
Definition to_numeric_coerce (s : Series) : list Q :=
  omap number_of (values s).

(** ** The classifier *)

Inductive ColumnType : Type :=
  | empty_t | identifier | numeric_t | categorical_t | date_t | text_t.

Global Instance ColumnType_eq_dec : EqDecision ColumnType.
Proof. solve_decision. Defined.

Definition date_keywords : list string :=
  ["date"; "time"; "created"; "updated"; "birth"; "hire"; "start"; "end"].

Definition id_keywords : list string := ["id"; "code"; "number"].

Definition Qnat (n : nat) : Q := inject_Z (Z.of_nat n).

(** [a / b] on two Python [int]s that count something. *)
Definition ratio (a b : nat) : Q := (Qnat a / Qnat b)%Q.

Definition Qlt_bool (p q : Q) : bool := negb (Qle_bool q p).

Section Classifier.
Variable rt : Runtime.

Definition detect_column_type (series : Series) (column_name : string)
  : ColumnType :=
  let clean_series := dropna series in
  if length clean_series =? 0 then empty_t else
  let column_name_lower := PyStr.strip (PyStr.lower column_name) in
  if PyStr.any_in date_keywords column_name_lower
     && to_datetime_raise rt (take 10 clean_series)
  then date_t
  else if is_numeric_dtype series then
    if is_integer_dtype series
       && Qlt_bool (8 # 10) (ratio (length (unique clean_series))
                                   (length clean_series))
       && PyStr.any_in id_keywords column_name_lower
    then identifier
    else numeric_t
  else
    let unique_values := length (unique clean_series) in
    let total_values := length clean_series in
    if (unique_values <=? 20)
       || Qlt_bool (ratio unique_values total_values) (1 # 2)
    then categorical_t
    else text_t.

End Classifier.

(** ** Statistics *)

Definition Qsum (l : list Q) : Q := foldr Qplus 0%Q l.

(** The arithmetic mean: [Series.mean] and [np.mean]. *)
Definition mean_of (l : list Q) : Q := (Qsum l / Qnat (length l))%Q.

Fixpoint insert_sorted (x : Q) (l : list Q) : list Q :=
  match l with
  | [] => [x]
  | y :: l' => if Qle_bool x y then x :: l else y :: insert_sorted x l'
  end.

Definition sort_values (l : list Q) : list Q := foldr insert_sorted [] l.

(** [Series.median] *)
Definition median_of (l : list Q) : Q :=
  let s := sort_values l in
  let n := length s in
  if Nat.even n
  then ((nth (n / 2 - 1) s 0%Q + nth (n / 2) s 0%Q) / 2)%Q
  else nth (n / 2) s 0%Q.

(** [min(values)] and [max(values)] of a list that is not empty. *)
Definition min_of (l : list Q) : Q :=
  match l with
  | [] => 0%Q
  | x :: l' => foldl (fun m y => if Qlt_bool y m then y else m) x l'
  end.

Definition max_of (l : list Q) : Q :=
  match l with
  | [] => 0%Q
  | x :: l' => foldl (fun m y => if Qlt_bool m y then y else m) x l'
  end.

(** The sum of the squared deviations from the mean. *)
Definition sum_sq_dev (l : list Q) : Q :=
  let m := mean_of l in
  Qsum ((fun x => ((x - m) * (x - m))%Q) <$> l).

(** The variance with [ddof] delta degrees of freedom. *)
Definition variance (ddof : nat) (l : list Q) : Q :=
  (sum_sq_dev l / Qnat (length l - ddof))%Q.

(** A square root, kept as its radicand: [sqrt_of x] is the non-negative
    real whose square is [x]. *)
Record Sqrt : Type := sqrt_of { radicand : Q }.

(** Two square roots of non-negative rationals are the same number exactly
    when their radicands are. *)
Definition Sqrt_eq (a b : Sqrt) : Prop := (radicand a == radicand b)%Q.

(** [Series.std()]: pandas divides by [n - 1] ([ddof=1]) and yields [nan]
    ([None]) for fewer than two values. *)
Definition series_std (l : list Q) : option Sqrt :=
  if length l <=? 1 then None else Some (sqrt_of (variance 1 l)).

(** [np.std(values)]: numpy divides by [n] ([ddof=0]). *)
Definition np_std (l : list Q) : Sqrt := sqrt_of (variance 0 l).

(** ** The analysis result *)

Module NumericStats.
Record t : Type := {
  mean : Q;
  median : Q;
  std : option Sqrt;
  min : Q;
  max : Q;
  count : nat
}.
End NumericStats.

Module DataQuality.
(** [null_percentage] is [None] where the division by [len(df)] has no
    value (a frame without rows).  [null_percentage] is the value over the
    rationals; [null_percentage_binary64] is the number the program stores,
    the same expression in binary64. *)
Record t : Type := {
  null_count : nat;
  null_percentage : option Q;
  null_percentage_binary64 : option PrimFloat.float;
  unique_count : nat
}.
End DataQuality.

Module FileAnalysis.
Record t : Type := {
  numeric_stats : gmap string NumericStats.t;
  categorical_counts : gmap string (gmap string nat);
  data_quality : gmap string DataQuality.t
}.
Definition init : t :=
  {| numeric_stats := ∅; categorical_counts := ∅; data_quality := ∅ |}.
End FileAnalysis.

Module SheetSummary.
Record t : Type := {
  rows : nat;
  columns : nat;
  column_names : list string
}.
End SheetSummary.

Module FileSummary.
Record t : Type := {
  filename : string;
  sheets : gmap string SheetSummary.t;
  total_rows : nat;
  total_columns : nat
}.
Definition init (filename : string) : t :=
  {| filename := filename; sheets := ∅; total_rows := 0; total_columns := 0 |}.
End FileSummary.

Module ColumnInfo.
Record t : Type := {
  type : ColumnType;
  files : list string
}.
End ColumnInfo.

Module Charts.
Record t : Type := {
  numeric : gmap string (list Q);
  categorical : gmap string (gmap string nat);
  dates : gmap string (list Z);
  identifiers : gmap string unit
}.
Definition init : t :=
  {| numeric := ∅; categorical := ∅; dates := ∅; identifiers := ∅ |}.
End Charts.

Module Summary.
Record t : Type := {
  total_files : nat;
  total_rows : nat;
  total_columns : nat;
  numeric_columns : nat;
  categorical_columns : nat;
  date_columns : nat
}.
End Summary.

(** An insight line, as the values its f-string interpolates. *)
Inductive Insight : Type :=
  | Analyzed (total_files total_rows : nat)
  | FoundNumeric (n : nat)
  | IdentifiedCategorical (n : nat)
  | DetectedDates (n : nat)
  | NumericInsight (col : string) (mean_val : Q) (std_val : Sqrt) (lo hi : Q)
  | CategoricalInsight (col top_category : string) (percentage : Q)
      (records : nat).

Module Analysis.
Record t : Type := {
  summary : Summary.t;
  data_overview : list FileSummary.t;
  charts_data : Charts.t;
  detailed_analysis : gmap string FileAnalysis.t;
  insights : list Insight
}.
End Analysis.

(** A sheet: [len(df)] rows under named columns.  The labels of a sheet are
    taken to be distinct, so that [df[col]] is the column paired with [col];
    every column of a frame pandas builds has [nrows] cells.  Where the
    labels of an uploaded sheet are equal once stripped the engine raises:
    [upload_excel] answers for that case before it calls the engine. *)
Record DataFrame : Type := {
  nrows : nat;
  df_columns : list (string * Series)
}.

Definition df_empty (df : DataFrame) : bool :=
  (nrows df =? 0) || (length (df_columns df) =? 0).

Definition shape (df : DataFrame) : nat * nat :=
  (nrows df, length (df_columns df)).

(** The variables of [analyze_excel_data] that its loops update. *)
Record State : Type := {
  total_rows : nat;
  all_columns : gmap string ColumnInfo.t;
  charts_data : Charts.t;
  detailed_analysis : gmap string FileAnalysis.t;
  data_overview : list FileSummary.t;
  file_summary : FileSummary.t;
  file_analysis : FileAnalysis.t
}.

Definition init_state : State := {|
  total_rows := 0;
  all_columns := ∅;
  charts_data := Charts.init;
  detailed_analysis := ∅;
  data_overview := [];
  file_summary := FileSummary.init "";
  file_analysis := FileAnalysis.init
|}.

(** ** The aggregation *)

Section Engine.
Variable rt : Runtime.

(** The statistics stored for one numeric column instance. *)
Definition numeric_stats_of (numeric_data : list Q) : NumericStats.t := {|
  NumericStats.mean := mean_of numeric_data;
  NumericStats.median := median_of numeric_data;
  NumericStats.std := series_std numeric_data;
  NumericStats.min := min_of numeric_data;
  NumericStats.max := max_of numeric_data;
  NumericStats.count := length numeric_data
|}.

(** One round of the loop over [value_counts.items()]. *)
Definition count_value (col_clean : string)
    (cat : gmap string (gmap string nat)) (item : cell * nat)
  : gmap string (gmap string nat) :=
  let '(value, count) := item in
  if negb (isnull value) then
    let key := PyStr.strip (py_str rt value) in
    alter (fun counts => <[key := default 0 (counts !! key) + count]> counts)
          col_clean cat
  else cat.

(** The [elif col_type == 'categorical'] branch. *)
Definition fold_categorical (col_clean : string) (series : Series)
    (cat : gmap string (gmap string nat)) : gmap string (gmap string nat) :=
  let cat0 :=
    match cat !! col_clean with
    | Some _ => cat
    | None => <[col_clean := ∅]> cat
    end in
  foldl (count_value col_clean) cat0 (value_counts series).

(** A count as a binary64 number: exact below 2^53. *)
Definition binary64_of_nat (n : nat) : PrimFloat.float :=
  PrimFloat.of_uint63 (Uint63.of_Z (Z.of_nat n)).

(** [float(null_count / len(df) * 100)] in binary64: the quotient is
    rounded, then the product. *)
Definition null_percentage_binary64 (null_count rows : nat)
  : PrimFloat.float :=
  PrimFloat.mul (PrimFloat.div (binary64_of_nat null_count)
                               (binary64_of_nat rows))
                (binary64_of_nat 100).

(** The record of the data quality analysis of one column of [df]. *)
Definition data_quality_of (df : DataFrame) (series : Series)
  : DataQuality.t :=
  let null_count := null_count_of series in
  {| DataQuality.null_count := null_count;
     DataQuality.null_percentage :=
       if nrows df =? 0 then None
       else Some (Qnat null_count / Qnat (nrows df) * 100)%Q;
     DataQuality.null_percentage_binary64 :=
       if nrows df =? 0 then None
       else Some (null_percentage_binary64 null_count (nrows df));
     DataQuality.unique_count := nunique series |}.

(** The body of [for col in df.columns]. *)
Definition analyze_column (filename sheet_name : string) (df : DataFrame)
    (st : State) (column : string * Series) : State :=
  let '(col, series) := column in
  let col_clean := PyStr.strip col in
  let col_type := detect_column_type rt series col in
  let all_columns1 :=
    match all_columns st !! col_clean with
    | Some _ => all_columns st
    | None =>
        <[col_clean := {| ColumnInfo.type := col_type;
                          ColumnInfo.files := [] |}]> (all_columns st)
    end in
  let all_columns2 :=
    alter (fun info =>
             {| ColumnInfo.type := ColumnInfo.type info;
                ColumnInfo.files :=
                  ColumnInfo.files info
                    ++ [filename +:+ ":" +:+ sheet_name] |})
          col_clean all_columns1 in
  let charts := charts_data st in
  let stats := FileAnalysis.numeric_stats (file_analysis st) in
  let updated :=
    match col_type with
    | numeric_t =>
        let numeric_data := to_numeric_coerce series in
        if 0 <? length numeric_data then
          ({| Charts.numeric :=
                <[col_clean := default [] (Charts.numeric charts !! col_clean)
                                 ++ numeric_data]> (Charts.numeric charts);
              Charts.categorical := Charts.categorical charts;
              Charts.dates := Charts.dates charts;
              Charts.identifiers := Charts.identifiers charts |},
           <[col_clean := numeric_stats_of numeric_data]> stats)
        else (charts, stats)
    | categorical_t =>
        ({| Charts.numeric := Charts.numeric charts;
            Charts.categorical :=
              fold_categorical col_clean series (Charts.categorical charts);
            Charts.dates := Charts.dates charts;
            Charts.identifiers := Charts.identifiers charts |},
         stats)
    | date_t =>
        let date_data := to_datetime_coerce rt series in
        if 0 <? length date_data then
          ({| Charts.numeric := Charts.numeric charts;
              Charts.categorical := Charts.categorical charts;
              Charts.dates :=
                <[col_clean := default [] (Charts.dates charts !! col_clean)
                                 ++ date_data]> (Charts.dates charts);
              Charts.identifiers := Charts.identifiers charts |},
           stats)
        else (charts, stats)
    | _ => (charts, stats)
    end in
  {| total_rows := total_rows st;
     all_columns := all_columns2;
     charts_data := updated.1;
     detailed_analysis := detailed_analysis st;
     data_overview := data_overview st;
     file_summary := file_summary st;
     file_analysis :=
       {| FileAnalysis.numeric_stats := updated.2;
          FileAnalysis.categorical_counts :=
            FileAnalysis.categorical_counts (file_analysis st);
          FileAnalysis.data_quality :=
            <[col_clean := data_quality_of df series]>
              (FileAnalysis.data_quality (file_analysis st)) |} |}.

(** The body of [for sheet_name, df in sheets.items()]. *)
Definition analyze_sheet (filename : string) (st : State)
    (sheet : string * DataFrame) : State :=
  let '(sheet_name, df) := sheet in
  if df_empty df then st else
  let '(rows, cols) := shape df in
  let fs := file_summary st in
  let st1 := {|
    total_rows := total_rows st + rows;
    all_columns := all_columns st;
    charts_data := charts_data st;
    detailed_analysis := detailed_analysis st;
    data_overview := data_overview st;
    file_summary :=
      {| FileSummary.filename := FileSummary.filename fs;
         FileSummary.sheets :=
           <[sheet_name := {| SheetSummary.rows := rows;
                              SheetSummary.columns := cols;
                              SheetSummary.column_names :=
                                fst <$> df_columns df |}]>
             (FileSummary.sheets fs);
         FileSummary.total_rows := FileSummary.total_rows fs + rows;
         FileSummary.total_columns :=
           Nat.max (FileSummary.total_columns fs) cols |};
    file_analysis := file_analysis st
  |} in
  foldl (analyze_column filename sheet_name df) st1 (df_columns df).

(** The body of [for filename, sheets in dataframes.items()]. *)
Definition analyze_file (st : State)
    (file : string * list (string * DataFrame)) : State :=
  let '(filename, sheets) := file in
  let st0 := {|
    total_rows := total_rows st;
    all_columns := all_columns st;
    charts_data := charts_data st;
    detailed_analysis := detailed_analysis st;
    data_overview := data_overview st;
    file_summary := FileSummary.init filename;
    file_analysis := FileAnalysis.init
  |} in
  let st1 := foldl (analyze_sheet filename) st0 sheets in
  {| total_rows := total_rows st1;
     all_columns := all_columns st1;
     charts_data := charts_data st1;
     detailed_analysis :=
       <[filename := file_analysis st1]> (detailed_analysis st1);
     data_overview := data_overview st1 ++ [file_summary st1];
     file_summary := file_summary st1;
     file_analysis := file_analysis st1 |}.

(** The insight line of one numeric column key. *)
Definition numeric_insight (entry : string * list Q) : list Insight :=
  let '(col, values) := entry in
  if 1 <? length values then
    [NumericInsight col (mean_of values) (np_std values)
       (min_of values) (max_of values)]
  else [].

(** [max(categories, key=categories.get)]: the first key, in iteration
    order, whose count no other exceeds. *)
Definition top_of (categories : list (string * nat)) : option (string * nat) :=
  foldl (fun best entry =>
           match best with
           | None => Some entry
           | Some b => if snd b <? snd entry then Some entry else best
           end) None categories.

(** The insight line of one categorical column key. *)
Definition categorical_insight (entry : string * gmap string nat)
  : list Insight :=
  let '(col, categories) := entry in
  match top_of (map_to_list categories) with
  | Some (top_category, top_count) =>
      let total_count := sum_list (snd <$> map_to_list categories) in
      [CategoricalInsight col top_category
         (Qnat top_count / Qnat total_count * 100)%Q top_count]
  | None => []
  end.

(** [analyze_excel_data].  The insight lines of the column keys come in the
    key order of the maps, not in the order the keys were first inserted. *)
Definition analyze_excel_data
    (dataframes : list (string * list (string * DataFrame))) : Analysis.t :=
  let total_files := length dataframes in
  let st := foldl analyze_file init_state dataframes in
  let charts := charts_data st in
  let total_rows := total_rows st in
  {| Analysis.summary :=
       {| Summary.total_files := total_files;
          Summary.total_rows := total_rows;
          Summary.total_columns := size (all_columns st);
          Summary.numeric_columns := size (Charts.numeric charts);
          Summary.categorical_columns := size (Charts.categorical charts);
          Summary.date_columns := size (Charts.dates charts) |};
     Analysis.data_overview := data_overview st;
     Analysis.charts_data := charts;
     Analysis.detailed_analysis := detailed_analysis st;
     Analysis.insights :=
       [Analyzed total_files total_rows;
        FoundNumeric (size (Charts.numeric charts));
        IdentifiedCategorical (size (Charts.categorical charts))]
       ++ (if bool_decide (Charts.dates charts = ∅) then []
           else [DetectedDates (size (Charts.dates charts))])
       ++ (map_to_list (Charts.numeric charts) ≫= numeric_insight)
       ++ (map_to_list (Charts.categorical charts) ≫= categorical_insight) |}.

End Engine.

(** ** The upload handler, up to its call of the engine *)

(** [d[k] = v] on a dict kept as the list of its items. *)
Fixpoint dict_set {V : Type} (k : string) (v : V) (d : list (string * V))
  : list (string * V) :=
  match d with
  | [] => [(k, v)]
  | (k', v') :: d' =>
      if decide (k = k') then (k, v) :: d' else (k', v') :: dict_set k v d'
  end.

(** The entries of [l] at the positions [mask] keeps. *)
Fixpoint keep_rows {A : Type} (mask : list bool) (l : list A) : list A :=
  match mask, l with
  | b :: mask', x :: l' => if b then x :: keep_rows mask' l' else keep_rows mask' l'
  | _, _ => []
  end.

Definition series_keep_rows (mask : list bool) (s : Series) : Series :=
  match s with
  | SInt l => SInt (keep_rows mask l)
  | SFloat l => SFloat (keep_rows mask l)
  | SBool l => SBool (keep_rows mask l)
  | SDatetime l => SDatetime (keep_rows mask l)
  | SObject l => SObject (keep_rows mask l)
  end.

(** [df.dropna(how='all')]: the rows with a value in some column. *)
Definition dropna_rows (df : DataFrame) : DataFrame :=
  let mask :=
    (fun i => existsb (fun column => negb (isnull (nth i (values column.2) NaN)))
                      (df_columns df)) <$> seq 0 (nrows df) in
  {| nrows := length (List.filter id mask);
     df_columns := (fun column => (column.1, series_keep_rows mask column.2))
                     <$> df_columns df |}.

(** [df.dropna(axis=1, how='all')]: the columns with a value in some row. *)
Definition dropna_columns (df : DataFrame) : DataFrame :=
  {| nrows := nrows df;
     df_columns :=
       List.filter (fun column => 0 <? length (dropna column.2))
                   (df_columns df) |}.

(** The cleaning of a sheet that was read: column names are stripped, then
    empty rows and empty columns are removed. *)
Definition clean_sheet (df : DataFrame) : DataFrame :=
  dropna_columns
    (dropna_rows
       {| nrows := nrows df;
          df_columns := (fun column => (PyStr.strip column.1, column.2))
                          <$> df_columns df |}).

(** An uploaded file: its name, and what pandas reads from it.  [workbook] is
    [None] where opening the file raises; a sheet is [None] where reading it
    raises. *)
Record FileStorage : Type := {
  fs_filename : string;
  workbook : option (list (string * option DataFrame))
}.

Inductive Response : Type :=
  | Error (status : nat) (error : string)
  | Success (report_data : Analysis.t).

Definition allowed_name (filename : string) : bool :=
  PyStr.endswith ".xlsx" (PyStr.lower filename)
  || PyStr.endswith ".xls" (PyStr.lower filename).

(** The loop over [excel_file.sheet_names]: the sheets kept for analysis. *)
Definition read_sheets (wb : list (string * option DataFrame))
  : list (string * DataFrame) :=
  foldl (fun sheets entry =>
           match entry.2 with
           | None => sheets
           | Some raw =>
               let df := clean_sheet raw in
               if negb (df_empty df) && (0 <? nrows df)
               then dict_set entry.1 df sheets
               else sheets
           end) [] wb.

(** The loop over the uploaded files.  It ends early at a file that cannot
    be opened, with the error text up to the exception's own message;
    [uploaded_files] is kept as the list of the names of the files
    accepted. *)
Fixpoint read_files (files : list FileStorage)
    (dataframes : list (string * list (string * DataFrame)))
    (uploaded_files : list string)
  : string + (list (string * list (string * DataFrame)) * list string) :=
  match files with
  | [] => inr (dataframes, uploaded_files)
  | file :: files' =>
      let filename := fs_filename file in
      if bool_decide (filename = "") then
        read_files files' dataframes uploaded_files
      else if negb (allowed_name filename) then
        read_files files' dataframes uploaded_files
      else
        match workbook file with
        | None => inl ("Failed to process " +:+ filename)
        | Some wb =>
            let sheets := read_sheets wb in
            if 0 <? length sheets then
              read_files files' (dict_set filename sheets dataframes)
                         (uploaded_files ++ [filename])
            else read_files files' dataframes uploaded_files
        end
  end.

(** [analyze_excel_data] raises where a sheet that is not empty has two
    columns of one label: [df[col]] is then a frame and not a column, and
    [detect_column_type], or at the latest [int(null_count)], raises. *)
Definition labels_collide
    (dataframes : list (string * list (string * DataFrame))) : bool :=
  existsb (fun file : string * list (string * DataFrame) =>
             existsb (fun sheet : string * DataFrame =>
                        negb (df_empty sheet.2)
                        && negb (bool_decide (NoDup (df_columns sheet.2).*1)))
                     file.2)
          dataframes.

Section Upload.
Variable rt : Runtime.

(** [upload_excel]; [request_files] is [None] where the request has no
    [excel_files] part.  The labels of a sheet as read are distinct, and can
    be equal after [strip]: the engine then raises, and the handler answers
    with status 500 and leaves [report_data] as it was. *)
Definition upload_excel (request_files : option (list FileStorage))
  : Response :=
  match request_files with
  | None => Error 400 "No files selected"
  | Some files =>
      if forallb (fun file => bool_decide (fs_filename file = "")) files
      then Error 400 "No valid files selected"
      else
        match read_files files [] [] with
        | inl error => Error 400 error
        | inr (dataframes, uploaded_files) =>
            if length uploaded_files =? 0
            then Error 400 "No valid Excel files could be processed"
            else if labels_collide dataframes
            then Error 500 "Upload failed: "
            else Success (analyze_excel_data rt dataframes)
        end
  end.

End Upload.

(** ** Column instances *)

(** A column instance: one column of one sheet of one source, with the frame
    it sits in. *)
Record Instance : Type := {
  source_name : string;
  sheet_name : string;
  frame : DataFrame;
  column_name : string;
  raw : Series
}.

(** The column key: the trimmed column name. *)
Definition column_key (i : Instance) : string := PyStr.strip (column_name i).

Definition column_type (rt : Runtime) (i : Instance) : ColumnType :=
  detect_column_type rt (raw i) (column_name i).

(** The instances the loops visit, in the order they visit them: a sheet
    that is empty is passed over. *)
Definition sheet_instances (filename : string) (sheet : string * DataFrame)
  : list Instance :=
  if df_empty sheet.2 then []
  else (fun column =>
          {| source_name := filename; sheet_name := sheet.1;
             frame := sheet.2; column_name := column.1;
             raw := column.2 |}) <$> df_columns sheet.2.

Definition file_instances (file : string * list (string * DataFrame))
  : list Instance :=
  file.2 ≫= sheet_instances file.1.

Definition instances (dataframes : list (string * list (string * DataFrame)))
  : list Instance :=
  dataframes ≫= file_instances.

(** The coerced values an instance adds to the pool of [col]: those of an
    instance classified numeric under that key, and none otherwise. *)
Definition numeric_values (rt : Runtime) (col : string) (i : Instance)
  : list Q :=
  if bool_decide (column_key i = col)
  then match column_type rt i with
       | numeric_t => to_numeric_coerce (raw i)
       | _ => []
       end
  else [].

(** What one instance does to the numeric pools. *)
Definition pool_numeric (rt : Runtime) (m : gmap string (list Q))
    (i : Instance) : gmap string (list Q) :=
  match column_type rt i with
  | numeric_t =>
      let numeric_data := to_numeric_coerce (raw i) in
      if 0 <? length numeric_data
      then <[column_key i := default [] (m !! column_key i) ++ numeric_data]> m
      else m
  | _ => m
  end.

(** What one instance does to the categorical counts. *)
Definition pool_categorical (rt : Runtime)
    (m : gmap string (gmap string nat)) (i : Instance)
  : gmap string (gmap string nat) :=
  match column_type rt i with
  | categorical_t => fold_categorical rt (column_key i) (raw i) m
  | _ => m
  end.

(** The data quality record of an instance, from its own column and the row
    count of its own sheet. *)
Definition quality_of (i : Instance) : DataQuality.t :=
  data_quality_of (frame i) (raw i).

(** [counts[key] = counts.get(key, 0) + n] *)
Definition add_count (counts : gmap string nat) (key : string) (n : nat)
  : gmap string nat :=
  <[key := default 0 (counts !! key) + n]> counts.

(** The counts of one key after the items of one [value_counts]. *)
Definition tally (rt : Runtime) (items : list (cell * nat))
    (counts : gmap string nat) : gmap string nat :=
  foldl (fun counts item =>
           if negb (isnull item.1)
           then add_count counts (PyStr.strip (py_str rt item.1)) item.2
           else counts) counts items.

(** What one sheet does to the shape summary of its file. *)
Definition sheet_header (fs : FileSummary.t) (sheet : string * DataFrame)
  : FileSummary.t :=
  if df_empty sheet.2 then fs
  else
    {| FileSummary.filename := FileSummary.filename fs;
       FileSummary.sheets :=
         <[sheet.1 := {| SheetSummary.rows := nrows sheet.2;
                         SheetSummary.columns := length (df_columns sheet.2);
                         SheetSummary.column_names := fst <$> df_columns sheet.2 |}]>
           (FileSummary.sheets fs);
       FileSummary.total_rows := FileSummary.total_rows fs + nrows sheet.2;
       FileSummary.total_columns :=
         Nat.max (FileSummary.total_columns fs) (length (df_columns sheet.2)) |}.

(** The sheets of a file that are analysed. *)
Definition nonempty_sheets (sheets : list (string * DataFrame))
  : list (string * DataFrame) :=
  List.filter (fun sheet => negb (df_empty sheet.2)) sheets.

(** The data quality records of a file after its instances: each instance
    writes its record under its column key. *)
Definition file_quality (l : list Instance) : gmap string DataQuality.t :=
  foldl (fun m i => <[column_key i := quality_of i]> m) ∅ l.

(** The shape a file's summary reports: its name, the sum of the row counts
    and the largest column count of the sheets analysed. *)
Definition file_shape (file : string * list (string * DataFrame))
  : string * nat * nat :=
  (file.1,
   sum_list ((fun sheet => nrows sheet.2) <$> nonempty_sheets file.2),
   max_list ((fun sheet => length (df_columns sheet.2))
               <$> nonempty_sheets file.2)).

(** ** Sample inputs *)

(** One file whose two sheets both have a column [Dept]; in the first sheet
    one department is missing. *)
Definition jan_dept : Series := SObject [Str "Eng"; NaN].
Definition feb_dept : Series := SObject [Str "Eng"; Str "HR"; Str "Ops"].
Definition jan_sheet : DataFrame :=
  {| nrows := 2;
     df_columns := [("Name", SObject [Str "Ann"; Str "Bob"]);
                    ("Dept", jan_dept)] |}.
Definition feb_sheet : DataFrame :=
  {| nrows := 3;
     df_columns := [("Name", SObject [Str "Ann"; Str "Bob"; Str "Cy"]);
                    ("Dept", feb_dept)] |}.
Definition two_sheets : list (string * DataFrame) :=
  [("Jan", jan_sheet); ("Feb", feb_sheet)].
Definition two_sheet_input : list (string * list (string * DataFrame)) :=
  [("hr.xlsx", two_sheets)].

(** One file whose sheets have two and three columns, one name in common. *)
Definition staff_sheet : DataFrame :=
  {| nrows := 2;
     df_columns := [("Name", SObject [Str "Ann"; Str "Bob"]);
                    ("Age", SInt [31; 45]%Z)] |}.
Definition pay_sheet : DataFrame :=
  {| nrows := 3;
     df_columns := [("Name", SObject [Str "Ann"; Str "Bob"; Str "Cy"]);
                    ("Salary", SInt [50000; 60000; 70000]%Z);
                    ("Grade", SObject [Str "A"; Str "B"; Str "A"])] |}.
Definition staff_input : list (string * list (string * DataFrame)) :=
  [("staff.xlsx", [("Staff", staff_sheet); ("Pay", pay_sheet)])].

(** The column name as the classifier tests it. *)
Definition column_name_lower (column_name : string) : string :=
  PyStr.strip (PyStr.lower column_name).

(** The column pandas builds from a list of values: [int64] for integers
    alone, [float64] for numbers with a fraction or a gap among them, [bool]
    for booleans alone, [datetime64] for timestamps, and [object] for any
    other mixture. *)
Definition Series_of (l : list cell) : Series :=
  let all_of (kind : cell -> bool) := forallb kind l in
  match l with
  | [] => SObject []
  | _ =>
      if all_of (fun c => match c with Int _ => true | _ => false end) then
        SInt (omap (fun c => match c with Int z => Some z | _ => None end) l)
      else if all_of (fun c => match c with
                               | Int _ | Float _ | NaN => true
                               | _ => false
                               end) then
        SFloat (number_of <$> l)
      else if all_of (fun c => match c with Bool _ => true | _ => false end) then
        SBool (omap (fun c => match c with Bool b => Some b | _ => None end) l)
      else if all_of (fun c => match c with
                               | Timestamp _ | NaN => true
                               | _ => false
                               end) then
        SDatetime ((fun c => match c with Timestamp ns => Some ns | _ => None end)
                     <$> l)
      else SObject l
  end.

(** The salary column of the scenario, with the text [N/A] as a value, and
    with that cell read as a missing value. *)
Definition salary_raw : list cell :=
  [Int 50000; Int 60000; Int 70000; Str "N/A"; Int 80000].
Definition salary_decoded : list cell :=
  [Int 50000; Int 60000; Int 70000; NaN; Int 80000].

Definition salary_sheet (values : list cell) : DataFrame :=
  {| nrows := 5;
     df_columns :=
       [("Name", SObject [Str "Ann"; Str "Bob"; Str "Cy"; Str "Dee";
                          Str "Eli"]);
        ("Salary", Series_of values)] |}.

Definition salary_input (values : list cell)
  : list (string * list (string * DataFrame)) :=
  [("hr.xlsx", [("Sheet1", salary_sheet values)])].

(** The upload of that workbook. *)
Definition salary_upload (values : list cell) : list FileStorage :=
  [{| fs_filename := "hr.xlsx";
      workbook := Some [("Sheet1", Some (salary_sheet values))] |}].

(** Twenty-one codes, and a column that holds each of them twice. *)
Definition codes : list string :=
  ["A"; "B"; "C"; "D"; "E"; "F"; "G"; "H"; "I"; "J"; "K"; "L"; "M"; "N";
   "O"; "P"; "Q"; "R"; "S"; "T"; "U"].
Definition notes_column : Series := SObject (Str <$> codes ++ codes).
Definition twenty_codes_column : Series := SObject (Str <$> take 20 codes).

(** Step 2 of the classifier answers [date]: the name holds a date keyword
    and the first ten values parse. *)
Definition date_step (rt : Runtime) (series : Series) (column_name : string)
  : bool :=
  PyStr.any_in date_keywords (column_name_lower column_name)
  && to_datetime_raise rt (take 10 (dropna series)).

(** The sheets of an uploaded file that reach the engine. *)
Definition usable_sheets (file : FileStorage) : list (string * DataFrame) :=
  if bool_decide (fs_filename file = "") || negb (allowed_name (fs_filename file))
  then []
  else match workbook file with
       | None => []
       | Some wb => read_sheets wb
       end.

(** An upload of one workbook whose only sheet has rows of missing values
    alone. *)
Definition blank_upload : list FileStorage :=
  [{| fs_filename := "empty.xlsx";
      workbook :=
        Some [("Sheet1",
               Some {| nrows := 2;
                       df_columns := [("Name", SObject [NaN; NaN])] |})] |}].

(** One file with a single numeric column of two values. *)
Definition pair_input : list (string * list (string * DataFrame)) :=
  [("pay.xlsx",
    [("Sheet1", {| nrows := 2;
                   df_columns := [("Salary", SInt [1; 3]%Z)] |})])].

(** The sheets the engine analyses, over all files. *)
Definition analysed_sheets
    (dataframes : list (string * list (string * DataFrame)))
  : list (string * DataFrame) :=
  dataframes ≫= (fun file => nonempty_sheets file.2).

(** What the upload handler hands to the engine for a file: at least one
    sheet, none of them empty. *)
Definition kept_file (file : string * list (string * DataFrame)) : Prop :=
  file.2 <> [] /\ Forall (fun sheet => df_empty sheet.2 = false) file.2.

(** The occurrences of the value key [k] among the items of one
    [value_counts]. *)
Definition value_tally (rt : Runtime) (k : string) (items : list (cell * nat))
  : nat :=
  sum_list ((fun item =>
               if negb (isnull item.1)
                  && bool_decide (PyStr.strip (py_str rt item.1) = k)
               then item.2 else 0) <$> items).

(** The occurrences of the value key [k] that an instance adds under the
    column key [col]. *)
Definition categorical_occurrences (rt : Runtime) (col k : string)
    (i : Instance) : nat :=
  if bool_decide (column_key i = col)
  then match column_type rt i with
       | categorical_t => value_tally rt k (value_counts (raw i))
       | _ => 0
       end
  else 0.

(** The count read from the categorical aggregate, 0 where the column key or
    the value key is absent. *)
Definition count_of (m : gmap string (gmap string nat)) (col k : string) : nat :=
  default 0 (default ∅ (m !! col) !! k).

(** The two sources of the department scenario. *)
Definition department_input : list (string * list (string * DataFrame)) :=
  [("a.xlsx",
    [("Sheet1", {| nrows := 3;
                   df_columns :=
                     [("Department", SObject [Str "Eng"; Str "Eng"; Str "Sales"])] |})]);
   ("b.xlsx",
    [("Sheet1", {| nrows := 2;
                   df_columns :=
                     [("Department", SObject [Str "HR"; Str "Eng"])] |})])].

(** Two sources with a numeric column of the same name, of three values and
    of one. *)
Definition uneven_input : list (string * list (string * DataFrame)) :=
  [("a.xlsx",
    [("Sheet1", {| nrows := 3;
                   df_columns := [("Salary", SInt [1; 2; 3]%Z)] |})]);
   ("b.xlsx",
    [("Sheet1", {| nrows := 1;
                   df_columns := [("Salary", SInt [10]%Z)] |})])].

(** ** Further views of the aggregation *)

(** The timestamps an instance adds to the pool of [col]: those of an
    instance classified date under that key, and none otherwise. *)
Definition date_values (rt : Runtime) (col : string) (i : Instance)
  : list Z :=
  if bool_decide (column_key i = col)
  then match column_type rt i with
       | date_t => to_datetime_coerce rt (raw i)
       | _ => []
       end
  else [].

(** What one instance does to the date pools. *)
Definition pool_dates (rt : Runtime) (m : gmap string (list Z))
    (i : Instance) : gmap string (list Z) :=
  match column_type rt i with
  | date_t =>
      let date_data := to_datetime_coerce rt (raw i) in
      if 0 <? length date_data
      then <[column_key i := default [] (m !! column_key i) ++ date_data]> m
      else m
  | _ => m
  end.

(** What one instance does to the numeric statistics of its file. *)
Definition stats_step (rt : Runtime) (m : gmap string NumericStats.t)
    (i : Instance) : gmap string NumericStats.t :=
  match column_type rt i with
  | numeric_t =>
      let numeric_data := to_numeric_coerce (raw i) in
      if 0 <? length numeric_data
      then <[column_key i := numeric_stats_of numeric_data]> m
      else m
  | _ => m
  end.

(** The analysis stored for a file, from the instances of that file. *)
Definition file_analysis_of (rt : Runtime) (l : list Instance)
  : FileAnalysis.t :=
  {| FileAnalysis.numeric_stats := foldl (stats_step rt) ∅ l;
     FileAnalysis.categorical_counts := ∅;
     FileAnalysis.data_quality := file_quality l |}.

(** An instance is classified numeric under the column key [col]. *)
Definition numeric_under (rt : Runtime) (col : string) (i : Instance) : Prop :=
  column_key i = col /\ column_type rt i = numeric_t.

Global Instance numeric_under_dec rt col i : Decision (numeric_under rt col i).
Proof. unfold numeric_under. apply _. Defined.

(** One file whose two sheets both have a numeric column [Salary]. *)
Definition two_pay_sheets : list (string * DataFrame) :=
  [("Jan", {| nrows := 2; df_columns := [("Salary", SInt [1; 3]%Z)] |});
   ("Feb", {| nrows := 3; df_columns := [("Salary", SInt [10; 20; 30]%Z)] |})].
Definition two_pay_input : list (string * list (string * DataFrame)) :=
  [("pay.xlsx", two_pay_sheets)].

(** The column keys under which some instance is classified [ty]. *)
Definition keys_of_type (rt : Runtime) (ty : ColumnType)
    (dataframes : list (string * list (string * DataFrame))) : gset string :=
  list_to_set
    (column_key <$> filter (fun i => column_type rt i = ty) (instances dataframes)).

(** The column keys under which some instance classified date yields a
    timestamp. *)
Definition dated_keys (rt : Runtime)
    (dataframes : list (string * list (string * DataFrame))) : gset string :=
  list_to_set
    (column_key
       <$> filter (fun i => column_type rt i = date_t
                            /\ to_datetime_coerce rt (raw i) <> [])
                  (instances dataframes)).

(** ** Views of the upload *)

(** Every column of the frame has one cell per row. *)
Definition well_formed (df : DataFrame) : Prop :=
  Forall (fun column => length (values column.2) = nrows df) (df_columns df).

(** The cell of a column at a row. *)
Definition cell_at (series : Series) (row : nat) : cell :=
  nth row (values series) NaN.

(** What classification and aggregation read of a column: its name, its
    dtype and the values present in it. *)
Definition column_content (column : string * Series)
  : string * dtype * list cell :=
  (column.1, dtype_of column.2, dropna column.2).

(** The position in [mask] of the row that comes out as row [row]. *)
Fixpoint kept_position (mask : list bool) (row : nat) : nat :=
  match mask with
  | [] => 0
  | true :: mask' =>
      match row with
      | 0 => 0
      | S row' => S (kept_position mask' row')
      end
  | false :: mask' => S (kept_position mask' row)
  end.

(** A sheet as read, with a blank second row, a blank column and a column
    name in blanks. *)
Definition ragged_sheet : DataFrame :=
  {| nrows := 3;
     df_columns :=
       [(" Name ", SObject [Str "Ann"; NaN; Str "Bob"]);
        ("Empty", SFloat [None; None; None]);
        ("Age", SFloat [Some 31%Q; None; Some 45%Q])] |}.

(** An uploaded file is accepted when some sheet of it reaches the engine. *)
Definition accepted (file : FileStorage) : bool :=
  0 <? length (usable_sheets file).



(** The accepted uploads that carry the file name [name], in upload order. *)
Definition uploads_of (name : string) (files : list FileStorage)
  : list FileStorage :=
  List.filter (fun file => accepted file && bool_decide (fs_filename file = name))
              files.

(** An upload of three files: two of them carry the same name, the third is
    no workbook by its name. *)
Definition repeated_upload : list FileStorage :=
  [{| fs_filename := "staff.xlsx";
      workbook :=
        Some [("Sheet1",
               Some {| nrows := 2;
                       df_columns := [("Name", SObject [Str "Ann"; Str "Bob"])] |})] |};
   {| fs_filename := "notes.txt"; workbook := None |};
   {| fs_filename := "staff.xlsx";
      workbook :=
        Some [("Sheet1",
               Some {| nrows := 1;
                       df_columns := [("Name", SObject [Str "Cid"])] |});
              ("Sheet1",
               Some {| nrows := 1;
                       df_columns := [("Name", SObject [Str "Dan"])] |})] |}].

(** ** The report *)

(** [sorted(data.items(), key=lambda x: x[1], reverse=True)]: the largest
    count first.  Python's sort is stable, also under [reverse=True]: items
    of one count keep their order. *)
Fixpoint insert_by_count (x : string * nat) (l : list (string * nat))
  : list (string * nat) :=
  match l with
  | [] => [x]
  | y :: l' => if x.2 <? y.2 then y :: insert_by_count x l' else x :: l
  end.

Definition sorted_by_count (items : list (string * nat))
  : list (string * nat) :=
  foldr insert_by_count [] items.

(** The [chart_type] of a call of [create_professional_chart], with the
    [data] that go with it: the items of a dict of counts, or a list of
    numbers. *)
Inductive ChartRequest : Type :=
  | categorical_pie (data : list (string * nat))
  | categorical_bar (data : list (string * nat))
  | numeric_histogram (data : list Q).

(** The [subtitle] of a chart, as the values its f-string interpolates. *)
Inductive Subtitle : Type :=
  | TotalRecords (total_records : nat) (showing_top_20 : bool)
  | SampleSize (records : nat).

(** What a chart shows. *)
Inductive Drawing : Type :=
  | Pie (sorted_data : list (string * nat))
  | Bars (sorted_data : list (string * nat))
  | Histogram (column_name : string) (bins : nat) (mean_val : Q)
      (std_val : Sqrt) (samples : nat).

(** A chart saved in the temporary folder; [chart_path] is kept relative to
    that folder. *)
Record Chart : Type := {
  chart_path : string;
  title : string;
  subtitle : Subtitle;
  drawing : Drawing
}.

Definition create_professional_chart (request : ChartRequest)
    (title filename column_name : string) (subtitle : Subtitle) : Chart :=
  {| chart_path := filename;
     title := title;
     subtitle := subtitle;
     drawing :=
       match request with
       | categorical_pie data => Pie (take 12 (sorted_by_count data))
       | categorical_bar data => Bars (take 20 (sorted_by_count data))
       | numeric_histogram data =>
           Histogram column_name
             (Nat.min 30 (Nat.max 10 (length (unique (Float <$> data)) / 3)))
             (mean_of data) (np_std data) (length data)
       end |}.

Inductive Raised : Type := AttributeError.

(** [create_time_series_chart].  For a list that is not empty,
    [pd.to_datetime(date_data)] is a [DatetimeIndex], and so is [dates] after
    [sort_values()]; the timeline is drawn, and [dates.dt] then raises
    [AttributeError], as the [.dt] accessor is one of a [Series] only.  No
    chart is saved. *)
Definition create_time_series_chart (date_data : list Z)
    (column_name filename : string) : Raised + option Chart :=
  match date_data with
  | [] => inr None
  | _ :: _ => inl AttributeError
  end.

Inductive Style : Type :=
  | title_style | subtitle_style | heading_style | normal_style.

(** The text of a paragraph: a string, or the values an f-string with
    number formats interpolates. *)
Inductive Text : Type :=
  | Literal (s : string)
  | GeneratedOn
  | NumberedInsight (i : nat) (insight : Insight)
  | MostCommon (top_3 : list (string * Q))
  | Statistics (mean_val median_val min_val max_val : Q) (std_val : Sqrt)
  | DateRange (min_date max_date : Z) (total_records : nat).

Inductive Flowable : Type :=
  | Paragraph (text : Text) (style : Style)
  | Spacer (height : nat)
  | SummaryTable (rows : list (string * nat * string))
  | PageBreak
  | Image (chart : Chart).

(** The analysis as the report reads it: the dicts of [charts_data] as the
    lists of their items, in the order of iteration. *)
Module ReportData.
Record t : Type := {
  summary : Summary.t;
  insights : list Insight;
  categorical : list (string * list (string * nat));
  numeric : list (string * list Q);
  dates : list (string * list Z)
}.
End ReportData.

Definition chart_filename (kind : string) (chart_count : nat) : string :=
  kind +:+ PyStr.of_Z (Z.of_nat chart_count) +:+ ".png".

(** The chart of a categorical column: a pie for up to 8 categories, bars
    otherwise. *)
Definition categorical_chart (chart_count : nat) (col_name : string)
    (cat_data : list (string * nat)) : Chart :=
  let total_records := sum_list cat_data.*2 in
  if length cat_data <=? 8 then
    create_professional_chart (categorical_pie cat_data)
      (col_name +:+ " Distribution") (chart_filename "cat_pie_" chart_count)
      col_name (TotalRecords total_records false)
  else
    create_professional_chart (categorical_bar cat_data)
      (col_name +:+ " Distribution") (chart_filename "cat_bar_" chart_count)
      col_name (TotalRecords total_records true).

(** [top_3] with the percentage of each value. *)
Definition most_common (cat_data : list (string * nat)) : list (string * Q) :=
  let total_records := sum_list cat_data.*2 in
  (fun item => (item.1, (Qnat item.2 / Qnat total_records * 100)%Q))
    <$> take 3 (sorted_by_count cat_data).

(** What the loop over the categorical columns appends for a column it
    charts. *)
Definition categorical_block (chart_count : nat)
    (entry : string * list (string * nat)) : list Flowable :=
  [Paragraph (Literal ("📋 " +:+ entry.1 +:+ " Analysis")) heading_style;
   Paragraph (MostCommon (most_common entry.2)) normal_style;
   Image (categorical_chart chart_count entry.1 entry.2);
   Spacer 20].

Definition categorical_step (acc : nat * list Flowable)
    (entry : string * list (string * nat)) : nat * list Flowable :=
  if 1 <? length entry.2
  then (S acc.1, acc.2 ++ categorical_block (S acc.1) entry)
  else acc.

Definition numeric_chart (chart_count : nat) (col_name : string)
    (num_data : list Q) : Chart :=
  create_professional_chart (numeric_histogram num_data)
    (col_name +:+ " Distribution Analysis")
    (chart_filename "num_hist_" chart_count)
    col_name (SampleSize (length num_data)).

Definition numeric_block (chart_count : nat) (entry : string * list Q)
  : list Flowable :=
  [Paragraph (Literal ("📊 " +:+ entry.1 +:+ " Statistical Analysis"))
     heading_style;
   Paragraph (Statistics (mean_of entry.2) (median_of entry.2)
                (min_of entry.2) (max_of entry.2) (np_std entry.2))
     normal_style;
   Image (numeric_chart chart_count entry.1 entry.2);
   Spacer 20].

Definition numeric_step (acc : nat * list Flowable)
    (entry : string * list Q) : nat * list Flowable :=
  if 1 <? length entry.2
  then (S acc.1, acc.2 ++ numeric_block (S acc.1) entry)
  else acc.

(** [min(dates)] and [max(dates)] of a list that is not empty. *)
Definition min_date (dates : list Z) : Z :=
  match dates with
  | [] => 0%Z
  | x :: l => foldl Z.min x l
  end.

Definition max_date (dates : list Z) : Z :=
  match dates with
  | [] => 0%Z
  | x :: l => foldl Z.max x l
  end.

Definition temporal_step (acc : Raised + nat * list Flowable)
    (entry : string * list Z) : Raised + nat * list Flowable :=
  match acc with
  | inl e => inl e
  | inr (chart_count, story) =>
      if 1 <? length entry.2 then
        let chart_count := S chart_count in
        match create_time_series_chart entry.2 entry.1
                (chart_filename "date_analysis_" chart_count) with
        | inl e => inl e
        | inr None => inr (chart_count, story)
        | inr (Some chart) =>
            inr (chart_count,
                 story
                 ++ [Paragraph (Literal ("📅 " +:+ entry.1
                                         +:+ " Temporal Analysis"))
                       heading_style;
                     Paragraph (DateRange (min_date entry.2)
                                  (max_date entry.2) (length entry.2))
                       normal_style;
                     Image chart;
                     Spacer 20])
        end
      else acc
  end.

(** The rows of [summary_data] under its header row. *)
Definition summary_data (summary : Summary.t) : list (string * nat * string) :=
  [("Files Analyzed", Summary.total_files summary,
    "Total Excel files processed");
   ("Total Records", Summary.total_rows summary,
    "Combined data rows across all files");
   ("Data Columns", Summary.total_columns summary,
    "Unique column types identified");
   ("Numeric Fields", Summary.numeric_columns summary,
    "Quantitative analysis columns");
   ("Category Fields", Summary.categorical_columns summary,
    "Classification/grouping columns");
   ("Date Fields", Summary.date_columns summary,
    "Temporal analysis columns")].

(** The story up to the charts: title page, summary and insights. *)
Definition front_matter (analysis : ReportData.t)
    (report_title company_name : string) : list Flowable :=
  [Paragraph (Literal company_name) title_style;
   Paragraph (Literal report_title) subtitle_style;
   Paragraph GeneratedOn normal_style;
   Spacer 30;
   Paragraph (Literal "📊 Executive Summary") heading_style;
   SummaryTable (summary_data (ReportData.summary analysis));
   Spacer 25;
   Paragraph (Literal "🔍 Key Data Insights") heading_style]
  ++ imap (fun i insight => Paragraph (NumberedInsight (S i) insight)
                              normal_style)
          (ReportData.insights analysis)
  ++ [PageBreak].

Definition categorical_section (acc : nat * list Flowable)
    (categorical_data : list (string * list (string * nat)))
  : nat * list Flowable :=
  match categorical_data with
  | [] => acc
  | _ :: _ =>
      foldl categorical_step
        (acc.1,
         acc.2 ++ [Paragraph (Literal "📊 Categorical Data Analysis")
                     heading_style])
        (take 6 categorical_data)
  end.

Definition numeric_section (acc : nat * list Flowable)
    (numeric_data : list (string * list Q)) : nat * list Flowable :=
  match numeric_data with
  | [] => acc
  | _ :: _ =>
      foldl numeric_step
        (acc.1,
         acc.2 ++ [PageBreak;
                   Paragraph (Literal "📈 Numeric Data Analysis")
                     heading_style])
        (take 5 numeric_data)
  end.

Definition date_section (acc : nat * list Flowable)
    (date_data : list (string * list Z)) : Raised + nat * list Flowable :=
  match date_data with
  | [] => inr acc
  | _ :: _ =>
      foldl temporal_step
        (inr (acc.1,
              acc.2 ++ [PageBreak;
                        Paragraph (Literal "📅 Temporal Data Analysis")
                          heading_style]))
        (take 3 date_data)
  end.

(** [generate_pdf_report], up to [doc.build(story)]: the story that is built,
    or the exception that ends the function.  The name of the PDF comes from the
    clock and is left out. *)
Definition generate_pdf_report (analysis : ReportData.t)
    (report_title company_name : string) : Raised + list Flowable :=
  let story := front_matter analysis report_title company_name in
  let chart_count := 0 in
  let acc := categorical_section (chart_count, story)
               (ReportData.categorical analysis) in
  let acc := numeric_section acc (ReportData.numeric analysis) in
  match date_section acc (ReportData.dates analysis) with
  | inl e => inl e
  | inr (_, story) => inr story
  end.

(** A flowable is no paragraph on the range of a date column. *)
Definition no_date_range (flowable : Flowable) : Prop :=
  match flowable with
  | Paragraph (DateRange _ _ _) _ => False
  | _ => True
  end.

(** The charts of a story, in order. *)
Definition images (story : list Flowable) : list Chart :=
  omap (fun flowable =>
          match flowable with Image chart => Some chart | _ => None end)
       story.

(** The columns a section of the report charts: those among the first
    [limit] with more than one entry. *)
Definition charted {A : Type} (limit : nat) (items : list (string * list A))
  : list (string * list A) :=
  List.filter (fun entry => 1 <? length entry.2) (take limit items).

(** Counts that fall, or stay, along a list of items. *)
Fixpoint descending (l : list (string * nat)) : Prop :=
  match l with
  | [] => True
  | x :: l' => Forall (fun y => y.2 <= x.2) l' /\ descending l'
  end.

(** The file names of the charts of a report: the kind of each chart with
    its number. *)
Definition chart_kinds (analysis : ReportData.t) : list string :=
  ((fun entry : string * list (string * nat) =>
      if length entry.2 <=? 8 then "cat_pie_" else "cat_bar_")
     <$> charted 6 (ReportData.categorical analysis))
  ++ ((fun _ : string * list Q => "num_hist_")
        <$> charted 5 (ReportData.numeric analysis)).

(** An analysis with a categorical column of three values, one of a single
    value, and a numeric column. *)
Definition staff_report : ReportData.t :=
  {| ReportData.summary :=
       {| Summary.total_files := 1; Summary.total_rows := 5;
          Summary.total_columns := 3; Summary.numeric_columns := 1;
          Summary.categorical_columns := 2; Summary.date_columns := 0 |};
     ReportData.insights := [Analyzed 1 5; FoundNumeric 1];
     ReportData.categorical :=
       [("Site", [("Leeds", 5)]);
        ("Department", [("Sales", 1); ("Eng", 3); ("HR", 1)])];
     ReportData.numeric := [("Salary", [1; 2; 3; 10]%Q)];
     ReportData.dates := [] |}.

(** The same analysis with a date column of two dates. *)
Definition dated_report : ReportData.t :=
  {| ReportData.summary := ReportData.summary staff_report;
     ReportData.insights := ReportData.insights staff_report;
     ReportData.categorical := ReportData.categorical staff_report;
     ReportData.numeric := ReportData.numeric staff_report;
     ReportData.dates := [("Hire Date", [1577836800; 1609459200]%Z)] |}.

(** ** The report handler and the state of the server *)

(** A JSON value, as [request.json] has returned it; [JNull] is [None]. *)
#[warnings="-register-all"]
Inductive JSON : Type :=
  | JNull
  | JBool (b : bool)
  | JNumber (q : Q)
  | JString (s : string)
  | JArray (elements : list JSON)
  | JObject (members : list (string * JSON)).

(** [bool(value)] *)
Definition truthy (value : JSON) : bool :=
  match value with
  | JNull => false
  | JBool b => b
  | JNumber q => negb (Qeq_bool q 0)
  | JString s => negb (bool_decide (s = ""))
  | JArray elements => 0 <? length elements
  | JObject members => 0 <? length members
  end.

(** [data.get(key, default).strip()] on the members of a JSON object, of
    which the last one of a name counts: a member that is no string has no
    [strip]. *)
Definition text_field (key default : string) (members : list (string * JSON))
  : Raised + string :=
  match last (List.filter (fun member => bool_decide (member.1 = key))
                          members) with
  | None => inr (PyStr.strip default)
  | Some (_, JString s) => inr (PyStr.strip s)
  | Some _ => inl AttributeError
  end.

(** The answer to a report request: an error with its status and its text up
    to the exception's own message, or the report that was built. *)
Inductive Reply : Type :=
  | Failed (status : nat) (error : string)
  | Generated (story : list Flowable).

(** What [report_data] is read as when its dicts are iterated: the same
    summary and insights, and the items of each dict of [charts_data] in some
    order. *)
Definition reads (analysis : Analysis.t) (report : ReportData.t) : Prop :=
  ReportData.summary report = Analysis.summary analysis
  /\ ReportData.insights report = Analysis.insights analysis
  /\ (prod_map id list_to_map <$> ReportData.categorical report)
     ≡ₚ map_to_list (Charts.categorical (Analysis.charts_data analysis))
  /\ Forall (fun entry => NoDup entry.2.*1) (ReportData.categorical report)
  /\ ReportData.numeric report
     ≡ₚ map_to_list (Charts.numeric (Analysis.charts_data analysis))
  /\ ReportData.dates report
     ≡ₚ map_to_list (Charts.dates (Analysis.charts_data analysis)).

(** The reading in the order of the keys. *)
Definition in_key_order (analysis : Analysis.t) : ReportData.t :=
  {| ReportData.summary := Analysis.summary analysis;
     ReportData.insights := Analysis.insights analysis;
     ReportData.categorical :=
       prod_map id map_to_list
         <$> map_to_list (Charts.categorical (Analysis.charts_data analysis));
     ReportData.numeric :=
       map_to_list (Charts.numeric (Analysis.charts_data analysis));
     ReportData.dates :=
       map_to_list (Charts.dates (Analysis.charts_data analysis)) |}.

Section Server.
Variable rt : Runtime.

(** The order in which the dicts of an analysis are iterated. *)
Variable items : Analysis.t -> ReportData.t.

(** [generate_reports]; [report_data] is [None] for the empty dict the
    server starts with. *)
Definition generate_reports (report_data : option Analysis.t) (data : JSON)
  : Reply :=
  match report_data with
  | None => Failed 400 "No data available. Please upload Excel files first."
  | Some analysis =>
      if negb (truthy data) then Failed 400 "Invalid request data" else
      match data with
      | JObject members =>
          match text_field "report_title" "HR Monthly Report" members with
          | inl _ => Failed 500 "Failed to generate reports: "
          | inr report_title =>
              match text_field "company_name" "Company" members with
              | inl _ => Failed 500 "Failed to generate reports: "
              | inr company_name =>
                  match generate_pdf_report (items analysis) report_title
                          company_name with
                  | inl _ => Failed 500 "Failed to generate reports: "
                  | inr story => Generated story
                  end
              end
          end
      | _ => Failed 500 "Failed to generate reports: "
      end
  end.






End Server.

(** One workbook with a column of two hire dates. *)
Definition hires_input : list (string * list (string * DataFrame)) :=
  [("hires.xlsx",
    [("Sheet1",
      {| nrows := 2;
         df_columns :=
           [("Name", SObject [Str "Ann"; Str "Bob"]);
            ("Hire Date",
             SDatetime [Some 1577836800%Z; Some 1609459200%Z])] |})])].

(** An upload of one workbook whose two labels are equal once stripped. *)
Definition collided_upload : list FileStorage :=
  [{| fs_filename := "staff.xlsx";
      workbook :=
        Some [("Sheet1",
               Some {| nrows := 2;
                       df_columns :=
                         [("Name", SObject [Str "Ann"; Str "Bob"]);
                          (" Name", SObject [Str "A."; Str "B."])] |})] |}].


(** * Properties *)

(** ** Folds *)

Lemma foldl_proj {S X A : Type} (P : S -> X) (f : S -> A -> S)
    (g : X -> A -> X) (l : list A) (s : S) :
  (forall s a, P (f s a) = g (P s) a) ->
  P (foldl f s l) = foldl g (P s) l.
Proof.
  intros Hstep. revert s.
  induction l as [|a l IH]; intros s; simpl; [done|].
  by rewrite IH, Hstep.
Qed.

Lemma foldl_kept {S X A : Type} (P : S -> X) (f : S -> A -> S)
    (l : list A) (s : S) :
  (forall s a, P (f s a) = P s) -> P (foldl f s l) = P s.
Proof.
  intros Hstep. revert s.
  induction l as [|a l IH]; intros s; simpl; [done|].
  by rewrite IH, Hstep.
Qed.

Lemma foldl_bind {X A B : Type} (g : X -> B -> X) (h : A -> list B)
    (l : list A) (x : X) :
  foldl g x (l ≫= h) = foldl (fun x a => foldl g x (h a)) x l.
Proof.
  revert x. induction l as [|a l IH]; intros x; simpl; [done|].
  by rewrite foldl_app, IH.
Qed.

Lemma foldl_fmap' {X A B : Type} (g : X -> B -> X) (h : A -> B)
    (l : list A) (x : X) :
  foldl g x (h <$> l) = foldl (fun x a => g x (h a)) x l.
Proof. revert x. induction l as [|a l IH]; intros x; simpl; auto. Qed.

(** ** From the loops to folds over the instances *)

Section Loops.
Variable rt : Runtime.

(** A view [p] of the charts that every column changes by [g] changes by
    the fold of [g] over the instances of the whole input. *)
Section Charts_view.
Context {X : Type} (p : Charts.t -> X) (g : X -> Instance -> X).
Hypothesis column_step : forall filename sheet_name df st col series,
  p (charts_data (analyze_column rt filename sheet_name df st (col, series)))
  = g (p (charts_data st))
      {| source_name := filename; sheet_name := sheet_name; frame := df;
         column_name := col; raw := series |}.

Lemma charts_view_sheet filename st sheet :
  p (charts_data (analyze_sheet rt filename st sheet))
  = foldl g (p (charts_data st)) (sheet_instances filename sheet).
Proof.
  destruct sheet as [name df]. unfold analyze_sheet, sheet_instances. simpl.
  destruct (df_empty df); [done|].
  rewrite foldl_fmap'.
  rewrite (foldl_proj (fun st => p (charts_data st)) _
             (fun x column =>
                g x {| source_name := filename; sheet_name := name;
                       frame := df; column_name := column.1;
                       raw := column.2 |})).
  - done.
  - intros s [col series]. apply column_step.
Qed.

Lemma charts_view_file st file :
  p (charts_data (analyze_file rt st file))
  = foldl g (p (charts_data st)) (file_instances file).
Proof.
  destruct file as [filename sheets]. unfold analyze_file, file_instances.
  simpl. rewrite foldl_bind.
  rewrite (foldl_proj (fun st => p (charts_data st)) _
             (fun x sheet => foldl g x (sheet_instances filename sheet))).
  - done.
  - intros s sheet. apply charts_view_sheet.
Qed.

Lemma charts_view_all st dataframes :
  p (charts_data (foldl (analyze_file rt) st dataframes))
  = foldl g (p (charts_data st)) (instances dataframes).
Proof.
  unfold instances. rewrite foldl_bind.
  apply (foldl_proj (fun st => p (charts_data st))).
  intros s file. apply charts_view_file.
Qed.
End Charts_view.

Lemma numeric_pools dataframes :
  Charts.numeric (Analysis.charts_data (analyze_excel_data rt dataframes))
  = foldl (pool_numeric rt) ∅ (instances dataframes).
Proof.
  unfold analyze_excel_data. simpl.
  apply (charts_view_all Charts.numeric (pool_numeric rt)).
  intros filename sheet df st col series.
  unfold analyze_column, pool_numeric, column_type, column_key. simpl.
  destruct (detect_column_type rt series col); simpl; try done.
  by destruct (0 <? length (to_numeric_coerce series)).
  by destruct (0 <? length (to_datetime_coerce rt series)).
Qed.

Lemma categorical_pools dataframes :
  Charts.categorical (Analysis.charts_data (analyze_excel_data rt dataframes))
  = foldl (pool_categorical rt) ∅ (instances dataframes).
Proof.
  unfold analyze_excel_data. simpl.
  apply (charts_view_all Charts.categorical (pool_categorical rt)).
  intros filename sheet df st col series.
  unfold analyze_column, pool_categorical, column_type, column_key. simpl.
  destruct (detect_column_type rt series col); simpl; try done.
  by destruct (0 <? length (to_numeric_coerce series)).
  by destruct (0 <? length (to_datetime_coerce rt series)).
Qed.

End Loops.

(** ** Numeric pools *)

Lemma numeric_values_other rt col i :
  column_key i <> col -> numeric_values rt col i = [].
Proof.
  intros Hne. unfold numeric_values.
  by rewrite bool_decide_eq_false_2.
Qed.

Lemma numeric_values_same rt i :
  column_type rt i = numeric_t ->
  numeric_values rt (column_key i) i = to_numeric_coerce (raw i).
Proof.
  intros Hty. unfold numeric_values.
  by rewrite bool_decide_eq_true_2, Hty.
Qed.

Lemma numeric_values_not_numeric rt col i :
  column_type rt i <> numeric_t -> numeric_values rt col i = [].
Proof.
  intros Hty. unfold numeric_values.
  destruct (bool_decide _); [|done].
  by destruct (column_type rt i).
Qed.

(** The pool of a key after a run of instances: what it held, followed by the
    coerced values of the numeric instances of that key, in order. *)
Lemma pool_numeric_lookup rt (l : list Instance) (m : gmap string (list Q))
    (col : string) :
  foldl (pool_numeric rt) m l !! col =
  match m !! col with
  | Some held => Some (held ++ (l ≫= numeric_values rt col))
  | None =>
      match l ≫= numeric_values rt col with
      | [] => None
      | pooled => Some pooled
      end
  end.
Proof.
  revert m. induction l as [|i l IH]; intros m; simpl.
  { destruct (m !! col); by rewrite ?app_nil_r. }
  rewrite IH. clear IH. unfold pool_numeric.
  destruct (decide (column_type rt i = numeric_t)) as [Hty|Hty]; cycle 1.
  { rewrite (numeric_values_not_numeric _ _ _ Hty). simpl.
    by destruct (column_type rt i). }
  rewrite Hty. simpl.
  destruct (decide (column_key i = col)) as [<-|Hne]; cycle 1.
  { rewrite (numeric_values_other _ _ _ Hne). simpl.
    destruct (0 <? length _); [|done]. by rewrite lookup_insert_ne. }
  rewrite (numeric_values_same _ _ Hty).
  destruct (to_numeric_coerce (raw i)) as [|x data] eqn:Hdata; simpl; [done|].
  rewrite lookup_insert_eq.
  destruct (m !! column_key i) as [held|]; simpl.
  - by rewrite <- app_assoc.
  - done.
Qed.

(** ** Categorical counts *)

Lemma foldl_step_comm {X A : Type} (f : X -> A -> X) (l : list A) (x : X) (a : A) :
  (forall x a b, f (f x a) b = f (f x b) a) ->
  f (foldl f x l) a = foldl f (f x a) l.
Proof.
  intros Hcomm. revert x.
  induction l as [|b l IH]; intros x; simpl; [done|].
  by rewrite IH, Hcomm.
Qed.

Lemma foldl_swap {X A : Type} (f : X -> A -> X) (l1 l2 : list A) (x : X) :
  (forall x a b, f (f x a) b = f (f x b) a) ->
  foldl f (foldl f x l1) l2 = foldl f (foldl f x l2) l1.
Proof.
  intros Hcomm. revert x.
  induction l1 as [|a l1 IH]; intros x; simpl; [done|].
  by rewrite IH, <- foldl_step_comm.
Qed.

Lemma add_count_comm counts k1 n1 k2 n2 :
  add_count (add_count counts k1 n1) k2 n2
  = add_count (add_count counts k2 n2) k1 n1.
Proof.
  unfold add_count. destruct (decide (k1 = k2)) as [->|Hne].
  - rewrite !lookup_insert_eq, !insert_insert_eq. simpl. f_equal. lia.
  - rewrite (lookup_insert_ne _ k1 k2), (lookup_insert_ne _ k2 k1) by done.
    by apply insert_insert_ne.
Qed.

Lemma tally_comm rt items1 items2 counts :
  tally rt items1 (tally rt items2 counts)
  = tally rt items2 (tally rt items1 counts).
Proof.
  unfold tally. apply foldl_swap.
  intros c [v1 n1] [v2 n2]. simpl.
  destruct (negb (isnull v1)), (negb (isnull v2)); try done.
  apply add_count_comm.
Qed.

(** The categorical branch, in one step: the counts of the column key, made
    if the key is new, take the items of the column. *)
Lemma fold_categorical_insert rt col series
    (cat : gmap string (gmap string nat)) :
  fold_categorical rt col series cat
  = <[col := tally rt (value_counts series) (default ∅ (cat !! col))]> cat.
Proof.
  unfold fold_categorical.
  assert (Hloop : forall items (cat0 : gmap string (gmap string nat)) c0,
             cat0 !! col = Some c0 ->
             foldl (count_value rt col) cat0 items
             = <[col := tally rt items c0]> cat0).
  { induction items as [|[value n] items IH]; intros cat0 c0 Hc0; simpl.
    - by rewrite insert_id.
    - destruct (negb (isnull value)) eqn:Hnull; simpl.
      + erewrite IH; cycle 1.
        { rewrite lookup_alter_eq, Hc0. done. }
        apply map_eq. intros k. destruct (decide (col = k)) as [<-|Hk].
        * by rewrite !lookup_insert_eq.
        * by rewrite !lookup_insert_ne, lookup_alter_ne.
      + by apply IH. }
  destruct (cat !! col) as [c|] eqn:Hc; simpl.
  - by apply Hloop.
  - erewrite Hloop by apply lookup_insert_eq.
    by rewrite insert_insert_eq.
Qed.

Lemma pool_categorical_comm rt (m : gmap string (gmap string nat)) i j :
  pool_categorical rt (pool_categorical rt m i) j
  = pool_categorical rt (pool_categorical rt m j) i.
Proof.
  unfold pool_categorical.
  destruct (column_type rt i), (column_type rt j); try done.
  rewrite !fold_categorical_insert.
  destruct (decide (column_key i = column_key j)) as [Hk|Hk].
  - rewrite Hk, !lookup_insert_eq, !insert_insert_eq. simpl.
    by rewrite tally_comm.
  - rewrite (lookup_insert_ne _ (column_key i) (column_key j)) by done.
    rewrite (lookup_insert_ne _ (column_key j) (column_key i)) by done.
    by apply insert_insert_ne.
Qed.

(** C5. Folding source A and then source B leaves the same categorical counts,
    for every column key and every value, as folding B and then A. *)
Theorem categorical_merge_commutes rt
    (A B : string * list (string * DataFrame)) :
  Charts.categorical (Analysis.charts_data (analyze_excel_data rt [A; B]))
  = Charts.categorical (Analysis.charts_data (analyze_excel_data rt [B; A])).
Proof.
  rewrite !categorical_pools. unfold instances. simpl.
  rewrite !app_nil_r, !foldl_app.
  apply foldl_swap. intros m i j. apply pool_categorical_comm.
Qed.

(** ** What is kept per file *)

Section File_views.
Variable rt : Runtime.

Lemma column_keeps_file_summary filename sheet df st column :
  file_summary (analyze_column rt filename sheet df st column)
  = file_summary st.
Proof. by destruct column. Qed.

Lemma column_keeps_detailed filename sheet df st column :
  detailed_analysis (analyze_column rt filename sheet df st column)
  = detailed_analysis st.
Proof. by destruct column. Qed.

Lemma column_keeps_overview filename sheet df st column :
  data_overview (analyze_column rt filename sheet df st column)
  = data_overview st.
Proof. by destruct column. Qed.

Lemma column_quality filename sheet df st col series :
  FileAnalysis.data_quality
    (file_analysis (analyze_column rt filename sheet df st (col, series)))
  = <[PyStr.strip col := data_quality_of df series]>
      (FileAnalysis.data_quality (file_analysis st)).
Proof. done. Qed.

Lemma sheet_file_summary filename st sheet :
  file_summary (analyze_sheet rt filename st sheet)
  = sheet_header (file_summary st) sheet.
Proof.
  destruct sheet as [name df]. unfold analyze_sheet, sheet_header. simpl.
  destruct (df_empty df); [done|].
  rewrite (foldl_kept file_summary); [done|].
  intros. apply column_keeps_file_summary.
Qed.

Lemma sheet_keeps_detailed filename st sheet :
  detailed_analysis (analyze_sheet rt filename st sheet)
  = detailed_analysis st.
Proof.
  destruct sheet as [name df]. unfold analyze_sheet. simpl.
  destruct (df_empty df); [done|].
  rewrite (foldl_kept detailed_analysis); [done|].
  intros. apply column_keeps_detailed.
Qed.

Lemma sheet_keeps_overview filename st sheet :
  data_overview (analyze_sheet rt filename st sheet) = data_overview st.
Proof.
  destruct sheet as [name df]. unfold analyze_sheet. simpl.
  destruct (df_empty df); [done|].
  rewrite (foldl_kept data_overview); [done|].
  intros. apply column_keeps_overview.
Qed.

Lemma sheet_quality filename st sheet :
  FileAnalysis.data_quality
    (file_analysis (analyze_sheet rt filename st sheet))
  = foldl (fun m i => <[column_key i := quality_of i]> m)
      (FileAnalysis.data_quality (file_analysis st))
      (sheet_instances filename sheet).
Proof.
  destruct sheet as [name df]. unfold analyze_sheet, sheet_instances. simpl.
  destruct (df_empty df); [done|].
  rewrite foldl_fmap'.
  rewrite (foldl_proj
             (fun st => FileAnalysis.data_quality (file_analysis st)) _
             (fun m column => <[PyStr.strip column.1 := data_quality_of df column.2]> m)).
  - done.
  - by intros s [col series].
Qed.

(** The shape summary appended for a file. *)
Lemma file_overview st file :
  data_overview (analyze_file rt st file)
  = data_overview st ++ [foldl sheet_header (FileSummary.init file.1) file.2].
Proof.
  destruct file as [filename sheets]. unfold analyze_file. simpl.
  rewrite (foldl_kept data_overview) by (intros; apply sheet_keeps_overview).
  simpl. f_equal. f_equal.
  apply (foldl_proj file_summary (analyze_sheet rt filename) sheet_header).
  intros. apply sheet_file_summary.
Qed.

(** The records stored for a file: those of its own instances alone. *)
Lemma file_detailed st file :
  exists fa,
    detailed_analysis (analyze_file rt st file)
    = <[file.1 := fa]> (detailed_analysis st)
    /\ FileAnalysis.data_quality fa = file_quality (file_instances file).
Proof.
  destruct file as [filename sheets]. unfold analyze_file. simpl.
  eexists. split.
  - rewrite (foldl_kept detailed_analysis) by (intros; apply sheet_keeps_detailed).
    simpl. reflexivity.
  - unfold file_quality, file_instances. simpl. rewrite foldl_bind.
    rewrite (foldl_proj
               (fun st => FileAnalysis.data_quality (file_analysis st)) _
               (fun m sheet =>
                  foldl (fun m i => <[column_key i := quality_of i]> m) m
                        (sheet_instances filename sheet))).
    + done.
    + intros. apply sheet_quality.
Qed.

End File_views.

Lemma foldl_insert_lookup {A V : Type} (key : A -> string) (val : A -> V)
    (l : list A) (m : gmap string V) (c : string) :
  foldl (fun m a => <[key a := val a]> m) m l !! c
  = match last (filter (fun a => key a = c) l) with
    | Some a => Some (val a)
    | None => m !! c
    end.
Proof.
  induction l as [|a l IH] using rev_ind; [done|].
  rewrite foldl_snoc, filter_app.
  destruct (decide (key a = c)) as [Hk|Hk].
  - rewrite filter_cons_True, filter_nil by done.
    rewrite last_snoc. subst c. apply lookup_insert_eq.
  - rewrite filter_cons_False, filter_nil, app_nil_r by done.
    by rewrite lookup_insert_ne.
Qed.


Lemma filter_none {A : Type} (P : A -> Prop) `{!forall a, Decision (P a)}
    (l : list A) :
  (forall a, a ∈ l -> ~ P a) -> filter P l = [].
Proof.
  induction l as [|a l IH]; intros Hnone; [done|].
  rewrite filter_cons_False by (apply Hnone; left).
  apply IH. intros b Hb. apply Hnone. by right.
Qed.

Lemma last_filter_unique {V : Type} (l : list (string * V)) (k : string) (v : V) :
  NoDup l.*1 -> (k, v) ∈ l ->
  last (filter (fun entry => entry.1 = k) l) = Some (k, v).
Proof.
  induction l as [|[k' v'] l IH]; intros Hnd Hin.
  { by apply elem_of_nil in Hin. }
  apply NoDup_cons in Hnd as [Hfresh Hnd]. simpl in Hfresh.
  apply elem_of_cons in Hin as [Heq|Hin].
  - injection Heq as <- <-.
    rewrite filter_cons_True by done.
    assert (Hnone : filter (fun entry : string * V => entry.1 = k) l = []).
    { apply filter_none. intros [k2 v2] Hin Hk. simpl in Hk. subst k2.
      apply Hfresh. apply list_elem_of_fmap. by exists (k, v2). }
    by rewrite Hnone.
  - assert (k' <> k).
    { intros ->. apply Hfresh. apply list_elem_of_fmap. by exists (k, v). }
    rewrite filter_cons_False by done. by apply IH.
Qed.

Lemma detailed_quality rt dataframes :
  FileAnalysis.data_quality
    <$> Analysis.detailed_analysis (analyze_excel_data rt dataframes)
  = foldl (fun d file => <[file.1 := file_quality (file_instances file)]> d)
      ∅ dataframes.
Proof.
  unfold analyze_excel_data. simpl.
  rewrite (foldl_proj
             (fun st => FileAnalysis.data_quality <$> detailed_analysis st) _
             (fun d file => <[file.1 := file_quality (file_instances file)]> d)).
  - simpl. by rewrite fmap_empty.
  - intros s file. destruct (file_detailed rt s file) as (fa & -> & <-).
    apply fmap_insert.
Qed.

Lemma sheet_instance_rows filename sheet i :
  i ∈ sheet_instances filename sheet ->
  source_name i = filename /\ nrows (frame i) <> 0.
Proof.
  unfold sheet_instances, df_empty.
  destruct (nrows sheet.2 =? 0) eqn:Hrows; simpl.
  { intros Hin. by apply elem_of_nil in Hin. }
  destruct (length (df_columns sheet.2) =? 0); simpl.
  { intros Hin. by apply elem_of_nil in Hin. }
  intros Hin. apply list_elem_of_fmap in Hin as (column & -> & _). simpl.
  split; [done|]. by apply Nat.eqb_neq.
Qed.

Lemma file_instance_rows file i :
  i ∈ file_instances file -> source_name i = file.1 /\ nrows (frame i) <> 0.
Proof.
  unfold file_instances. intros Hin.
  apply list_elem_of_bind in Hin as (sheet & Hin & _).
  by apply sheet_instance_rows in Hin.
Qed.

Lemma instance_rows dataframes i :
  i ∈ instances dataframes -> nrows (frame i) <> 0.
Proof.
  unfold instances. intros Hin.
  apply list_elem_of_bind in Hin as (file & Hin & _).
  by apply file_instance_rows in Hin as [_ Hrows].
Qed.




(** C9, as the code has it.  The record stored for a file under a column key
    is computed from one instance alone, the last instance of that file with
    that key; no other file has a part in it. *)
Theorem quality_record_per_file_and_key rt dataframes filename sheets col :
  NoDup dataframes.*1 ->
  (filename, sheets) ∈ dataframes ->
  exists fa,
    Analysis.detailed_analysis (analyze_excel_data rt dataframes) !! filename
    = Some fa
    /\ FileAnalysis.data_quality fa !! col
       = quality_of
           <$> last (filter (fun i => column_key i = col)
                            (file_instances (filename, sheets))).
Proof.
  intros Hnd Hin.
  pose proof (detailed_quality rt dataframes) as Hview.
  apply (f_equal (fun m => m !! filename)) in Hview.
  rewrite lookup_fmap, foldl_insert_lookup in Hview.
  rewrite (last_filter_unique _ _ _ Hnd Hin) in Hview.
  destruct (Analysis.detailed_analysis _ !! filename) as [fa|]; [|done].
  exists fa. split; [done|].
  injection Hview as ->. unfold file_quality.
  rewrite foldl_insert_lookup.
  destruct (last _); by rewrite ?lookup_empty.
Qed.

(** The theorem at the file of two sheets with a column [Dept] each. *)
Lemma quality_record_per_file_and_key_witness :
  NoDup two_sheet_input.*1
  /\ ("hr.xlsx", two_sheets) ∈ two_sheet_input
  /\ exists fa,
       Analysis.detailed_analysis
         (analyze_excel_data plain_runtime two_sheet_input) !! "hr.xlsx"
       = Some fa
       /\ FileAnalysis.data_quality fa !! "Dept"
          = quality_of
              <$> last (filter (fun i => column_key i = "Dept")
                               (file_instances ("hr.xlsx", two_sheets))).
Proof.
  assert (Hnd : NoDup two_sheet_input.*1).
  { apply NoDup_singleton. }
  assert (Hin : ("hr.xlsx", two_sheets) ∈ two_sheet_input).
  { apply list_elem_of_here. }
  split; [exact Hnd|]. split; [exact Hin|].
  exact (quality_record_per_file_and_key plain_runtime two_sheet_input
           "hr.xlsx" two_sheets "Dept" Hnd Hin).
Defined.

(** C9, as the spec states it, fails for two sheets of one file that share a
    column name: the earlier sheet's record, with one missing value, is not
    kept; the file's record under the key is the later sheet's. *)
Lemma later_sheet_replaces_quality_record :
  (Analysis.detailed_analysis
     (analyze_excel_data plain_runtime two_sheet_input) !! "hr.xlsx")
    ≫= (fun fa => DataQuality.null_count
                    <$> FileAnalysis.data_quality fa !! "Dept")
  = Some 0
  /\ DataQuality.null_count (data_quality_of jan_sheet jan_dept) = 1
  /\ DataQuality.null_count (data_quality_of feb_sheet feb_dept) = 0.
Proof. by vm_compute. Qed.

(** ** The shape summary of a file *)

Lemma headers_filename sheets fs :
  FileSummary.filename (foldl sheet_header fs sheets) = FileSummary.filename fs.
Proof.
  apply (foldl_kept FileSummary.filename).
  intros s sheet. unfold sheet_header. by destruct (df_empty sheet.2).
Qed.

Lemma headers_total_rows sheets fs :
  FileSummary.total_rows (foldl sheet_header fs sheets)
  = FileSummary.total_rows fs
    + sum_list ((fun sheet => nrows sheet.2) <$> nonempty_sheets sheets).
Proof.
  revert fs. induction sheets as [|sheet sheets IH]; intros fs; simpl.
  { lia. }
  rewrite IH. unfold sheet_header, nonempty_sheets. simpl.
  destruct (df_empty sheet.2); simpl; [done|].
  symmetry. apply Nat.add_assoc.
Qed.

Lemma headers_total_columns sheets fs :
  FileSummary.total_columns (foldl sheet_header fs sheets)
  = Nat.max (FileSummary.total_columns fs)
      (max_list ((fun sheet => length (df_columns sheet.2))
                   <$> nonempty_sheets sheets)).
Proof.
  revert fs. induction sheets as [|sheet sheets IH]; intros fs; simpl.
  { lia. }
  rewrite IH. unfold sheet_header, nonempty_sheets. simpl.
  destruct (df_empty sheet.2); simpl; [done|].
  symmetry. apply Nat.max_assoc.
Qed.

Lemma overview_all rt dataframes st :
  data_overview (foldl (analyze_file rt) st dataframes)
  = data_overview st
    ++ ((fun file => foldl sheet_header (FileSummary.init file.1) file.2)
          <$> dataframes).
Proof.
  revert st. induction dataframes as [|file dataframes IH]; intros st; simpl.
  { by rewrite app_nil_r. }
  rewrite IH, file_overview. by rewrite <- app_assoc.
Qed.

(** C10. The shape summary of each file, in input order, holds the file's
    name, as [total_rows] the sum of the row counts of its analysed sheets,
    and as [total_columns] the largest column count among them. *)
Theorem file_shape_summary rt dataframes :
  (fun fs => (FileSummary.filename fs, FileSummary.total_rows fs,
              FileSummary.total_columns fs))
    <$> Analysis.data_overview (analyze_excel_data rt dataframes)
  = file_shape <$> dataframes.
Proof.
  unfold analyze_excel_data. simpl. rewrite overview_all. simpl.
  rewrite <- list_fmap_compose. apply list_fmap_ext.
  intros _ [filename sheets] _. unfold file_shape. simpl.
  by rewrite headers_filename, headers_total_rows, headers_total_columns.
Qed.

(** A file with sheets of two and three columns, four names in all, reports
    three columns and the five rows of both sheets. *)
Example file_shape_is_max_not_sum :
  (fun fs => (FileSummary.total_rows fs, FileSummary.total_columns fs))
    <$> Analysis.data_overview (analyze_excel_data plain_runtime staff_input)
  = [(5, 3)].
Proof. by vm_compute. Qed.

(** ** The classifier *)

Lemma Qlt_bool_true (p q : Q) : (p < q)%Q -> Qlt_bool p q = true.
Proof.
  intros Hlt. unfold Qlt_bool. apply negb_true_iff.
  destruct (Qle_bool q p) eqn:Hle; [|done].
  apply Qle_bool_iff in Hle. by apply Qlt_not_le in Hlt.
Qed.

Lemma Qlt_bool_irrefl_eq (p q : Q) : (p == q)%Q -> Qlt_bool p q = false.
Proof.
  intros Heq. unfold Qlt_bool. apply negb_false_iff.
  apply Qle_bool_iff. rewrite Heq. apply Qle_refl.
Qed.

Lemma dropna_SInt (l : list Z) : dropna (SInt l) = Int <$> l.
Proof.
  unfold dropna. cbn [values]. induction l as [|z l IH]; [done|].
  rewrite fmap_cons. cbn [List.filter isnull negb]. f_equal. apply IH.
Qed.

Lemma integers_parse_as_dates rt (l : list Z) :
  to_datetime_raise rt (Int <$> l) = true.
Proof.
  unfold to_datetime_raise.
  generalize (format_context (Int <$> l)). intros context.
  induction l as [|z l IH]; [done|].
  rewrite fmap_cons. cbn [forallb to_datetime1].
  rewrite IH. by destruct (bool_decide (z = int64_min)).
Qed.

(** C1, as the spec states it, fails: with the text [N/A] among its values
    the column has dtype [object], the classifier answers [categorical], and
    no numeric aggregate is made for the key. *)
Lemma salary_with_text_is_categorical :
  detect_column_type plain_runtime (Series_of salary_raw) "Salary"
  = categorical_t
  /\ Charts.numeric
       (Analysis.charts_data
          (analyze_excel_data plain_runtime (salary_input salary_raw)))
       !! "Salary" = None.
Proof. by vm_compute. Qed.

(** C1, as the code has it.  With the [N/A] cell read as a missing value the
    column is classified numeric, the four numbers are pooled, and the
    statistics stored for the column have count 4 and mean 65000. *)
Theorem salary_scenario rt :
  let result := analyze_excel_data rt (salary_input salary_decoded) in
  detect_column_type rt (Series_of salary_decoded) "Salary" = numeric_t
  /\ Charts.numeric (Analysis.charts_data result) !! "Salary"
     = Some [50000%Q; 60000%Q; 70000%Q; 80000%Q]
  /\ exists stats,
       (Analysis.detailed_analysis result !! "hr.xlsx")
         ≫= (fun fa => FileAnalysis.numeric_stats fa !! "Salary")
       = Some stats
       /\ NumericStats.count stats = 4
       /\ (NumericStats.mean stats == 65000)%Q.
Proof.
  intros result. split; [by vm_compute|]. split; [by vm_compute|].
  eexists. split; [by vm_compute|]. split; by vm_compute.
Qed.

(** The upload handler cleans nothing away from the salary sheet and hands
    the engine's result back. *)
Example salary_upload_response :
  upload_excel plain_runtime (Some (salary_upload salary_decoded))
  = Success (analyze_excel_data plain_runtime (salary_input salary_decoded)).
Proof. by vm_compute. Qed.

(** C3, as the spec states it, fails for a name that also holds a date
    keyword: [vendor_id] holds [end], the integers parse as timestamps, and
    the classifier answers [date]; so it does for [Attendance], a name
    without [id], [code] or [number]. *)
Lemma integer_id_with_date_keyword_is_date :
  (8 # 10 < ratio (length (unique (Int <$> [1; 2; 3]%Z))) 3)%Q
  /\ PyStr.contains "id" (column_name_lower "vendor_id") = true
  /\ detect_column_type plain_runtime (SInt [1; 2; 3]%Z) "vendor_id" = date_t
  /\ PyStr.any_in id_keywords (column_name_lower "Attendance") = false
  /\ detect_column_type plain_runtime (SInt [1; 2; 3]%Z) "Attendance" = date_t.
Proof. by vm_compute. Qed.

(** C3, as the code has it.  For a column of integer dtype whose ratio of
    distinct values to values exceeds 0.8: a name with a date keyword gives
    [date]; a name without one gives [identifier] when it holds [id] and
    [numeric] when it holds none of [id], [code] and [number].  The test is
    on the dtype and not on the values: a column of another dtype is never an
    [identifier], and a float64 column with a value, as pandas reads whole
    numbers beside a blank cell, is [numeric] under every name without a date
    keyword. *)
Theorem integer_column_by_name rt (l : list Z) (name : string) :
  (8 # 10 < ratio (length (unique (Int <$> l))) (length l))%Q ->
  (PyStr.any_in date_keywords (column_name_lower name) = true ->
   detect_column_type rt (SInt l) name = date_t)
  /\ (PyStr.any_in date_keywords (column_name_lower name) = false ->
      PyStr.contains "id" (column_name_lower name) = true ->
      detect_column_type rt (SInt l) name = identifier)
  /\ (PyStr.any_in date_keywords (column_name_lower name) = false ->
      PyStr.any_in id_keywords (column_name_lower name) = false ->
      detect_column_type rt (SInt l) name = numeric_t)
  /\ (forall series : Series,
        is_integer_dtype series = false ->
        detect_column_type rt series name <> identifier)
  /\ (forall floats : list (option Q),
        PyStr.any_in date_keywords (column_name_lower name) = false ->
        dropna (SFloat floats) <> [] ->
        detect_column_type rt (SFloat floats) name = numeric_t).
Proof.
  intros Hratio.
  assert (Hlen : (length (Int <$> l) =? 0) = false).
  { rewrite length_fmap. apply Nat.eqb_neq. intros Hzero.
    rewrite Hzero in Hratio. unfold ratio, Qnat in Hratio. simpl in Hratio.
    unfold Qdiv, Qinv in Hratio. simpl in Hratio.
    rewrite Qmult_0_r in Hratio. by vm_compute in Hratio. }
  split; [|split; [|split; [|split]]].
  - unfold detect_column_type, column_name_lower.
    rewrite dropna_SInt, Hlen. simpl.
    intros ->. simpl. rewrite <- fmap_take.
    by rewrite integers_parse_as_dates.
  - unfold detect_column_type, column_name_lower.
    rewrite dropna_SInt, Hlen. simpl.
    intros -> Hid. simpl. rewrite length_fmap.
    rewrite (Qlt_bool_true _ _ Hratio). unfold PyStr.any_in. simpl.
    by rewrite Hid.
  - unfold detect_column_type, column_name_lower.
    rewrite dropna_SInt, Hlen. simpl.
    intros -> Hnone. simpl. rewrite Hnone.
    by rewrite andb_false_r.
  - intros series Hdtype. unfold detect_column_type. rewrite Hdtype.
    destruct (length (dropna series) =? 0); [done|].
    destruct (_ && _); [done|]. cbn [andb].
    destruct (is_numeric_dtype series); [done|].
    by destruct (_ || _).
  - intros floats Hname Hvalue.
    unfold detect_column_type, column_name_lower in *.
    destruct (dropna (SFloat floats)) as [|c clean]; [done|].
    cbn [length Nat.eqb]. by rewrite Hname.
Qed.

(** The theorem at the integers 1, 2, 3 under the names [Emp ID] and [Age],
    and at the same identifiers beside a blank cell. *)
Lemma integer_column_by_name_witness :
  (8 # 10 < ratio (length (unique (Int <$> [1; 2; 3]%Z))) 3)%Q
  /\ detect_column_type plain_runtime (SInt [1; 2; 3]%Z) "Emp ID" = identifier
  /\ detect_column_type plain_runtime (SInt [1; 2; 3]%Z) "Age" = numeric_t
  /\ detect_column_type plain_runtime
       (SFloat [Some 1%Q; Some 2%Q; None; Some 3%Q]) "Emp ID" = numeric_t.
Proof.
  assert (Hratio : (8 # 10 < ratio (length (unique (Int <$> [1; 2; 3]%Z)))
                                   (length [1; 2; 3]%Z))%Q) by done.
  split; [exact Hratio|]. split; [|split].
  - exact (proj1 (proj2 (integer_column_by_name plain_runtime [1; 2; 3]%Z
                           "Emp ID" Hratio)) eq_refl eq_refl).
  - exact (proj1 (proj2 (proj2 (integer_column_by_name plain_runtime
                                  [1; 2; 3]%Z "Age" Hratio)))
             eq_refl eq_refl).
  - apply (proj2 (proj2 (proj2 (proj2 (integer_column_by_name plain_runtime
                                         [1; 2; 3]%Z "Emp ID" Hratio))))
             [Some 1%Q; Some 2%Q; None; Some 3%Q] eq_refl).
    discriminate.
Defined.

(** C2, as the spec states it, fails on the ratio: a column of 42 values, 21
    of them distinct, has ratio exactly 0.5 and is classified [text]. *)
Lemma half_distinct_is_text :
  is_numeric_dtype notes_column = false
  /\ date_step plain_runtime notes_column "Notes" = false
  /\ length (unique (dropna notes_column)) = 21
  /\ length (dropna notes_column) = 42
  /\ (ratio 21 42 == 1 # 2)%Q
  /\ detect_column_type plain_runtime notes_column "Notes" = text_t.
Proof. by vm_compute. Qed.

(** C2, as the code has it.  For a column that is neither numeric nor
    answered by the date step: exactly 20 distinct values give
    [categorical]; a ratio of exactly 0.5 gives [categorical] when there are
    at most 20 distinct values and [text] when there are more, the test on
    the ratio being strict. *)
Theorem categorical_thresholds rt (series : Series) (name : string) :
  is_numeric_dtype series = false ->
  date_step rt series name = false ->
  let distinct := length (unique (dropna series)) in
  let total := length (dropna series) in
  (distinct = 20 -> detect_column_type rt series name = categorical_t)
  /\ ((ratio distinct total == 1 # 2)%Q ->
      detect_column_type rt series name
      = if distinct <=? 20 then categorical_t else text_t).
Proof.
  intros Hnum Hdate distinct total.
  unfold date_step, column_name_lower in Hdate.
  unfold detect_column_type. rewrite Hdate, Hnum.
  fold distinct. fold total. split.
  - intros Hd.
    destruct (total =? 0) eqn:Htotal.
    { apply Nat.eqb_eq in Htotal. subst distinct total.
      destruct (dropna series); [discriminate Hd|discriminate Htotal]. }
    by rewrite Hd.
  - intros Hhalf.
    destruct (total =? 0) eqn:Htotal.
    { apply Nat.eqb_eq in Htotal. rewrite Htotal in Hhalf.
      unfold ratio, Qnat in Hhalf. simpl in Hhalf.
      unfold Qdiv, Qinv in Hhalf. simpl in Hhalf.
      rewrite Qmult_0_r in Hhalf. by vm_compute in Hhalf. }
    rewrite (Qlt_bool_irrefl_eq _ _ Hhalf). by rewrite orb_false_r.
Qed.

(** The theorem at a column of twenty distinct codes, and at the column of
    twenty-one codes held twice. *)
Lemma categorical_thresholds_witness :
  (is_numeric_dtype twenty_codes_column = false
   /\ date_step plain_runtime twenty_codes_column "Notes" = false
   /\ length (unique (dropna twenty_codes_column)) = 20
   /\ detect_column_type plain_runtime twenty_codes_column "Notes"
      = categorical_t)
  /\ (is_numeric_dtype notes_column = false
      /\ date_step plain_runtime notes_column "Notes" = false
      /\ (ratio (length (unique (dropna notes_column)))
                (length (dropna notes_column)) == 1 # 2)%Q
      /\ detect_column_type plain_runtime notes_column "Notes" = text_t).
Proof.
  split.
  - split; [reflexivity|]. split; [reflexivity|]. split; [reflexivity|].
    exact (proj1 (categorical_thresholds plain_runtime twenty_codes_column
                    "Notes" eq_refl eq_refl) eq_refl).
  - assert (Hhalf : (ratio (length (unique (dropna notes_column)))
                           (length (dropna notes_column)) == 1 # 2)%Q)
      by reflexivity.
    split; [reflexivity|]. split; [reflexivity|]. split; [exact Hhalf|].
    exact (proj2 (categorical_thresholds plain_runtime notes_column
                    "Notes" eq_refl eq_refl) Hhalf).
Defined.

(** ** The two standard deviations *)

(** C8 fails on the code.  For one column holding 1 and 3 the statistics of
    the file give the standard deviation with radicand 2 (the sample
    convention of [Series.std]), and the insight line for the same two
    pooled values gives it with radicand 1 (the population convention of
    [np.std]). *)
Theorem std_conventions_differ :
  let result := analyze_excel_data plain_runtime pair_input in
  Charts.numeric (Analysis.charts_data result) !! "Salary" = Some [1%Q; 3%Q]
  /\ exists file_std line_std mean_val lo hi,
       (Analysis.detailed_analysis result !! "pay.xlsx")
         ≫= (fun fa => NumericStats.std <$> FileAnalysis.numeric_stats fa !! "Salary")
       = Some (Some file_std)
       /\ NumericInsight "Salary" mean_val line_std lo hi
            ∈ Analysis.insights result
       /\ (radicand file_std == 2)%Q
       /\ (radicand line_std == 1)%Q
       /\ ~ Sqrt_eq file_std line_std.
Proof.
  intros result. split; [by vm_compute|].
  eexists _, _, _, _, _. split; [by vm_compute|]. split.
  { vm_compute. do 3 right. left. }
  split; [by vm_compute|]. split; [by vm_compute|].
  by vm_compute.
Qed.

(** ** The totals of the summary *)

Section Totals.
Variable rt : Runtime.

Lemma column_keys_column filename sheet df st col series :
  dom (all_columns (analyze_column rt filename sheet df st (col, series)))
  = ({[PyStr.strip col]} ∪ dom (all_columns st) : gset string).
Proof.
  unfold analyze_column. simpl. rewrite dom_alter_L.
  destruct (all_columns st !! PyStr.strip col) eqn:Hcol.
  - apply elem_of_dom_2 in Hcol. symmetry. apply subseteq_union_1_L.
    by apply singleton_subseteq_l.
  - by rewrite dom_insert_L.
Qed.

Lemma column_keys_sheet filename st sheet :
  dom (all_columns (analyze_sheet rt filename st sheet))
  = foldl (fun (keys : gset string) i => {[column_key i]} ∪ keys)
      (dom (all_columns st)) (sheet_instances filename sheet).
Proof.
  destruct sheet as [name df]. unfold analyze_sheet, sheet_instances. simpl.
  destruct (df_empty df); [done|].
  rewrite foldl_fmap'.
  rewrite (foldl_proj (fun st => dom (all_columns st) : gset string) _
             (fun keys column => {[PyStr.strip column.1]} ∪ keys)).
  - done.
  - intros s [col series]. apply column_keys_column.
Qed.

Lemma column_keys_file st file :
  dom (all_columns (analyze_file rt st file))
  = foldl (fun (keys : gset string) i => {[column_key i]} ∪ keys)
      (dom (all_columns st)) (file_instances file).
Proof.
  destruct file as [filename sheets]. unfold analyze_file, file_instances.
  simpl. rewrite foldl_bind.
  rewrite (foldl_proj (fun st => dom (all_columns st) : gset string) _
             (fun keys sheet =>
                foldl (fun (keys : gset string) i => {[column_key i]} ∪ keys)
                      keys (sheet_instances filename sheet))).
  - done.
  - intros s sheet. apply column_keys_sheet.
Qed.

Lemma foldl_union_keys (l : list Instance) (keys : gset string) :
  foldl (fun (keys : gset string) i => {[column_key i]} ∪ keys) keys l
  = list_to_set (column_key <$> l) ∪ keys.
Proof.
  revert keys. induction l as [|i l IH]; intros keys.
  { simpl. symmetry. apply (left_id_L ∅ (∪)). }
  rewrite fmap_cons, list_to_set_cons. simpl. rewrite IH.
  rewrite (comm_L (∪) {[column_key i]} (list_to_set _)).
  by rewrite (assoc_L (∪)).
Qed.

Lemma column_keys_all dataframes st :
  dom (all_columns (foldl (analyze_file rt) st dataframes))
  = (list_to_set (column_key <$> instances dataframes) ∪ dom (all_columns st)
     : gset string).
Proof.
  unfold instances. rewrite <- foldl_union_keys, foldl_bind.
  apply (foldl_proj (fun st => dom (all_columns st) : gset string) _
           (fun keys file =>
              foldl (fun (keys : gset string) i => {[column_key i]} ∪ keys)
                    keys (file_instances file))).
  intros s file. apply column_keys_file.
Qed.

(** The column count of the summary is the number of distinct column keys
    among the instances of the whole input. *)
Theorem total_columns_counts_keys dataframes :
  Summary.total_columns (Analysis.summary (analyze_excel_data rt dataframes))
  = size (list_to_set (column_key <$> instances dataframes) : gset string).
Proof.
  unfold analyze_excel_data. simpl. rewrite <- size_dom.
  rewrite column_keys_all. simpl.
  by rewrite dom_empty_L, (right_id_L ∅ (∪)).
Qed.

Lemma column_keeps_total_rows filename sheet df st column :
  total_rows (analyze_column rt filename sheet df st column) = total_rows st.
Proof. by destruct column. Qed.

Lemma sheet_total_rows filename st sheet :
  total_rows (analyze_sheet rt filename st sheet)
  = total_rows st + (if df_empty sheet.2 then 0 else nrows sheet.2).
Proof.
  destruct sheet as [name df]. unfold analyze_sheet. simpl.
  destruct (df_empty df); simpl; [by rewrite Nat.add_0_r|].
  by rewrite (foldl_kept total_rows) by (intros; apply column_keeps_total_rows).
Qed.

Lemma sheets_total_rows filename sheets st :
  total_rows (foldl (analyze_sheet rt filename) st sheets)
  = total_rows st + sum_list ((fun sheet => nrows sheet.2)
                                <$> nonempty_sheets sheets).
Proof.
  revert st. induction sheets as [|sheet sheets IH]; intros st; simpl.
  { by rewrite Nat.add_0_r. }
  rewrite IH, sheet_total_rows. unfold nonempty_sheets. simpl.
  destruct (df_empty sheet.2); simpl.
  - by rewrite Nat.add_0_r.
  - symmetry. apply Nat.add_assoc.
Qed.

Lemma files_total_rows dataframes st :
  total_rows (foldl (analyze_file rt) st dataframes)
  = total_rows st + sum_list ((fun sheet => nrows sheet.2)
                                <$> analysed_sheets dataframes).
Proof.
  revert st. induction dataframes as [|[filename sheets] dataframes IH];
    intros st; simpl.
  { by rewrite Nat.add_0_r. }
  rewrite IH. unfold analyze_file, analysed_sheets. simpl.
  rewrite sheets_total_rows. simpl.
  rewrite fmap_app, sum_list_with_app. symmetry. apply Nat.add_assoc.
Qed.

(** The row count of the summary is the sum of the row counts of the sheets
    analysed, over all files. *)
Theorem total_rows_sums_sheets dataframes :
  Summary.total_rows (Analysis.summary (analyze_excel_data rt dataframes))
  = sum_list ((fun sheet => nrows sheet.2) <$> analysed_sheets dataframes).
Proof.
  unfold analyze_excel_data. simpl. by rewrite files_total_rows.
Qed.

End Totals.

(** ** No usable data *)

(** C6, as the spec states it, fails for the engine itself: on no sources
    [analyze_excel_data] returns a result like any other, with zero counts
    and the three summary lines. *)
Lemma engine_returns_zeroed_result :
  Analysis.summary (analyze_excel_data plain_runtime [])
  = {| Summary.total_files := 0; Summary.total_rows := 0;
       Summary.total_columns := 0; Summary.numeric_columns := 0;
       Summary.categorical_columns := 0; Summary.date_columns := 0 |}
  /\ Analysis.insights (analyze_excel_data plain_runtime [])
     = [Analyzed 0 0; FoundNumeric 0; IdentifiedCategorical 0].
Proof. by vm_compute. Qed.

Lemma read_files_without_data files dataframes uploaded_files :
  (forall file, file ∈ files -> usable_sheets file = []) ->
  (exists error, read_files files dataframes uploaded_files = inl error)
  \/ read_files files dataframes uploaded_files = inr (dataframes, uploaded_files).
Proof.
  revert dataframes uploaded_files.
  induction files as [|file files IH]; intros dataframes uploaded_files Hnone.
  { by right. }
  assert (Hfile : usable_sheets file = []) by (apply Hnone; left).
  assert (Hrest : forall file', file' ∈ files -> usable_sheets file' = []).
  { intros file' Hin. apply Hnone. by right. }
  unfold usable_sheets in Hfile. simpl.
  destruct (bool_decide (fs_filename file = "")); [by apply IH|].
  destruct (allowed_name (fs_filename file)); [|by apply IH].
  simpl in *. destruct (workbook file) as [wb|]; [|left; by eexists].
  rewrite Hfile. simpl. by apply IH.
Qed.

Lemma dict_set_Forall {V : Type} (P : string * V -> Prop) k v
    (d : list (string * V)) :
  Forall P d -> P (k, v) -> Forall P (dict_set k v d).
Proof.
  intros Hd Hkv. induction Hd as [|[k' v'] d Hhead Htail IH]; simpl.
  { by constructor. }
  destruct (decide (k = k')); by constructor.
Qed.

Lemma dict_set_nonempty {V : Type} k (v : V) (d : list (string * V)) :
  dict_set k v d <> [].
Proof. destruct d as [|[k' v'] d]; simpl; [done|]. by destruct (decide (k = k')). Qed.

Lemma read_sheets_nonempty wb :
  Forall (fun sheet => df_empty sheet.2 = false) (read_sheets wb).
Proof.
  unfold read_sheets.
  assert (Hloop : forall acc : list (string * DataFrame),
             Forall (fun sheet => df_empty sheet.2 = false) acc ->
             Forall (fun sheet => df_empty sheet.2 = false)
               (foldl (fun sheets entry =>
                         match entry.2 with
                         | None => sheets
                         | Some raw =>
                             let df := clean_sheet raw in
                             if negb (df_empty df) && (0 <? nrows df)
                             then dict_set entry.1 df sheets
                             else sheets
                         end) acc wb)).
  { induction wb as [|[name [raw|]] wb IH]; intros acc Hacc; [done| |].
    - cbn [foldl fst snd]. apply IH.
      generalize (clean_sheet raw). intros df.
      destruct (df_empty df) eqn:Hempty; cbn [negb andb]; [done|].
      destruct (0 <? nrows df); [|done].
      by apply dict_set_Forall.
    - cbn [foldl fst snd]. by apply IH. }
  by apply Hloop.
Qed.

Lemma read_files_kept files dataframes uploaded_files dataframes' uploaded_files' :
  Forall kept_file dataframes ->
  (uploaded_files <> [] -> dataframes <> []) ->
  read_files files dataframes uploaded_files = inr (dataframes', uploaded_files') ->
  Forall kept_file dataframes' /\ (uploaded_files' <> [] -> dataframes' <> []).
Proof.
  revert dataframes uploaded_files.
  induction files as [|file files IH]; intros dataframes uploaded_files Hkept Hne;
    simpl.
  { by intros [= <- <-]. }
  destruct (bool_decide (fs_filename file = "")); [by apply IH|].
  destruct (negb (allowed_name (fs_filename file))); [by apply IH|].
  destruct (workbook file) as [wb|]; [|done].
  destruct (0 <? length (read_sheets wb)) eqn:Hlen; [|by apply IH].
  apply IH.
  - apply dict_set_Forall; [done|]. split; simpl.
    + intros Hnil. by rewrite Hnil in Hlen.
    + apply read_sheets_nonempty.
  - intros _. apply dict_set_nonempty.
Qed.

Lemma size_elem_of (X : gset string) (x : string) : x ∈ X -> 1 <= size X.
Proof.
  intros Hx. destruct (size X) eqn:Hsize; [|lia].
  apply size_empty_inv in Hsize. by apply Hsize in Hx.
Qed.

(** An input the upload handler hands over has a file, a row and a column. *)
Lemma kept_input_totals rt dataframes :
  dataframes <> [] -> Forall kept_file dataframes ->
  let summary := Analysis.summary (analyze_excel_data rt dataframes) in
  1 <= Summary.total_files summary
  /\ 1 <= Summary.total_rows summary
  /\ 1 <= Summary.total_columns summary.
Proof.
  intros Hne Hkept summary. subst summary.
  unfold analyze_excel_data. cbn [Analysis.summary Summary.total_files
    Summary.total_rows Summary.total_columns].
  rewrite files_total_rows, <- size_dom, column_keys_all.
  cbn [init_state total_rows all_columns].
  rewrite dom_empty_L, (right_id_L ∅ (∪)), Nat.add_0_l.
  destruct dataframes as [|[filename sheets] dataframes]; [done|].
  apply Forall_cons in Hkept as [[Hsheets Hfull] _]. simpl in Hsheets, Hfull.
  destruct sheets as [|[name df] sheets]; [done|].
  apply Forall_cons in Hfull as [Hdf _]. simpl in Hdf.
  assert (Hrows : nrows df <> 0 /\ df_columns df <> []).
  { unfold df_empty in Hdf. apply orb_false_iff in Hdf as [H1 H2].
    apply Nat.eqb_neq in H1, H2. split; [done|]. intros Hnil.
    by rewrite Hnil in H2. }
  destruct Hrows as [Hrows Hcols].
  split; [simpl; lia|]. split.
  - unfold analysed_sheets, nonempty_sheets. simpl. rewrite Hdf. simpl. lia.
  - destruct (df_columns df) as [|[col series] columns] eqn:Hdfc; [done|].
    apply (size_elem_of _ (PyStr.strip col)).
    apply elem_of_list_to_set. unfold instances, file_instances,
      sheet_instances. simpl. rewrite Hdf, Hdfc. simpl. left.
Qed.

(** C6, as the code has it.  The no-data condition is signalled by the upload
    handler: when no uploaded file yields a usable sheet it answers with a
    400 error and does not call the engine; and whenever it does hand a
    result back, the counts of files, rows and columns are all positive. *)
Theorem upload_signals_no_data rt (files : list FileStorage) :
  ((forall file, file ∈ files -> usable_sheets file = []) ->
   exists error, upload_excel rt (Some files) = Error 400 error)
  /\ (forall report,
        upload_excel rt (Some files) = Success report ->
        1 <= Summary.total_files (Analysis.summary report)
        /\ 1 <= Summary.total_rows (Analysis.summary report)
        /\ 1 <= Summary.total_columns (Analysis.summary report)).
Proof.
  unfold upload_excel. split.
  - intros Hnone.
    destruct (forallb _ files); [by eexists|].
    destruct (read_files_without_data files [] [] Hnone)
      as [[error ->]| ->]; by eexists.
  - intros report.
    destruct (forallb _ files); [done|].
    destruct (read_files files [] []) as [error|[dataframes uploaded_files]]
      eqn:Hread; [done|].
    destruct (length uploaded_files =? 0) eqn:Hlen; [done|].
    destruct (labels_collide dataframes); [done|].
    intros [= <-].
    apply read_files_kept in Hread as [Hkept Hne]; [|done|done].
    apply kept_input_totals; [|done].
    apply Hne. intros Hnil. by rewrite Hnil in Hlen.
Qed.

(** The theorem at the upload of one workbook without data. *)
Lemma upload_signals_no_data_witness :
  Forall (fun file => usable_sheets file = []) blank_upload
  /\ exists error, upload_excel plain_runtime (Some blank_upload) = Error 400 error.
Proof.
  assert (Hblank : Forall (fun file => usable_sheets file = []) blank_upload).
  { repeat constructor. }
  split; [exact Hblank|].
  exact (proj1 (upload_signals_no_data plain_runtime blank_upload)
           (proj1 (Forall_forall _ _) Hblank)).
Defined.

Example blank_upload_response :
  upload_excel plain_runtime (Some blank_upload)
  = Error 400 "No valid Excel files could be processed".
Proof. by vm_compute. Qed.


(** ** Counts as sums *)

Lemma tally_count rt items (counts : gmap string nat) k :
  default 0 (tally rt items counts !! k)
  = default 0 (counts !! k) + value_tally rt k items.
Proof.
  unfold tally, value_tally.
  revert counts. induction items as [|[value n] items IH]; intros counts.
  { simpl. by rewrite Nat.add_0_r. }
  cbn [foldl fst snd]. rewrite IH. rewrite fmap_cons. cbn [fst snd].
  destruct (negb (isnull value)); cbn [andb].
  - unfold add_count. case_bool_decide as Hk.
    + rewrite Hk, lookup_insert_eq. simpl. symmetry. apply Nat.add_assoc.
    + by rewrite lookup_insert_ne.
  - done.
Qed.

Lemma pool_categorical_count rt (l : list Instance)
    (m : gmap string (gmap string nat)) col k :
  count_of (foldl (pool_categorical rt) m l) col k
  = count_of m col k + sum_list (categorical_occurrences rt col k <$> l).
Proof.
  revert m. induction l as [|i l IH]; intros m.
  { simpl. by rewrite Nat.add_0_r. }
  cbn [foldl]. rewrite IH, fmap_cons. clear IH.
  unfold pool_categorical, categorical_occurrences at 2.
  destruct (decide (column_type rt i = categorical_t)) as [Hty|Hty]; cycle 1.
  { assert (Hzero : (if bool_decide (column_key i = col)
                     then match column_type rt i with
                          | categorical_t =>
                              value_tally rt k (value_counts (raw i))
                          | _ => 0
                          end
                     else 0) = 0).
    { destruct (bool_decide _); [|done]. by destruct (column_type rt i). }
    rewrite Hzero. by destruct (column_type rt i). }
  rewrite Hty, fold_categorical_insert. unfold count_of.
  case_bool_decide as Hcol.
  - rewrite Hcol, lookup_insert_eq. simpl. rewrite tally_count.
    symmetry. apply Nat.add_assoc.
  - by rewrite lookup_insert_ne.
Qed.

(** The count the categorical aggregate holds for a value under a column key
    is the sum, over the instances classified categorical under that key, of
    the occurrences of the values whose trimmed text is that value. *)
Theorem categorical_counts_are_sums rt dataframes col k :
  count_of (Charts.categorical
              (Analysis.charts_data (analyze_excel_data rt dataframes))) col k
  = sum_list (categorical_occurrences rt col k <$> instances dataframes).
Proof.
  rewrite categorical_pools, pool_categorical_count.
  unfold count_of. by rewrite lookup_empty.
Qed.

(** The department scenario of the spec: the counts of the two sources add
    up to Eng 3, Sales 1, HR 1, and the insight line names Eng with 60
    percent of the five records. *)
Example department_scenario :
  let result := analyze_excel_data plain_runtime department_input in
  let counts := Charts.categorical (Analysis.charts_data result) in
  counts !! "Department" = Some {[ "Eng" := 3; "Sales" := 1; "HR" := 1 ]}
  /\ exists percentage,
       CategoricalInsight "Department" "Eng" percentage 3
         ∈ Analysis.insights result
       /\ (percentage == 60)%Q.
Proof.
  intros result counts. split; [by vm_compute|].
  eexists. split.
  - vm_compute. do 3 right. left.
  - by vm_compute.
Qed.

(** Pooling is not averaging of averages: the sources hold 1, 2, 3 and 10;
    the insight line states the mean 4 of the four values, while the means 2
    and 10 of the two sources average to 6. *)
Example pooled_mean_is_not_mean_of_means :
  let result := analyze_excel_data plain_runtime uneven_input in
  Charts.numeric (Analysis.charts_data result) !! "Salary"
  = Some [1%Q; 2%Q; 3%Q; 10%Q]
  /\ (exists mean_val std_val lo hi,
        NumericInsight "Salary" mean_val std_val lo hi ∈ Analysis.insights result
        /\ (mean_val == 4)%Q)
  /\ ((mean_of [1%Q; 2%Q; 3%Q] + mean_of [10%Q]) / 2 == 6)%Q.
Proof.
  intros result. split; [by vm_compute|]. split.
  - eexists _, _, _, _. split.
    + vm_compute. do 3 right. left.
    + by vm_compute.
  - by vm_compute.
Qed.

(** ** What each answer of the classifier says about the column *)

(** Each answer of the classifier is backed by the column: [empty] is given
    exactly for a column without a value, [date] only after the date step,
    [identifier] only to an integer column with an id keyword in its name and
    a ratio of distinct values above 0.8, [numeric] only to a column of a
    numeric dtype, and [categorical] and [text] only to a column of another
    dtype. *)
Theorem classification_respects_dtype rt (series : Series) (name : string) :
  (dropna series = [] -> detect_column_type rt series name = empty_t)
  /\ match detect_column_type rt series name with
     | empty_t => dropna series = []
     | date_t => dropna series <> [] /\ date_step rt series name = true
     | identifier =>
         is_integer_dtype series = true
         /\ PyStr.any_in id_keywords (column_name_lower name) = true
         /\ Qlt_bool (8 # 10) (ratio (length (unique (dropna series)))
                                     (length (dropna series))) = true
     | numeric_t => is_numeric_dtype series = true
     | categorical_t | text_t => is_numeric_dtype series = false
     end.
Proof.
  unfold detect_column_type, date_step, column_name_lower. split.
  { by intros ->. }
  destruct (dropna series) as [|c clean] eqn:Hclean; [done|].
  cbn [length Nat.eqb].
  destruct (PyStr.any_in date_keywords _ && to_datetime_raise rt _) eqn:Hdate.
  { done. }
  destruct (is_numeric_dtype series) eqn:Hnum.
  - destruct (is_integer_dtype series) eqn:Hint; cbn [andb]; [|done].
    destruct (Qlt_bool _ _) eqn:Hratio; cbn [andb]; [|done].
    by destruct (PyStr.any_in id_keywords _) eqn:Hid.
  - by destruct (_ || _).
Qed.


(** ** Date pools *)

Lemma date_pools rt dataframes :
  Charts.dates (Analysis.charts_data (analyze_excel_data rt dataframes))
  = foldl (pool_dates rt) ∅ (instances dataframes).
Proof.
  unfold analyze_excel_data. simpl.
  apply (charts_view_all rt Charts.dates (pool_dates rt)).
  intros filename sheet df st col series.
  unfold analyze_column, pool_dates, column_type, column_key. simpl.
  destruct (detect_column_type rt series col); simpl; try done.
  by destruct (0 <? length (to_numeric_coerce series)).
  by destruct (0 <? length (to_datetime_coerce rt series)).
Qed.

Lemma date_values_other rt col i :
  column_key i <> col -> date_values rt col i = [].
Proof.
  intros Hne. unfold date_values.
  by rewrite bool_decide_eq_false_2.
Qed.

Lemma date_values_same rt i :
  column_type rt i = date_t ->
  date_values rt (column_key i) i = to_datetime_coerce rt (raw i).
Proof.
  intros Hty. unfold date_values.
  by rewrite bool_decide_eq_true_2, Hty.
Qed.

Lemma date_values_not_date rt col i :
  column_type rt i <> date_t -> date_values rt col i = [].
Proof.
  intros Hty. unfold date_values.
  destruct (bool_decide _); [|done].
  by destruct (column_type rt i).
Qed.

Lemma pool_dates_lookup rt (l : list Instance) (m : gmap string (list Z))
    (col : string) :
  foldl (pool_dates rt) m l !! col =
  match m !! col with
  | Some held => Some (held ++ (l ≫= date_values rt col))
  | None =>
      match l ≫= date_values rt col with
      | [] => None
      | pooled => Some pooled
      end
  end.
Proof.
  revert m. induction l as [|i l IH]; intros m; simpl.
  { destruct (m !! col); by rewrite ?app_nil_r. }
  rewrite IH. clear IH. unfold pool_dates.
  destruct (decide (column_type rt i = date_t)) as [Hty|Hty]; cycle 1.
  { rewrite (date_values_not_date _ _ _ Hty). simpl.
    by destruct (column_type rt i). }
  rewrite Hty. simpl.
  destruct (decide (column_key i = col)) as [<-|Hne]; cycle 1.
  { rewrite (date_values_other _ _ _ Hne). simpl.
    destruct (0 <? length _); [|done]. by rewrite lookup_insert_ne. }
  rewrite (date_values_same _ _ Hty).
  destruct (to_datetime_coerce rt (raw i)) as [|x data] eqn:Hdata; simpl; [done|].
  rewrite lookup_insert_eq.
  destruct (m !! column_key i) as [held|]; simpl.
  - by rewrite <- app_assoc.
  - done.
Qed.

(** The pooled timestamps of a column key are the concatenation, in
    processing order, of the timestamps parsed from the instances classified
    date under that key; a key without such a timestamp has no entry. *)
Theorem pooled_dates_are_concatenation rt dataframes col :
  Charts.dates (Analysis.charts_data (analyze_excel_data rt dataframes)) !! col
  = match instances dataframes ≫= date_values rt col with
    | [] => None
    | pooled => Some pooled
    end.
Proof. by rewrite date_pools, pool_dates_lookup, lookup_empty. Qed.

(** ** The analysis kept per file *)

Lemma numeric_needs_numeric_dtype rt (series : Series) (name : string) :
  detect_column_type rt series name = numeric_t ->
  is_numeric_dtype series = true /\ length (dropna series) <> 0.
Proof.
  unfold detect_column_type.
  destruct (dropna series) as [|c clean]; [done|]. cbn [length Nat.eqb].
  destruct (_ && to_datetime_raise rt _); [done|].
  destruct (is_numeric_dtype series); [done|].
  by destruct (_ || _).
Qed.

Lemma numeric_column_has_data rt (series : Series) (name : string) :
  detect_column_type rt series name = numeric_t ->
  length (to_numeric_coerce series) = length (dropna series)
  /\ length (dropna series) <> 0.
Proof.
  intros Hty.
  apply numeric_needs_numeric_dtype in Hty as [Hsound Hclean].
  split; [|done]. clear Hclean.
  unfold to_numeric_coerce, dropna.
  destruct series as [l|l|l|l|l]; try discriminate Hsound; cbn [values];
    clear Hsound.
  - induction l as [|z l IH]; [done|]. rewrite fmap_cons. simpl.
    f_equal. apply IH.
  - induction l as [|[q|] l IH]; [done| |]; rewrite fmap_cons; simpl.
    + f_equal. apply IH.
    + apply IH.
  - induction l as [|b l IH]; [done|]. rewrite fmap_cons. simpl.
    f_equal. apply IH.
Qed.

(** C4. The pooled value list of a column key is the concatenation, in
    processing order, of the coerced value lists of the instances classified
    numeric under that key.  For a key with two pooled values or more, as
    every key with two instances classified numeric has, an insight line is
    given, and the mean every insight line states for the key is the mean of
    that whole list. *)
Theorem pooled_numeric_is_concatenation rt dataframes col :
  let pooled := instances dataframes ≫= numeric_values rt col in
  let result := analyze_excel_data rt dataframes in
  Charts.numeric (Analysis.charts_data result) !! col
  = match pooled with [] => None | _ => Some pooled end
  /\ (forall mean_val std_val lo hi,
        NumericInsight col mean_val std_val lo hi ∈ Analysis.insights result ->
        mean_val = mean_of pooled)
  /\ (2 <= length pooled ->
      NumericInsight col (mean_of pooled) (np_std pooled) (min_of pooled)
        (max_of pooled) ∈ Analysis.insights result)
  /\ (forall before i between j after,
        instances dataframes = before ++ i :: between ++ j :: after ->
        column_key i = col -> column_type rt i = numeric_t ->
        column_key j = col -> column_type rt j = numeric_t ->
        2 <= length pooled).
Proof.
  intros pooled result.
  assert (Hpool : Charts.numeric (Analysis.charts_data result) !! col
                  = match pooled with [] => None | _ => Some pooled end).
  { subst result. rewrite numeric_pools, pool_numeric_lookup.
    rewrite lookup_empty. subst pooled.
    by destruct (instances dataframes ≫= numeric_values rt col). }
  split; [exact Hpool|]. split; [|split].
  - intros mean_val std_val lo hi Hin.
    subst result. unfold analyze_excel_data in Hin. simpl in Hin.
    repeat (apply elem_of_cons in Hin as [Hin|Hin]; [discriminate Hin|]).
    apply elem_of_app in Hin as [Hin|Hin].
    { destruct (bool_decide _); [by apply elem_of_nil in Hin|].
      apply elem_of_cons in Hin as [Hin|Hin]; [discriminate Hin|].
      by apply elem_of_nil in Hin. }
    apply elem_of_app in Hin as [Hin|Hin]; cycle 1.
    { apply list_elem_of_bind in Hin as ([c categories] & Hin & _).
      unfold categorical_insight in Hin.
      destruct (top_of _) as [[top n]|]; [|by apply elem_of_nil in Hin].
      apply elem_of_cons in Hin as [Hin|Hin]; [discriminate Hin|].
      by apply elem_of_nil in Hin. }
    apply list_elem_of_bind in Hin as ([c vals] & Hin & Hentry).
    unfold numeric_insight in Hin.
    destruct (1 <? length vals); [|by apply elem_of_nil in Hin].
    apply elem_of_cons in Hin as [Hin|Hin]; [|by apply elem_of_nil in Hin].
    injection Hin as <- -> _ _ _.
    apply elem_of_map_to_list in Hentry.
    change (Charts.numeric
              (Analysis.charts_data (analyze_excel_data rt dataframes))
              !! col = Some vals) in Hentry.
    rewrite Hpool in Hentry.
    destruct pooled; by simplify_eq.
  - intros Hlen.
    assert (Hentry : Charts.numeric (Analysis.charts_data result) !! col
                     = Some pooled).
    { rewrite Hpool. destruct pooled; [simpl in Hlen; lia|done]. }
    subst result. unfold analyze_excel_data. cbn [Analysis.insights].
    do 3 (apply elem_of_cons; right).
    apply elem_of_app. right. apply elem_of_app. left.
    apply list_elem_of_bind. exists (col, pooled). split.
    + unfold numeric_insight.
      assert (Hmany : (1 <? length pooled) = true) by by apply Nat.ltb_lt.
      rewrite Hmany. by left.
    + by apply elem_of_map_to_list.
  - intros before i between j after Hall Hi Hti Hj Htj.
    subst pooled. rewrite Hall.
    rewrite bind_app, bind_cons, bind_app, bind_cons, !length_app.
    subst col.
    rewrite (numeric_values_same _ _ Hti).
    rewrite <- Hj, (numeric_values_same _ _ Htj).
    unfold column_type in Hti, Htj.
    destruct (numeric_column_has_data _ _ _ Hti) as [Hleni Hnei].
    destruct (numeric_column_has_data _ _ _ Htj) as [Hlenj Hnej].
    lia.
Qed.

Section File_analysis.
Variable rt : Runtime.

Lemma column_stats filename sheet df st col series :
  FileAnalysis.numeric_stats
    (file_analysis (analyze_column rt filename sheet df st (col, series)))
  = stats_step rt (FileAnalysis.numeric_stats (file_analysis st))
      {| source_name := filename; sheet_name := sheet; frame := df;
         column_name := col; raw := series |}.
Proof.
  unfold analyze_column, stats_step, column_type, column_key. simpl.
  destruct (detect_column_type rt series col); simpl; try done.
  by destruct (0 <? length (to_numeric_coerce series)).
  by destruct (0 <? length (to_datetime_coerce rt series)).
Qed.

Lemma sheet_stats filename st sheet :
  FileAnalysis.numeric_stats
    (file_analysis (analyze_sheet rt filename st sheet))
  = foldl (stats_step rt) (FileAnalysis.numeric_stats (file_analysis st))
      (sheet_instances filename sheet).
Proof.
  destruct sheet as [name df]. unfold analyze_sheet, sheet_instances. simpl.
  destruct (df_empty df); [done|].
  rewrite foldl_fmap'.
  rewrite (foldl_proj
             (fun st => FileAnalysis.numeric_stats (file_analysis st)) _
             (fun m column =>
                stats_step rt m
                  {| source_name := filename; sheet_name := name; frame := df;
                     column_name := column.1; raw := column.2 |})).
  - done.
  - intros s [col series]. apply column_stats.
Qed.

Lemma sheet_keeps_counts filename st sheet :
  FileAnalysis.categorical_counts
    (file_analysis (analyze_sheet rt filename st sheet))
  = FileAnalysis.categorical_counts (file_analysis st).
Proof.
  destruct sheet as [name df]. unfold analyze_sheet. simpl.
  destruct (df_empty df); [done|].
  rewrite (foldl_kept
             (fun st => FileAnalysis.categorical_counts (file_analysis st)));
    [done|].
  by intros s [col series].
Qed.

Lemma file_analysis_eq (a b : FileAnalysis.t) :
  FileAnalysis.numeric_stats a = FileAnalysis.numeric_stats b ->
  FileAnalysis.categorical_counts a = FileAnalysis.categorical_counts b ->
  FileAnalysis.data_quality a = FileAnalysis.data_quality b ->
  a = b.
Proof. destruct a, b. simpl. by intros -> -> ->. Qed.

Lemma file_stored st file :
  detailed_analysis (analyze_file rt st file)
  = <[file.1 := file_analysis_of rt (file_instances file)]>
      (detailed_analysis st).
Proof.
  destruct file as [filename sheets]. unfold analyze_file. simpl.
  rewrite (foldl_kept detailed_analysis)
    by (intros; apply sheet_keeps_detailed).
  simpl. f_equal. apply file_analysis_eq; simpl.
  - unfold file_instances. simpl. rewrite foldl_bind.
    rewrite (foldl_proj
               (fun st => FileAnalysis.numeric_stats (file_analysis st)) _
               (fun m sheet =>
                  foldl (stats_step rt) m (sheet_instances filename sheet))).
    + done.
    + intros. apply sheet_stats.
  - rewrite (foldl_kept
               (fun st => FileAnalysis.categorical_counts (file_analysis st)));
      [done|].
    intros. apply sheet_keeps_counts.
  - unfold file_quality, file_instances. simpl. rewrite foldl_bind.
    rewrite (foldl_proj
               (fun st => FileAnalysis.data_quality (file_analysis st)) _
               (fun m sheet =>
                  foldl (fun m i => <[column_key i := quality_of i]> m) m
                        (sheet_instances filename sheet))).
    + done.
    + intros. apply sheet_quality.
Qed.

(** The analysis stored under a file name is made from the instances of that
    file alone: the statistics, the data quality records, and a table of
    categorical counts that stays empty.  Of two files of one name the later
    one's analysis is the one stored. *)
Lemma detailed_analysis_per_file dataframes :
  Analysis.detailed_analysis (analyze_excel_data rt dataframes)
  = foldl (fun stored file =>
             <[file.1 := file_analysis_of rt (file_instances file)]> stored)
      ∅ dataframes.
Proof.
  unfold analyze_excel_data. simpl.
  apply (foldl_proj detailed_analysis (analyze_file rt)
           (fun stored file =>
              <[file.1 := file_analysis_of rt (file_instances file)]> stored)).
  intros s file. apply file_stored.
Qed.

End File_analysis.

Lemma stats_step_lookup rt (l : list Instance) (col : string) :
  foldl (stats_step rt) ∅ l !! col
  = (fun i => numeric_stats_of (to_numeric_coerce (raw i)))
      <$> last (filter (numeric_under rt col) l).
Proof.
  induction l as [|i l IH] using rev_ind; [done|].
  rewrite foldl_snoc, filter_app. unfold stats_step at 1.
  destruct (decide (column_type rt i = numeric_t)) as [Hty|Hty]; cycle 1.
  { rewrite filter_cons_False, filter_nil, app_nil_r
      by (intros [_ Hnum]; done).
    rewrite <- IH. by destruct (column_type rt i). }
  rewrite Hty.
  pose proof (numeric_column_has_data rt (raw i) (column_name i) Hty)
    as [Hlen Hclean].
  assert (Hdata : (0 <? length (to_numeric_coerce (raw i))) = true).
  { apply Nat.ltb_lt. lia. }
  cbn zeta. rewrite Hdata.
  destruct (decide (column_key i = col)) as [Hkey|Hkey].
  - rewrite filter_cons_True, filter_nil by done.
    rewrite last_snoc. subst col. by rewrite lookup_insert_eq.
  - rewrite filter_cons_False, filter_nil, app_nil_r
      by (intros [Hk _]; done).
    by rewrite lookup_insert_ne.
Qed.

(** The statistics stored for a file under a column key are those of one
    instance alone, the last instance of that file classified numeric under
    the key: an earlier sheet's statistics for the same key are replaced, and
    no other file has a part in them. *)
Theorem numeric_stats_per_file_and_key rt dataframes filename sheets col :
  NoDup dataframes.*1 ->
  (filename, sheets) ∈ dataframes ->
  exists fa,
    Analysis.detailed_analysis (analyze_excel_data rt dataframes) !! filename
    = Some fa
    /\ FileAnalysis.numeric_stats fa !! col
       = (fun i => numeric_stats_of (to_numeric_coerce (raw i)))
           <$> last (filter (numeric_under rt col)
                            (file_instances (filename, sheets))).
Proof.
  intros Hnd Hin. rewrite detailed_analysis_per_file.
  rewrite (foldl_insert_lookup fst
             (fun file => file_analysis_of rt (file_instances file))).
  rewrite (last_filter_unique _ _ _ Hnd Hin).
  eexists. split; [done|]. simpl. apply stats_step_lookup.
Qed.

(** Two parts of the result are never written: the identifier aggregate of
    the charts stays empty for every input, and so does the table of
    categorical counts of every file's analysis. *)
Theorem unwritten_parts_stay_empty rt dataframes :
  Charts.identifiers (Analysis.charts_data (analyze_excel_data rt dataframes))
  = ∅
  /\ forall filename fa,
       Analysis.detailed_analysis (analyze_excel_data rt dataframes)
         !! filename = Some fa ->
       FileAnalysis.categorical_counts fa = ∅.
Proof.
  split.
  - unfold analyze_excel_data. simpl.
    rewrite (charts_view_all rt Charts.identifiers (fun kept _ => kept)).
    + by apply (foldl_kept id).
    + intros filename sheet df st col series.
      unfold analyze_column. simpl.
      destruct (detect_column_type rt series col); simpl; try done.
      by destruct (0 <? length (to_numeric_coerce series)).
      by destruct (0 <? length (to_datetime_coerce rt series)).
  - intros filename fa. rewrite detailed_analysis_per_file.
    rewrite (foldl_insert_lookup fst
               (fun file => file_analysis_of rt (file_instances file))).
    destruct (last _) as [file|]; [|by rewrite lookup_empty].
    by intros [= <-].
Qed.

(** The theorem at the file of two sheets with a column [Salary] each: the
    statistics kept are those of the three values of the later sheet. *)
Lemma numeric_stats_per_file_and_key_witness :
  NoDup two_pay_input.*1
  /\ ("pay.xlsx", two_pay_sheets) ∈ two_pay_input
  /\ exists fa,
       Analysis.detailed_analysis
         (analyze_excel_data plain_runtime two_pay_input) !! "pay.xlsx"
       = Some fa
       /\ NumericStats.count <$> FileAnalysis.numeric_stats fa !! "Salary"
          = Some 3.
Proof.
  assert (Hnd : NoDup two_pay_input.*1) by apply NoDup_singleton.
  assert (Hin : ("pay.xlsx", two_pay_sheets) ∈ two_pay_input)
    by apply list_elem_of_here.
  split; [exact Hnd|]. split; [exact Hin|].
  destruct (numeric_stats_per_file_and_key plain_runtime two_pay_input
              "pay.xlsx" two_pay_sheets "Salary" Hnd Hin) as (fa & Hfa & Hstats).
  exists fa. split; [exact Hfa|]. rewrite Hstats. reflexivity.
Defined.

(** ** The column counts by type *)

Lemma bind_nil {A B : Type} (f : A -> list B) (l : list A) :
  l ≫= f = [] <-> forall x, x ∈ l -> f x = [].
Proof.
  induction l as [|a l IH]; simpl.
  { split; [|done]. intros _ x Hx. by apply elem_of_nil in Hx. }
  split.
  - intros Happ. apply app_eq_nil in Happ as [Ha Hl].
    intros x Hx. apply elem_of_cons in Hx as [->|Hx]; [done|].
    by apply IH.
  - intros Hall. rewrite (Hall a) by left. simpl.
    apply IH. intros x Hx. apply Hall. by right.
Qed.

Lemma elem_of_keys_of_type rt ty dataframes col :
  col ∈ keys_of_type rt ty dataframes
  <-> exists i, i ∈ instances dataframes
                /\ column_key i = col /\ column_type rt i = ty.
Proof.
  unfold keys_of_type. rewrite elem_of_list_to_set, list_elem_of_fmap.
  split.
  - intros (i & -> & Hi). apply list_elem_of_filter in Hi as [Hty Hi].
    by exists i.
  - intros (i & Hi & <- & Hty). exists i. split; [done|].
    by apply list_elem_of_filter.
Qed.

Lemma numeric_keys rt dataframes :
  dom (Charts.numeric (Analysis.charts_data (analyze_excel_data rt dataframes)))
  = keys_of_type rt numeric_t dataframes.
Proof.
  apply set_eq. intros col.
  rewrite elem_of_dom, numeric_pools, pool_numeric_lookup, lookup_empty.
  rewrite elem_of_keys_of_type. split.
  - intros Hsome.
    destruct (instances dataframes ≫= numeric_values rt col) eqn:Hpool.
    { by destruct Hsome. }
    destruct (decide (Exists (fun i => numeric_values rt col i <> [])
                             (instances dataframes))) as [Hex|Hno].
    + apply Exists_exists in Hex as (i & Hi & Hvals).
      exists i. split; [done|]. unfold numeric_values in Hvals.
      case_bool_decide; [|done]. split; [done|].
      by destruct (column_type rt i).
    + exfalso. assert (Hnil : instances dataframes ≫= numeric_values rt col = []).
      { apply bind_nil. intros i Hi.
        destruct (decide (numeric_values rt col i = [])) as [|Hne]; [done|].
        exfalso. apply Hno. apply Exists_exists. by exists i. }
      by rewrite Hnil in Hpool.
  - intros (i & Hi & Hkey & Hty).
    destruct (instances dataframes ≫= numeric_values rt col) eqn:Hpool; [|done].
    exfalso. pose proof (proj1 (bind_nil _ _) Hpool i Hi) as Hnil.
    subst col. rewrite (numeric_values_same _ _ Hty) in Hnil.
    pose proof (numeric_column_has_data rt (raw i) (column_name i) Hty)
      as [Hlen Hclean].
    rewrite Hnil in Hlen. simpl in Hlen. lia.
Qed.

Lemma elem_of_dated_keys rt dataframes col :
  col ∈ dated_keys rt dataframes
  <-> exists i, i ∈ instances dataframes
                /\ column_key i = col /\ column_type rt i = date_t
                /\ to_datetime_coerce rt (raw i) <> [].
Proof.
  unfold dated_keys. rewrite elem_of_list_to_set, list_elem_of_fmap.
  split.
  - intros (i & -> & Hi). apply list_elem_of_filter in Hi as [[Hty Hdata] Hi].
    by exists i.
  - intros (i & Hi & <- & Hty & Hdata). exists i. split; [done|].
    by apply list_elem_of_filter.
Qed.

Lemma date_keys rt dataframes :
  dom (Charts.dates (Analysis.charts_data (analyze_excel_data rt dataframes)))
  = dated_keys rt dataframes.
Proof.
  apply set_eq. intros col.
  rewrite elem_of_dom, date_pools, pool_dates_lookup, lookup_empty.
  rewrite elem_of_dated_keys. split.
  - intros Hsome.
    destruct (instances dataframes ≫= date_values rt col) eqn:Hpool.
    { by destruct Hsome. }
    destruct (decide (Exists (fun i => date_values rt col i <> [])
                             (instances dataframes))) as [Hex|Hno].
    + apply Exists_exists in Hex as (i & Hi & Hvals).
      exists i. split; [done|]. unfold date_values in Hvals.
      case_bool_decide; [|done]. split; [done|].
      by destruct (column_type rt i).
    + exfalso. assert (Hnil : instances dataframes ≫= date_values rt col = []).
      { apply bind_nil. intros i Hi.
        destruct (decide (date_values rt col i = [])) as [|Hne]; [done|].
        exfalso. apply Hno. apply Exists_exists. by exists i. }
      by rewrite Hnil in Hpool.
  - intros (i & Hi & Hkey & Hty & Hdata).
    destruct (instances dataframes ≫= date_values rt col) eqn:Hpool; [|done].
    exfalso. pose proof (proj1 (bind_nil _ _) Hpool i Hi) as Hnil.
    subst col. by rewrite (date_values_same _ _ Hty) in Hnil.
Qed.

Lemma dated_keys_subseteq rt dataframes :
  dated_keys rt dataframes ⊆ keys_of_type rt date_t dataframes.
Proof.
  intros col Hcol. apply elem_of_dated_keys in Hcol as (i & Hi & Hkey & Hty & _).
  apply elem_of_keys_of_type. by exists i.
Qed.

Lemma pool_categorical_keys rt (l : list Instance)
    (m : gmap string (gmap string nat)) :
  dom (foldl (pool_categorical rt) m l)
  = (list_to_set (column_key <$> filter (fun i => column_type rt i = categorical_t) l)
     ∪ dom m : gset string).
Proof.
  revert m. induction l as [|i l IH]; intros m.
  { simpl. symmetry. apply (left_id_L ∅ (∪)). }
  cbn [foldl]. rewrite IH. unfold pool_categorical.
  destruct (decide (column_type rt i = categorical_t)) as [Hty|Hty].
  - rewrite filter_cons_True by done.
    rewrite Hty, fold_categorical_insert, dom_insert_L.
    rewrite fmap_cons, list_to_set_cons.
    rewrite (comm_L (∪) {[column_key i]} (list_to_set _)).
    by rewrite (assoc_L (∪)).
  - rewrite filter_cons_False by done.
    by destruct (column_type rt i).
Qed.

Lemma categorical_keys rt dataframes :
  dom (Charts.categorical
         (Analysis.charts_data (analyze_excel_data rt dataframes)))
  = keys_of_type rt categorical_t dataframes.
Proof.
  rewrite categorical_pools, pool_categorical_keys, dom_empty_L.
  apply (right_id_L ∅ (∪)).
Qed.

Lemma keys_of_type_subseteq rt ty dataframes :
  keys_of_type rt ty dataframes
  ⊆ (list_to_set (column_key <$> instances dataframes) : gset string).
Proof.
  intros col Hcol. apply elem_of_keys_of_type in Hcol as (i & Hi & <- & _).
  apply elem_of_list_to_set, list_elem_of_fmap. by exists i.
Qed.

(** The column counts by type of the summary count column keys: a key is
    counted as numeric or categorical when some instance under it is
    classified so, and as date when some instance classified date under it
    yields a timestamp.  Each of the three counts is at most [total_columns];
    a key whose instances are classified differently is counted under each
    of its types. *)
Theorem type_counts_count_keys rt dataframes :
  let summary := Analysis.summary (analyze_excel_data rt dataframes) in
  Summary.numeric_columns summary
  = size (keys_of_type rt numeric_t dataframes)
  /\ Summary.categorical_columns summary
     = size (keys_of_type rt categorical_t dataframes)
  /\ Summary.date_columns summary = size (dated_keys rt dataframes)
  /\ dated_keys rt dataframes ⊆ keys_of_type rt date_t dataframes
  /\ Summary.numeric_columns summary <= Summary.total_columns summary
  /\ Summary.categorical_columns summary <= Summary.total_columns summary
  /\ Summary.date_columns summary <= Summary.total_columns summary.
Proof.
  intros summary.
  assert (Hn : Summary.numeric_columns summary
               = size (keys_of_type rt numeric_t dataframes)).
  { rewrite <- numeric_keys, size_dom. done. }
  assert (Hc : Summary.categorical_columns summary
               = size (keys_of_type rt categorical_t dataframes)).
  { rewrite <- categorical_keys, size_dom. done. }
  assert (Hd : Summary.date_columns summary
               = size (dated_keys rt dataframes)).
  { rewrite <- date_keys, size_dom. done. }
  assert (Ht : Summary.total_columns summary
               = size (list_to_set (column_key <$> instances dataframes)
                       : gset string)).
  { subst summary. unfold analyze_excel_data. simpl. rewrite <- size_dom.
    rewrite column_keys_all. simpl.
    by rewrite dom_empty_L, (right_id_L ∅ (∪)). }
  rewrite Hn, Hc, Hd, Ht.
  split; [done|]. split; [done|]. split; [done|].
  split; [apply dated_keys_subseteq|].
  split; [|split]; apply subseteq_size; try apply keys_of_type_subseteq.
  etrans; [apply dated_keys_subseteq|apply keys_of_type_subseteq].
Qed.

(** ** The counts of the categorical aggregate *)

Lemma cell_eqb_refl (c : cell) : isnull c = false -> cell_eqb c c = true.
Proof.
  destruct c as [|z|q|b|ns|s]; intros Hnull; try done; unfold cell_eqb; simpl.
  - apply Qeq_bool_iff. reflexivity.
  - apply Qeq_bool_iff. reflexivity.
  - apply Qeq_bool_iff. reflexivity.
  - by apply bool_decide_eq_true_2.
  - by apply bool_decide_eq_true_2.
Qed.

Lemma unique_subset (l : list cell) (c : cell) : c ∈ unique l -> c ∈ l.
Proof.
  revert c. induction l as [|d l IH]; intros c; simpl; [done|].
  intros Hc. apply elem_of_cons in Hc as [->|Hc]; [left|].
  right. apply IH. apply list_elem_of_In in Hc.
  apply filter_In in Hc as [Hc _]. by apply list_elem_of_In.
Qed.

Lemma value_counts_positive (series : Series) (item : cell * nat) :
  item ∈ value_counts series -> isnull item.1 = false /\ 1 <= item.2.
Proof.
  unfold value_counts. intros Hitem.
  apply list_elem_of_fmap in Hitem as (c & -> & Hc). simpl.
  apply unique_subset in Hc.
  assert (Hnull : isnull c = false).
  { unfold dropna in Hc. apply list_elem_of_In, filter_In in Hc as [_ Hc].
    by apply negb_true_iff. }
  split; [done|].
  assert (Hin : c ∈ List.filter (cell_eqb c) (dropna series)).
  { apply list_elem_of_In, filter_In. split; [by apply list_elem_of_In|].
    by apply cell_eqb_refl. }
  destruct (List.filter (cell_eqb c) (dropna series)); [|simpl; lia].
  by apply elem_of_nil in Hin.
Qed.

Lemma tally_positive rt (items : list (cell * nat)) (counts : gmap string nat) :
  (forall item, item ∈ items -> 1 <= item.2) ->
  (forall k n, counts !! k = Some n -> 1 <= n) ->
  forall k n, tally rt items counts !! k = Some n -> 1 <= n.
Proof.
  unfold tally. revert counts.
  induction items as [|item items IH]; intros counts Hitems Hcounts; [done|].
  cbn [foldl]. apply IH.
  - intros item' Hin. apply Hitems. by right.
  - destruct (negb (isnull item.1)); [|done].
    intros k n. unfold add_count.
    destruct (decide (PyStr.strip (py_str rt item.1) = k)) as [<-|Hk].
    + rewrite lookup_insert_eq. intros [= <-].
      assert (1 <= item.2) by (apply Hitems; left). lia.
    + rewrite lookup_insert_ne by done. apply Hcounts.
Qed.

Lemma tally_nonempty rt (items : list (cell * nat)) (counts : gmap string nat) :
  (exists item, item ∈ items /\ isnull item.1 = false) \/ counts <> ∅ ->
  tally rt items counts <> ∅.
Proof.
  unfold tally. revert counts.
  induction items as [|item items IH]; intros counts Hsome.
  { destruct Hsome as [(item & Hin & _)|Hne]; [|done].
    by apply elem_of_nil in Hin. }
  cbn [foldl]. apply IH.
  destruct (isnull item.1) eqn:Hnull; simpl.
  - destruct Hsome as [(item' & Hin & Hnn)|Hne]; [|by right].
    apply elem_of_cons in Hin as [->|Hin]; [congruence|].
    left. by exists item'.
  - right. unfold add_count. apply insert_non_empty.
Qed.

Lemma value_counts_nonempty (series : Series) :
  dropna series <> [] -> value_counts series <> [].
Proof.
  unfold value_counts. by destruct (dropna series).
Qed.

Lemma categorical_column_has_value rt (series : Series) (name : string) :
  detect_column_type rt series name = categorical_t -> dropna series <> [].
Proof.
  unfold detect_column_type. by destruct (dropna series).
Qed.

Lemma pool_categorical_positive rt (l : list Instance)
    (m : gmap string (gmap string nat)) :
  (forall col inner, m !! col = Some inner ->
     inner <> ∅ /\ forall k n, inner !! k = Some n -> 1 <= n) ->
  forall col inner, foldl (pool_categorical rt) m l !! col = Some inner ->
    inner <> ∅ /\ forall k n, inner !! k = Some n -> 1 <= n.
Proof.
  revert m. induction l as [|i l IH]; intros m Hm; [done|].
  cbn [foldl]. apply IH. clear IH. unfold pool_categorical.
  destruct (decide (column_type rt i = categorical_t)) as [Hty|Hty];
    [|by destruct (column_type rt i)].
  rewrite Hty, fold_categorical_insert. intros col inner.
  destruct (decide (column_key i = col)) as [<-|Hne];
    [|rewrite lookup_insert_ne by done; apply Hm].
  rewrite lookup_insert_eq. intros [= <-]. split.
  - apply tally_nonempty. left.
    apply categorical_column_has_value, value_counts_nonempty in Hty.
    destruct (value_counts (raw i)) as [|item items] eqn:Hitems; [done|].
    exists item. split; [left|].
    apply (value_counts_positive (raw i)). rewrite Hitems. left.
  - apply tally_positive.
    + intros item Hitem. by apply value_counts_positive in Hitem as [_ Hone].
    + destruct (m !! column_key i) as [held|] eqn:Hheld; simpl.
      * by apply (Hm _ _ Hheld).
      * intros k n. by rewrite lookup_empty.
Qed.

(** Every column key of the categorical aggregate has at least one category,
    and every count it holds is at least 1: the total the percentages are
    taken of is never zero. *)
Theorem categorical_counts_are_positive rt dataframes col inner :
  Charts.categorical (Analysis.charts_data (analyze_excel_data rt dataframes))
    !! col = Some inner ->
  inner <> ∅
  /\ (forall k n, inner !! k = Some n -> 1 <= n)
  /\ 1 <= sum_list (snd <$> map_to_list inner).
Proof.
  rewrite categorical_pools. intros Hinner.
  apply pool_categorical_positive in Hinner as [Hne Hpos];
    [|intros c x; by rewrite lookup_empty].
  split; [done|]. split; [done|].
  destruct (map_to_list inner) as [|[k n] items] eqn:Hitems.
  { by apply map_to_list_empty_iff in Hitems. }
  assert (1 <= n).
  { apply (Hpos k). apply elem_of_map_to_list. rewrite Hitems. left. }
  rewrite fmap_cons. simpl. lia.
Qed.

(** The theorem at the two sources of the department scenario. *)
Lemma categorical_counts_are_positive_witness :
  Charts.categorical
    (Analysis.charts_data (analyze_excel_data plain_runtime department_input))
    !! "Department"
  = Some {[ "Eng" := 3; "Sales" := 1; "HR" := 1 ]}
  /\ 1 <= sum_list
            (snd <$> map_to_list
                       ({[ "Eng" := 3; "Sales" := 1; "HR" := 1 ]}
                        : gmap string nat)).
Proof.
  assert (Hinner :
            Charts.categorical
              (Analysis.charts_data
                 (analyze_excel_data plain_runtime department_input))
              !! "Department"
            = Some {[ "Eng" := 3; "Sales" := 1; "HR" := 1 ]})
    by (by vm_compute).
  split; [exact Hinner|].
  exact (proj2 (proj2 (categorical_counts_are_positive plain_runtime
                         department_input "Department" _ Hinner))).
Defined.

(** ** The insight lines *)

Lemma top_of_fold (categories : list (string * nat))
    (best : option (string * nat)) (top : string * nat) :
  foldl (fun best entry =>
           match best with
           | None => Some entry
           | Some b => if b.2 <? entry.2 then Some entry else best
           end) best categories = Some top ->
  (top ∈ categories \/ best = Some top)
  /\ (forall entry, entry ∈ categories -> entry.2 <= top.2)
  /\ (forall b, best = Some b -> b.2 <= top.2).
Proof.
  revert best. induction categories as [|entry categories IH]; intros best.
  { simpl. intros ->. split; [by right|]. split.
    - intros entry Hin. by apply elem_of_nil in Hin.
    - by intros b [= ->]. }
  cbn [foldl]. intros Hfold. apply IH in Hfold as (Hin & Hmax & Hbest).
  destruct best as [b|].
  - destruct (b.2 <? entry.2) eqn:Hlt.
    + apply Nat.ltb_lt in Hlt.
      assert (entry.2 <= top.2) by by apply Hbest.
      split; [|split].
      * destruct Hin as [Hin|[= <-]]; left; [by right|left].
      * intros e He. apply elem_of_cons in He as [->|He]; [done|by apply Hmax].
      * intros b' [= <-]. lia.
    + apply Nat.ltb_ge in Hlt.
      assert (b.2 <= top.2) by by apply Hbest.
      split; [|split].
      * destruct Hin as [Hin|Hin]; [left; by right|by right].
      * intros e He. apply elem_of_cons in He as [->|He]; [lia|by apply Hmax].
      * by intros b' [= <-].
  - assert (entry.2 <= top.2) by by apply Hbest.
    split; [|split].
    + destruct Hin as [Hin|[= <-]]; left; [by right|left].
    + intros e He. apply elem_of_cons in He as [->|He]; [done|by apply Hmax].
    + done.
Qed.

Lemma top_of_max (categories : list (string * nat)) (top : string * nat) :
  top_of categories = Some top ->
  top ∈ categories /\ forall entry, entry ∈ categories -> entry.2 <= top.2.
Proof.
  unfold top_of. intros Htop.
  apply top_of_fold in Htop as ([Hin|Hnone] & Hmax & _); [done|done].
Qed.

Lemma percentage_bounds (n total : nat) :
  1 <= n -> n <= total ->
  (0 < Qnat n / Qnat total * 100)%Q /\ (Qnat n / Qnat total * 100 <= 100)%Q.
Proof.
  intros Hn Htotal.
  assert (Hn' : (0 < Qnat n)%Q) by (unfold Qnat, Qlt; simpl; lia).
  assert (Ht' : (0 < Qnat total)%Q) by (unfold Qnat, Qlt; simpl; lia).
  assert (Hle : (Qnat n <= Qnat total)%Q) by (unfold Qnat, Qle; simpl; lia).
  split.
  - apply Qmult_lt_0_compat; [|done].
    apply Qlt_shift_div_l; [done|]. by rewrite Qmult_0_l.
  - apply Qle_trans with (1 * 100)%Q; [|done].
    apply Qmult_le_compat_r; [|done].
    apply Qle_shift_div_r; [done|]. by rewrite Qmult_1_l.
Qed.

(** An insight line on a categorical column key names a value that no other
    value of the key exceeds in count, states that count, and states as
    percentage the count's share of all counts of the key, a number above 0
    and at most 100. *)
Theorem categorical_insight_names_a_maximum rt dataframes
    col top_category percentage records :
  CategoricalInsight col top_category percentage records
    ∈ Analysis.insights (analyze_excel_data rt dataframes) ->
  exists categories,
    Charts.categorical
      (Analysis.charts_data (analyze_excel_data rt dataframes)) !! col
    = Some categories
    /\ categories !! top_category = Some records
    /\ (forall value n, categories !! value = Some n -> n <= records)
    /\ percentage
       = (Qnat records / Qnat (sum_list (snd <$> map_to_list categories))
          * 100)%Q
    /\ (0 < percentage)%Q /\ (percentage <= 100)%Q.
Proof.
  intros Hin. unfold analyze_excel_data in Hin. simpl in Hin.
  repeat (apply elem_of_cons in Hin as [Hin|Hin]; [discriminate Hin|]).
  apply elem_of_app in Hin as [Hin|Hin].
  { destruct (bool_decide _); [by apply elem_of_nil in Hin|].
    apply elem_of_cons in Hin as [Hin|Hin]; [discriminate Hin|].
    by apply elem_of_nil in Hin. }
  apply elem_of_app in Hin as [Hin|Hin].
  { apply list_elem_of_bind in Hin as ([c vals] & Hin & _).
    unfold numeric_insight in Hin.
    destruct (1 <? length vals); [|by apply elem_of_nil in Hin].
    apply elem_of_cons in Hin as [Hin|Hin]; [discriminate Hin|].
    by apply elem_of_nil in Hin. }
  apply list_elem_of_bind in Hin as ([c categories] & Hin & Hentry).
  unfold categorical_insight in Hin.
  destruct (top_of (map_to_list categories)) as [[top n]|] eqn:Htop;
    [|by apply elem_of_nil in Hin].
  apply elem_of_cons in Hin as [Hin|Hin]; [|by apply elem_of_nil in Hin].
  injection Hin as <- <- -> <-.
  apply elem_of_map_to_list in Hentry.
  change (Charts.categorical
            (Analysis.charts_data (analyze_excel_data rt dataframes)) !! col
          = Some categories) in Hentry.
  exists categories. split; [done|].
  apply top_of_max in Htop as [Hin Hmax].
  apply elem_of_map_to_list in Hin.
  assert (Hle : forall value n, categories !! value = Some n -> n <= records).
  { intros value n Hvalue.
    apply (Hmax (value, n)). by apply elem_of_map_to_list. }
  split; [done|]. split; [done|]. split; [done|].
  rewrite categorical_pools in Hentry.
  apply pool_categorical_positive in Hentry as [_ Hpos];
    [|intros c' x; by rewrite lookup_empty].
  apply percentage_bounds.
  - by apply (Hpos top_category).
  - apply (sum_list_with_in records id).
    apply list_elem_of_fmap. exists (top_category, records).
    split; [done|]. by apply elem_of_map_to_list.
Qed.

(** The theorem at the two sources of the department scenario. *)
Lemma categorical_insight_names_a_maximum_witness :
  CategoricalInsight "Department" "Eng" (300 # 5) 3
    ∈ Analysis.insights (analyze_excel_data plain_runtime department_input)
  /\ (0 < 300 # 5)%Q /\ (300 # 5 <= 100)%Q.
Proof.
  assert (Hline : CategoricalInsight "Department" "Eng" (300 # 5) 3
                    ∈ Analysis.insights
                        (analyze_excel_data plain_runtime department_input)).
  { vm_compute. do 3 right. left. }
  split; [exact Hline|].
  destruct (categorical_insight_names_a_maximum plain_runtime department_input
              "Department" "Eng" (300 # 5) 3 Hline)
    as (categories & _ & _ & _ & _ & Hbounds).
  exact Hbounds.
Defined.

Lemma Qlt_bool_spec (p q : Q) :
  if Qlt_bool p q then (p < q)%Q else (q <= p)%Q.
Proof.
  unfold Qlt_bool. destruct (Qle_bool q p) eqn:Hle; simpl.
  - by apply Qle_bool_iff.
  - apply Qnot_le_lt. intros Hqp. apply Qle_bool_iff in Hqp. congruence.
Qed.

Lemma foldl_min_spec (l : list Q) (start : Q) :
  let least := foldl (fun m y => if Qlt_bool y m then y else m) start l in
  least ∈ start :: l
  /\ (least <= start)%Q
  /\ forall y, y ∈ l -> (least <= y)%Q.
Proof.
  revert start. induction l as [|y l IH]; intros start; cbn [foldl].
  { split; [left|]. split; [apply Qle_refl|].
    intros y Hy. by apply elem_of_nil in Hy. }
  pose proof (Qlt_bool_spec y start) as Hcmp.
  destruct (Qlt_bool y start).
  - destruct (IH y) as (Hin & Hle & Hall). split; [by right|]. split.
    + eapply Qle_trans; [exact Hle|]. by apply Qlt_le_weak.
    + intros z Hz. apply elem_of_cons in Hz as [->|Hz]; [done|by apply Hall].
  - destruct (IH start) as (Hin & Hle & Hall). split.
    + apply elem_of_cons in Hin as [->|Hin]; [left|right; by right].
    + split; [done|].
      intros z Hz. apply elem_of_cons in Hz as [->|Hz]; [|by apply Hall].
      by eapply Qle_trans.
Qed.

Lemma foldl_max_spec (l : list Q) (start : Q) :
  let greatest := foldl (fun m y => if Qlt_bool m y then y else m) start l in
  greatest ∈ start :: l
  /\ (start <= greatest)%Q
  /\ forall y, y ∈ l -> (y <= greatest)%Q.
Proof.
  revert start. induction l as [|y l IH]; intros start; cbn [foldl].
  { split; [left|]. split; [apply Qle_refl|].
    intros y Hy. by apply elem_of_nil in Hy. }
  pose proof (Qlt_bool_spec start y) as Hcmp.
  destruct (Qlt_bool start y).
  - destruct (IH y) as (Hin & Hle & Hall). split; [by right|]. split.
    + eapply Qle_trans; [|exact Hle]. by apply Qlt_le_weak.
    + intros z Hz. apply elem_of_cons in Hz as [->|Hz]; [done|by apply Hall].
  - destruct (IH start) as (Hin & Hle & Hall). split.
    + apply elem_of_cons in Hin as [->|Hin]; [left|right; by right].
    + split; [done|].
      intros z Hz. apply elem_of_cons in Hz as [->|Hz]; [|by apply Hall].
      by eapply Qle_trans.
Qed.

Lemma range_spec (l : list Q) :
  l <> [] ->
  min_of l ∈ l /\ max_of l ∈ l
  /\ (forall x, x ∈ l -> (min_of l <= x)%Q /\ (x <= max_of l)%Q).
Proof.
  destruct l as [|x l]; [done|]. intros _.
  pose proof (foldl_min_spec l x) as (Hmin_in & Hmin_x & Hmin_all).
  pose proof (foldl_max_spec l x) as (Hmax_in & Hmax_x & Hmax_all).
  split; [done|]. split; [done|].
  intros y Hy. apply elem_of_cons in Hy as [->|Hy]; [done|].
  split; [by apply Hmin_all|by apply Hmax_all].
Qed.

(** An insight line on a numeric column key is given only for a key with at
    least two pooled values, and the range it states is from the least to
    the greatest pooled value, both among the values. *)
Theorem numeric_insight_states_range rt dataframes col mean_val std_val lo hi :
  NumericInsight col mean_val std_val lo hi
    ∈ Analysis.insights (analyze_excel_data rt dataframes) ->
  exists pooled,
    Charts.numeric (Analysis.charts_data (analyze_excel_data rt dataframes))
      !! col = Some pooled
    /\ 2 <= length pooled
    /\ lo ∈ pooled /\ hi ∈ pooled
    /\ (forall x, x ∈ pooled -> (lo <= x)%Q /\ (x <= hi)%Q).
Proof.
  intros Hin. unfold analyze_excel_data in Hin. simpl in Hin.
  repeat (apply elem_of_cons in Hin as [Hin|Hin]; [discriminate Hin|]).
  apply elem_of_app in Hin as [Hin|Hin].
  { destruct (bool_decide _); [by apply elem_of_nil in Hin|].
    apply elem_of_cons in Hin as [Hin|Hin]; [discriminate Hin|].
    by apply elem_of_nil in Hin. }
  apply elem_of_app in Hin as [Hin|Hin]; cycle 1.
  { apply list_elem_of_bind in Hin as ([c categories] & Hin & _).
    unfold categorical_insight in Hin.
    destruct (top_of _) as [[top n]|]; [|by apply elem_of_nil in Hin].
    apply elem_of_cons in Hin as [Hin|Hin]; [discriminate Hin|].
    by apply elem_of_nil in Hin. }
  apply list_elem_of_bind in Hin as ([c vals] & Hin & Hentry).
  unfold numeric_insight in Hin.
  destruct (1 <? length vals) eqn:Hlen; [|by apply elem_of_nil in Hin].
  apply elem_of_cons in Hin as [Hin|Hin]; [|by apply elem_of_nil in Hin].
  injection Hin as <- -> -> -> ->.
  apply elem_of_map_to_list in Hentry.
  exists vals. split; [exact Hentry|].
  apply Nat.ltb_lt in Hlen. split; [lia|].
  apply range_spec. intros ->. simpl in Hlen. lia.
Qed.

(** The theorem at the two sources holding 1, 2, 3 and 10. *)
Lemma numeric_insight_states_range_witness :
  NumericInsight "Salary" (16 # 4) (sqrt_of (3276800 # 262144)) 1 10
    ∈ Analysis.insights (analyze_excel_data plain_runtime uneven_input)
  /\ exists pooled,
       Charts.numeric
         (Analysis.charts_data (analyze_excel_data plain_runtime uneven_input))
         !! "Salary" = Some pooled
       /\ 2 <= length pooled
       /\ 1%Q ∈ pooled /\ 10%Q ∈ pooled
       /\ (forall x, x ∈ pooled -> (1 <= x)%Q /\ (x <= 10)%Q).
Proof.
  assert (Hline : NumericInsight "Salary" (16 # 4)
                    (sqrt_of (3276800 # 262144)) 1 10
                    ∈ Analysis.insights
                        (analyze_excel_data plain_runtime uneven_input)).
  { vm_compute. do 3 right. left. }
  split; [exact Hline|].
  exact (numeric_insight_states_range plain_runtime uneven_input
           "Salary" _ _ _ _ Hline).
Defined.

(** ** Bounds of a data quality record *)

Lemma filter_split_length {A : Type} (f : A -> bool) (l : list A) :
  length (List.filter f l) + length (List.filter (fun x => negb (f x)) l)
  = length l.
Proof.
  induction l as [|x l IH]; [done|]. simpl.
  destruct (f x); simpl; lia.
Qed.

Lemma filter_length_le {A : Type} (f : A -> bool) (l : list A) :
  length (List.filter f l) <= length l.
Proof.
  induction l as [|x l IH]; [done|]. simpl.
  destruct (f x); simpl; lia.
Qed.

Lemma unique_length_le (l : list cell) : length (unique l) <= length l.
Proof.
  induction l as [|c l IH]; [done|]. simpl.
  pose proof (filter_length_le (fun d => negb (cell_eqb c d)) (unique l)).
  lia.
Qed.

(** For an analysed instance whose column has one cell per row of its sheet,
    the record counts at most as many missing values as there are rows,
    counts at most as many distinct values as there are values present, and
    gives a null percentage from 0 to 100. *)
Theorem quality_record_bounds dataframes (i : Instance) :
  i ∈ instances dataframes ->
  length (values (raw i)) = nrows (frame i) ->
  DataQuality.null_count (quality_of i) + length (dropna (raw i))
  = nrows (frame i)
  /\ DataQuality.unique_count (quality_of i)
     <= nrows (frame i) - DataQuality.null_count (quality_of i)
  /\ exists pct,
       DataQuality.null_percentage (quality_of i) = Some pct
       /\ (0 <= pct)%Q /\ (pct <= 100)%Q.
Proof.
  intros Hin Hcells. apply instance_rows in Hin.
  unfold quality_of, data_quality_of. simpl.
  assert (Hsplit : null_count_of (raw i) + length (dropna (raw i))
                   = nrows (frame i)).
  { unfold null_count_of, dropna. rewrite <- Hcells.
    apply filter_split_length. }
  split; [done|]. split.
  { unfold nunique. pose proof (unique_length_le (dropna (raw i))). lia. }
  apply Nat.eqb_neq in Hin as Hrows. rewrite Hrows.
  eexists. split; [reflexivity|].
  assert (Hn : (0 < Qnat (nrows (frame i)))%Q).
  { unfold Qnat, Qlt. simpl. lia. }
  assert (Hk : (0 <= Qnat (null_count_of (raw i)))%Q).
  { unfold Qnat, Qle. simpl. lia. }
  assert (Hle : (Qnat (null_count_of (raw i)) <= Qnat (nrows (frame i)))%Q).
  { unfold Qnat, Qle. simpl. lia. }
  split.
  - apply Qmult_le_0_compat; [|done].
    apply Qle_shift_div_l; [done|]. by rewrite Qmult_0_l.
  - apply Qle_trans with (1 * 100)%Q; [|done].
    apply Qmult_le_compat_r; [|done].
    apply Qle_shift_div_r; [done|]. by rewrite Qmult_1_l.
Qed.

(** The theorem at the department column of the January sheet: one of its
    two cells is missing. *)
Lemma quality_record_bounds_witness :
  let i := {| source_name := "hr.xlsx"; sheet_name := "Jan";
              frame := jan_sheet; column_name := "Dept"; raw := jan_dept |} in
  i ∈ instances two_sheet_input
  /\ length (values (raw i)) = nrows (frame i)
  /\ DataQuality.null_count (quality_of i) + length (dropna (raw i)) = 2.
Proof.
  intros i.
  assert (Hin : i ∈ instances two_sheet_input).
  { vm_compute. right. left. }
  split; [exact Hin|]. split; [reflexivity|].
  exact (proj1 (quality_record_bounds two_sheet_input i Hin eq_refl)).
Defined.

(** ** The cleaning of a sheet *)

Lemma keep_rows_fmap {A B : Type} (f : A -> B) (mask : list bool) (l : list A) :
  keep_rows mask (f <$> l) = f <$> keep_rows mask l.
Proof.
  revert l. induction mask as [|b mask IH]; intros [|x l]; try done.
  rewrite fmap_cons. cbn [keep_rows]. destruct b.
  - rewrite fmap_cons. f_equal. apply IH.
  - apply IH.
Qed.

Lemma values_keep_rows (mask : list bool) (series : Series) :
  values (series_keep_rows mask series) = keep_rows mask (values series).
Proof. destruct series; simpl; by rewrite ?keep_rows_fmap. Qed.

Lemma dtype_keep_rows (mask : list bool) (series : Series) :
  dtype_of (series_keep_rows mask series) = dtype_of series.
Proof. by destruct series. Qed.

Lemma keep_rows_length {A : Type} (mask : list bool) (l : list A) :
  length l = length mask ->
  length (keep_rows mask l) = length (List.filter id mask).
Proof.
  revert l. induction mask as [|b mask IH]; intros [|x l] Hlen; try done.
  injection Hlen as Hlen. cbn [keep_rows List.filter id].
  destruct b; simpl; by rewrite IH.
Qed.

(** Rows kept by a mask that keeps every row with a value lose no value. *)
Lemma keep_rows_present (mask : list bool) (l : list cell) :
  length l = length mask ->
  (forall row, row < length l ->
     isnull (nth row l NaN) = false -> nth row mask false = true) ->
  List.filter (fun c => negb (isnull c)) (keep_rows mask l)
  = List.filter (fun c => negb (isnull c)) l.
Proof.
  revert l. induction mask as [|b mask IH]; intros [|x l] Hlen Hkeep; try done.
  injection Hlen as Hlen. cbn [keep_rows].
  assert (Hrest : List.filter (fun c => negb (isnull c)) (keep_rows mask l)
                  = List.filter (fun c => negb (isnull c)) l).
  { apply IH; [done|]. intros row Hrow Hpresent.
    apply (Hkeep (S row)); [simpl; lia|done]. }
  destruct b.
  - cbn [List.filter]. by rewrite Hrest.
  - cbn [List.filter]. destruct (isnull x) eqn:Hx; simpl; [done|].
    exfalso. specialize (Hkeep 0). simpl in Hkeep.
    assert (false = true) by (apply Hkeep; [lia|done]). done.
Qed.

Lemma kept_position_spec {A : Type} (mask : list bool) (l : list A)
    (row : nat) (d : A) :
  length l = length mask ->
  row < length (List.filter id mask) ->
  kept_position mask row < length mask
  /\ nth (kept_position mask row) mask false = true
  /\ nth row (keep_rows mask l) d = nth (kept_position mask row) l d.
Proof.
  revert l row. induction mask as [|b mask IH]; intros [|x l] row Hlen Hrow;
    try done; try (simpl in Hrow; lia).
  injection Hlen as Hlen. destruct b; cbn [List.filter id] in Hrow.
  - destruct row as [|row]; cbn [kept_position keep_rows].
    + simpl. split; [lia|done].
    + destruct (IH l row Hlen) as (Hpos & Htrue & Hnth).
      { simpl in Hrow. lia. }
      simpl. split; [lia|done].
  - destruct (IH l row Hlen Hrow) as (Hpos & Htrue & Hnth).
    cbn [kept_position keep_rows]. simpl. split; [lia|done].
Qed.

Lemma filter_fmap_comm {A B : Type} (p : B -> bool) (f : A -> B) (l : list A) :
  List.filter p (f <$> l) = f <$> List.filter (fun x => p (f x)) l.
Proof.
  induction l as [|x l IH]; [done|]. rewrite fmap_cons. simpl.
  destruct (p (f x)); [rewrite fmap_cons|]; by rewrite IH.
Qed.

Lemma present_cell_in (l : list cell) (row : nat) :
  isnull (nth row l NaN) = false ->
  row < length l /\ nth row l NaN ∈ List.filter (fun c => negb (isnull c)) l.
Proof.
  intros Hpresent.
  assert (Hrow : row < length l).
  { destruct (decide (row < length l)) as [|Hge]; [done|].
    rewrite nth_overflow in Hpresent by lia. done. }
  split; [done|]. apply list_elem_of_In, filter_In. split.
  - by apply nth_In.
  - by rewrite Hpresent.
Qed.

Section Cleaning.
Variable df : DataFrame.
Hypothesis df_well_formed : well_formed df.

Let named : list (string * Series) :=
  (fun column => (PyStr.strip column.1, column.2)) <$> df_columns df.

Let mask : list bool :=
  (fun i => existsb (fun column => negb (isnull (nth i (values column.2) NaN)))
                    named) <$> seq 0 (nrows df).

Lemma mask_length : length mask = nrows df.
Proof. unfold mask. by rewrite length_fmap, length_seq. Qed.

Lemma named_cells column :
  column ∈ named -> length (values column.2) = length mask.
Proof.
  unfold named. intros Hin.
  apply list_elem_of_fmap in Hin as (original & -> & Hin). simpl.
  rewrite mask_length.
  by apply (proj1 (Forall_forall _ _) df_well_formed original).
Qed.

Lemma mask_at (row : nat) :
  row < nrows df ->
  nth row mask false
  = existsb (fun column => negb (isnull (nth row (values column.2) NaN))) named.
Proof.
  intros Hrow. unfold mask.
  rewrite (nth_indep _ false
             (existsb (fun column => negb (isnull (nth 0 (values column.2) NaN)))
                      named))
    by (by rewrite length_fmap, length_seq).
  change (existsb (fun column => negb (isnull (nth 0 (values column.2) NaN))) named)
    with ((fun i => existsb (fun column =>
                               negb (isnull (nth i (values column.2) NaN)))
                            named) 0).
  rewrite map_nth. by rewrite seq_nth.
Qed.

Lemma mask_keeps_present column (row : nat) :
  column ∈ named -> row < length (values column.2) ->
  isnull (nth row (values column.2) NaN) = false ->
  nth row mask false = true.
Proof.
  intros Hin Hrow Hpresent.
  rewrite (named_cells _ Hin), mask_length in Hrow.
  rewrite mask_at by done. apply existsb_exists.
  exists column. split; [by apply list_elem_of_In|].
  by rewrite Hpresent.
Qed.

Lemma kept_column_values column :
  column ∈ named ->
  dropna (series_keep_rows mask column.2) = dropna column.2.
Proof.
  intros Hin. unfold dropna. rewrite values_keep_rows.
  apply keep_rows_present; [by apply named_cells|].
  intros row Hrow Hpresent. by apply (mask_keeps_present column).
Qed.

Lemma clean_sheet_columns :
  df_columns (clean_sheet df)
  = (fun column => (column.1, series_keep_rows mask column.2))
      <$> List.filter (fun column => 0 <? length (dropna column.2)) named.
Proof.
  unfold clean_sheet, dropna_columns, dropna_rows. cbn [df_columns nrows].
  fold named. fold mask.
  rewrite filter_fmap_comm. f_equal.
  apply filter_ext_in. intros column Hin. cbn [snd].
  by rewrite kept_column_values by by apply list_elem_of_In.
Qed.

Lemma clean_sheet_rows : nrows (clean_sheet df) = length (List.filter id mask).
Proof. done. Qed.

End Cleaning.

(** The cleaning of a sheet in [upload_excel] loses no value and leaves no
    empty row or column.  For a sheet with one cell per row in every column:
    the cleaned sheet has the columns that hold a value, in order, under
    their trimmed names, each with its dtype and its present values
    unchanged; every column again has one cell per row; and every row and
    every column holds a value. *)
Theorem clean_sheet_keeps_values (df : DataFrame) :
  well_formed df ->
  column_content <$> df_columns (clean_sheet df)
  = (fun column => (PyStr.strip column.1, dtype_of column.2, dropna column.2))
      <$> List.filter (fun column => 0 <? length (dropna column.2))
                      (df_columns df)
  /\ well_formed (clean_sheet df)
  /\ (forall column, column ∈ df_columns (clean_sheet df) ->
        dropna column.2 <> [])
  /\ (forall row, row < nrows (clean_sheet df) ->
        exists column, column ∈ df_columns (clean_sheet df)
                       /\ isnull (cell_at column.2 row) = false).
Proof.
  intros Hwf.
  pose proof (clean_sheet_columns df Hwf) as Hcols. cbv zeta in Hcols.
  set (named := (fun column => (PyStr.strip column.1, column.2))
                  <$> df_columns df) in *.
  set (mask := (fun i => existsb
                           (fun column =>
                              negb (isnull (nth i (values column.2) NaN)))
                           named) <$> seq 0 (nrows df)) in *.
  assert (Hkept : forall column,
             column ∈ List.filter (fun column => 0 <? length (dropna column.2))
                                  named ->
             column ∈ named /\ dropna column.2 <> []).
  { intros column Hin. apply list_elem_of_In, filter_In in Hin as [Hin Hlen].
    split; [by apply list_elem_of_In|].
    intros Hnil. by rewrite Hnil in Hlen. }
  split; [|split; [|split]].
  - rewrite Hcols, <- list_fmap_compose.
    unfold named at 1. rewrite filter_fmap_comm, <- list_fmap_compose.
    fold named. cbn [snd].
    apply list_fmap_ext. intros i column Hin. unfold column_content. simpl.
    assert (Hnamed : (PyStr.strip column.1, column.2) ∈ named).
    { unfold named. apply list_elem_of_fmap. exists column. split; [done|].
      apply list_elem_of_lookup_2 in Hin.
      apply list_elem_of_In, filter_In in Hin as [Hin _].
      by apply list_elem_of_In. }
    rewrite dtype_keep_rows. f_equal.
    apply (kept_column_values df Hwf (PyStr.strip column.1, column.2) Hnamed).
  - unfold well_formed. rewrite Hcols. apply Forall_fmap, Forall_forall.
    intros column Hin. apply Hkept in Hin as [Hin _]. simpl.
    rewrite values_keep_rows.
    apply (keep_rows_length mask). by apply (named_cells df Hwf).
  - intros column Hin. rewrite Hcols in Hin.
    apply list_elem_of_fmap in Hin as (original & -> & Hin).
    apply Hkept in Hin as [Hin Hvalue]. simpl.
    intros Hnil. apply Hvalue. rewrite <- Hnil. symmetry.
    apply (kept_column_values df Hwf original Hin).
  - intros row Hrow. rewrite (clean_sheet_rows df) in Hrow.
    fold named in Hrow. fold mask in Hrow.
    assert (Hmask : length mask = nrows df) by apply (mask_length df).
    destruct (kept_position_spec mask mask row false eq_refl Hrow)
      as (Hpos & Htrue & _).
    rewrite (mask_at df) in Htrue by lia.
    apply existsb_exists in Htrue as (original & Hin & Hpresent).
    apply negb_true_iff in Hpresent. apply list_elem_of_In in Hin.
    exists (original.1, series_keep_rows mask original.2).
    assert (Hcell : cell_at (series_keep_rows mask original.2) row
                    = nth (kept_position mask row) (values original.2) NaN).
    { unfold cell_at. rewrite values_keep_rows.
      apply kept_position_spec; [|done]. by apply (named_cells df Hwf). }
    split; [|simpl; by rewrite Hcell].
    rewrite Hcols. apply list_elem_of_fmap. exists original. split; [done|].
    apply list_elem_of_In, filter_In. split; [by apply list_elem_of_In|].
    apply present_cell_in in Hpresent as [_ Hvalue].
    apply Nat.ltb_lt. unfold dropna.
    destruct (List.filter _ (values original.2)); [|simpl; lia].
    by apply elem_of_nil in Hvalue.
Qed.

(** The theorem at a sheet with a blank row and a blank column. *)
Lemma clean_sheet_keeps_values_witness :
  well_formed ragged_sheet
  /\ column_content <$> df_columns (clean_sheet ragged_sheet)
     = [("Name", object, [Str "Ann"; Str "Bob"]);
        ("Age", float64, [Float 31; Float 45])]
  /\ nrows (clean_sheet ragged_sheet) = 2.
Proof.
  assert (Hwf : well_formed ragged_sheet) by (repeat constructor).
  split; [exact Hwf|]. split; [|reflexivity].
  rewrite (proj1 (clean_sheet_keeps_values ragged_sheet Hwf)).
  reflexivity.
Defined.

Lemma omap_present {B : Type} (f : cell -> option B) (l : list cell) :
  f NaN = None ->
  omap f (List.filter (fun c => negb (isnull c)) l) = omap f l.
Proof.
  intros Hnan. induction l as [|c l IH]; [done|]. simpl.
  destruct c; simpl; [by rewrite Hnan|..];
    (case_match; [f_equal|]; exact IH).
Qed.

(** Missing cells have no part in the classification or in any aggregate:
    two columns of one dtype with the same present values, in order, get the
    same type under a name and give the same numeric values, the same value
    counts and the same timestamps. *)
Theorem missing_cells_do_not_matter rt (series series' : Series)
    (name : string) :
  dtype_of series = dtype_of series' ->
  dropna series = dropna series' ->
  detect_column_type rt series name = detect_column_type rt series' name
  /\ to_numeric_coerce series = to_numeric_coerce series'
  /\ value_counts series = value_counts series'
  /\ to_datetime_coerce rt series = to_datetime_coerce rt series'.
Proof.
  intros Hdtype Hclean. split; [|split; [|split]].
  - unfold detect_column_type, is_numeric_dtype, is_integer_dtype.
    by rewrite Hdtype, Hclean.
  - unfold to_numeric_coerce.
    rewrite <- (omap_present number_of (values series)) by done.
    rewrite <- (omap_present number_of (values series')) by done.
    unfold dropna in Hclean. by rewrite Hclean.
  - unfold value_counts. by rewrite Hclean.
  - unfold to_datetime_coerce. rewrite Hclean.
    rewrite <- (omap_present _ (values series)) by done.
    rewrite <- (omap_present _ (values series')) by done.
    unfold dropna in Hclean. by rewrite Hclean.
Qed.

(** The theorem at a column with a missing cell and the column without it. *)
Lemma missing_cells_do_not_matter_witness :
  dtype_of (SFloat [Some 1%Q; None; Some 3%Q]) = dtype_of (SFloat [Some 1%Q; Some 3%Q])
  /\ dropna (SFloat [Some 1%Q; None; Some 3%Q]) = dropna (SFloat [Some 1%Q; Some 3%Q])
  /\ detect_column_type plain_runtime (SFloat [Some 1%Q; None; Some 3%Q]) "Pay"
     = detect_column_type plain_runtime (SFloat [Some 1%Q; Some 3%Q]) "Pay".
Proof.
  split; [reflexivity|]. split; [reflexivity|].
  exact (proj1 (missing_cells_do_not_matter plain_runtime
                  (SFloat [Some 1%Q; None; Some 3%Q])
                  (SFloat [Some 1%Q; Some 3%Q]) "Pay" eq_refl eq_refl)).
Defined.

(** ** What the upload handler hands to the engine *)

Lemma dict_set_to_map {V : Type} k (v : V) (d : list (string * V)) :
  (list_to_map (dict_set k v d) : gmap string V) = <[k := v]> (list_to_map d).
Proof.
  induction d as [|[k' v'] d IH]; [done|]. simpl.
  destruct (decide (k = k')) as [<-|Hne]; simpl.
  - by rewrite insert_insert_eq.
  - rewrite IH. by apply insert_insert_ne.
Qed.

Lemma dict_set_keys {V : Type} k (v : V) (d : list (string * V)) k' :
  k' ∈ (dict_set k v d).*1 <-> k' = k \/ k' ∈ d.*1.
Proof.
  induction d as [|[k0 v0] d IH]; simpl.
  - rewrite list_elem_of_singleton. split; [by left|]. intros [H|H]; [done|].
    by apply elem_of_nil in H.
  - destruct (decide (k = k0)) as [<-|Hne]; simpl; rewrite !elem_of_cons.
    + tauto.
    + rewrite IH. tauto.
Qed.

Lemma dict_set_NoDup {V : Type} k (v : V) (d : list (string * V)) :
  NoDup d.*1 -> NoDup (dict_set k v d).*1.
Proof.
  induction d as [|[k0 v0] d IH]; simpl; intros Hd.
  - apply NoDup_singleton.
  - apply NoDup_cons in Hd as [Hfresh Hd].
    destruct (decide (k = k0)) as [<-|Hne]; simpl.
    + by apply NoDup_cons.
    + apply NoDup_cons. split; [|by apply IH].
      rewrite dict_set_keys. intros [Heq|Hin]; [by subst|done].
Qed.

Lemma read_sheets_NoDup wb : NoDup (read_sheets wb).*1.
Proof.
  unfold read_sheets.
  assert (Hloop : forall acc : list (string * DataFrame),
             NoDup acc.*1 ->
             NoDup (foldl (fun sheets entry =>
                             match entry.2 with
                             | None => sheets
                             | Some raw =>
                                 let df := clean_sheet raw in
                                 if negb (df_empty df) && (0 <? nrows df)
                                 then dict_set entry.1 df sheets
                                 else sheets
                             end) acc wb).*1).
  { induction wb as [|[name [raw|]] wb IH]; intros acc Hacc; simpl;
      [done| |by apply IH].
    apply IH. destruct (_ && _); [|done]. by apply dict_set_NoDup. }
  apply Hloop. apply NoDup_nil_2.
Qed.

Lemma usable_sheets_NoDup file : NoDup (usable_sheets file).*1.
Proof.
  unfold usable_sheets. destruct (_ || _); [apply NoDup_nil_2|].
  destruct (workbook file); [apply read_sheets_NoDup|apply NoDup_nil_2].
Qed.

(** One round of the loop over the uploaded files. *)
Lemma read_files_cons file files dataframes uploaded_files result :
  read_files (file :: files) dataframes uploaded_files = inr result ->
  read_files files
    (if accepted file
     then dict_set (fs_filename file) (usable_sheets file) dataframes
     else dataframes)
    (if accepted file then uploaded_files ++ [fs_filename file]
     else uploaded_files)
  = inr result.
Proof.
  unfold accepted, usable_sheets. simpl.
  destruct (bool_decide (fs_filename file = "")); [done|].
  destruct (allowed_name (fs_filename file)); [|done]. simpl.
  destruct (workbook file) as [wb|]; [|done].
  by destruct (0 <? length (read_sheets wb)).
Qed.

Lemma uploads_of_cons name file files :
  last (uploads_of name (file :: files))
  = match last (uploads_of name files) with
    | Some file' => Some file'
    | None => if accepted file && bool_decide (fs_filename file = name)
              then Some file else None
    end.
Proof.
  unfold uploads_of. simpl.
  destruct (accepted file && bool_decide (fs_filename file = name)); [|
    by destruct (last _)].
  by rewrite last_cons.
Qed.

Lemma read_files_spec files dataframes uploaded_files dataframes' uploaded_files' :
  read_files files dataframes uploaded_files = inr (dataframes', uploaded_files') ->
  uploaded_files'
  = uploaded_files ++ (fs_filename <$> List.filter accepted files)
  /\ (NoDup dataframes.*1 -> NoDup dataframes'.*1)
  /\ (Forall (fun item => NoDup item.2.*1) dataframes ->
      Forall (fun item => NoDup item.2.*1) dataframes')
  /\ (forall name,
        (list_to_map dataframes' : gmap string _) !! name
        = match last (uploads_of name files) with
          | Some file => Some (usable_sheets file)
          | None => (list_to_map dataframes : gmap string _) !! name
          end).
Proof.
  revert dataframes uploaded_files.
  induction files as [|file files IH]; intros dataframes uploaded_files Hread.
  { injection Hread as <- <-. by rewrite app_nil_r. }
  apply read_files_cons in Hread. apply IH in Hread
    as (Hnames & Hnodup & Hsheets & Hlookup).
  split; [|split; [|split]].
  - rewrite Hnames. simpl. destruct (accepted file); [|done].
    by rewrite <- app_assoc.
  - intros Hd. apply Hnodup. destruct (accepted file); [|done].
    by apply dict_set_NoDup.
  - intros Hd. apply Hsheets. destruct (accepted file); [|done].
    apply dict_set_Forall; [done|]. apply usable_sheets_NoDup.
  - intros name. rewrite Hlookup, uploads_of_cons.
    destruct (last (uploads_of name files)); [done|].
    destruct (accepted file); simpl; [|done].
    rewrite dict_set_to_map. case_bool_decide as Hname.
    + subst name. by rewrite lookup_insert_eq.
    + by rewrite lookup_insert_ne.
Qed.

Lemma last_filter_is_Some {A : Type} (p : A -> bool) (l : list A) :
  is_Some (last (List.filter p l)) <-> exists x, x ∈ l /\ p x = true.
Proof.
  rewrite last_is_Some. split.
  - intros Hne. destruct (List.filter p l) as [|x l'] eqn:Hl; [done|].
    exists x. rewrite list_elem_of_In. apply (filter_In p).
    rewrite Hl. by left.
  - intros (x & Hin & Hp) Hnil.
    assert (Hx : In x (List.filter p l)).
    { apply filter_In. by rewrite <- list_elem_of_In. }
    by rewrite Hnil in Hx.
Qed.

Lemma read_files_keys (files : list FileStorage) dataframes uploaded_files :
  read_files files [] [] = inr (dataframes, uploaded_files) ->
  forall name, name ∈ dataframes.*1 <-> name ∈ uploaded_files.
Proof.
  intros Hread name.
  destruct (read_files_spec _ _ _ _ _ Hread) as (Hnames & _ & _ & Hlookup).
  simpl in Hnames. rewrite Hnames.
  destruct (decide (name ∈ dataframes.*1)) as [Hin|Hout].
  - split; [intros _|done].
    assert (Hsome : is_Some (last (uploads_of name files))).
    { destruct (last (uploads_of name files)) eqn:Hlast; [by eexists|].
      specialize (Hlookup name). rewrite Hlast in Hlookup.
      change ((list_to_map dataframes : gmap string _) !! name = None)
        in Hlookup.
      by apply not_elem_of_list_to_map in Hlookup. }
    apply last_filter_is_Some in Hsome as (file & Hfile & Hp).
    apply andb_true_iff in Hp as [Hacc Hname].
    apply bool_decide_eq_true in Hname as <-.
    apply list_elem_of_fmap. exists file. split; [done|].
    rewrite list_elem_of_In. apply filter_In.
    by rewrite <- list_elem_of_In.
  - split; [done|]. intros Hin. exfalso. apply Hout.
    apply list_elem_of_fmap in Hin as (file & -> & Hfile).
    rewrite list_elem_of_In in Hfile. apply filter_In in Hfile as [Hfile Hacc].
    rewrite <- list_elem_of_In in Hfile.
    assert (Hsome : is_Some (last (uploads_of (fs_filename file) files))).
    { apply last_filter_is_Some. exists file. split; [done|].
      rewrite Hacc. by apply bool_decide_eq_true. }
    destruct Hsome as [file' Hlast].
    specialize (Hlookup (fs_filename file)). rewrite Hlast in Hlookup.
    destruct (decide (fs_filename file ∈ dataframes.*1)) as [|Hno]; [done|].
    apply not_elem_of_list_to_map in Hno.
    rewrite Hno in Hlookup. done.
Qed.



(** After an upload that is answered with the analysis, the engine has
    received a dict: no file name twice, no sheet name twice within a file,
    and under a file name the sheets of the last accepted upload of that
    name.  The list of files in the answer has one entry for each accepted
    upload. *)
Theorem upload_keeps_last_file_of_a_name (files : list FileStorage)
    dataframes uploaded_files :
  read_files files [] [] = inr (dataframes, uploaded_files) ->
  uploaded_files = fs_filename <$> List.filter accepted files
  /\ NoDup dataframes.*1
  /\ Forall (fun item => NoDup item.2.*1) dataframes
  /\ (forall name,
        (list_to_map dataframes : gmap string _) !! name
        = usable_sheets <$> last (uploads_of name files))
  /\ length dataframes <= length uploaded_files.
Proof.
  intros Hread.
  destruct (read_files_spec _ _ _ _ _ Hread)
    as (Hnames & Hnodup & Hsheets & Hlookup).
  simpl in Hnames.
  split; [done|]. split; [apply Hnodup, NoDup_nil_2|].
  split; [by apply Hsheets|]. split.
  - intros name. rewrite Hlookup. by destruct (last _).
  - rewrite <- (length_fmap fst dataframes).
    apply submseteq_length, NoDup_submseteq; [apply Hnodup, NoDup_nil_2|].
    intros name Hin. by apply (read_files_keys files dataframes).
Qed.

(** The theorem at an upload with a file name used twice: both uploads are
    listed, the engine receives the second one alone. *)
Lemma upload_keeps_last_file_of_a_name_witness :
  exists dataframes,
    read_files repeated_upload [] []
    = inr (dataframes, ["staff.xlsx"; "staff.xlsx"])
    /\ length dataframes = 1
    /\ NoDup dataframes.*1
    /\ (list_to_map dataframes : gmap string _) !! "staff.xlsx"
       = Some [("Sheet1", {| nrows := 1;
                             df_columns := [("Name", SObject [Str "Dan"])] |})].
Proof.
  eexists. split; [reflexivity|]. split; [reflexivity|].
  destruct (upload_keeps_last_file_of_a_name repeated_upload _ _ eq_refl)
    as (_ & Hnodup & _ & Hlookup & _).
  split; [exact Hnodup|]. rewrite Hlookup. reflexivity.
Defined.






(** Labels that are equal once stripped: the upload is answered with status
    500. *)
Example collided_upload_response :
  upload_excel plain_runtime (Some collided_upload)
  = Error 500 "Upload failed: ".
Proof. by vm_compute. Qed.

(** ** The report *)

Lemma images_app story story' :
  images (story ++ story') = images story ++ images story'.
Proof. apply omap_app. Qed.

Lemma counted_fold {A : Type} (block : nat -> A -> list Flowable)
    (kept : A -> bool) (l : list A) (n : nat) (story : list Flowable) :
  foldl (fun acc entry =>
           if kept entry then (S acc.1, acc.2 ++ block (S acc.1) entry)
           else acc) (n, story) l
  = (n + length (List.filter kept l),
     story ++ mjoin (imap (fun i entry => block (n + S i) entry)
                          (List.filter kept l))).
Proof.
  revert n story. induction l as [|entry l IH]; intros n story; simpl.
  { by rewrite Nat.add_0_r, app_nil_r. }
  destruct (kept entry); simpl; [|apply IH].
  rewrite IH. f_equal; [lia|].
  rewrite <- app_assoc. f_equal. rewrite Nat.add_1_r. f_equal. f_equal.
  apply imap_ext. intros i x _. simpl. f_equal. lia.
Qed.

Lemma images_blocks {A : Type} (block : nat -> A -> list Flowable)
    (chart : nat -> A -> Chart) (l : list A) :
  (forall i entry, images (block i entry) = [chart i entry]) ->
  images (mjoin (imap block l)) = imap chart l.
Proof.
  intros Hblock. revert block chart Hblock.
  induction l as [|entry l IH]; intros block chart Hblock; [done|].
  simpl. rewrite images_app, Hblock. simpl. f_equal.
  apply IH. intros i x. apply Hblock.
Qed.

Lemma images_front_matter analysis report_title company_name :
  images (front_matter analysis report_title company_name) = [].
Proof.
  unfold front_matter. rewrite !images_app. simpl.
  generalize (ReportData.insights analysis). intros l.
  assert (Hlines : forall (f : nat -> nat),
             images (imap (fun i insight =>
                             Paragraph (NumberedInsight (f i) insight)
                               normal_style) l) = []).
  { induction l as [|x l IH]; intros f; [done|]. simpl.
    apply (IH (f ∘ S)). }
  by rewrite (Hlines S).
Qed.

Lemma categorical_section_eq n story categorical_data :
  categorical_section (n, story) categorical_data
  = (n + length (charted 6 categorical_data),
     story
     ++ match categorical_data with
        | [] => []
        | _ :: _ => [Paragraph (Literal "📊 Categorical Data Analysis")
                       heading_style]
        end
     ++ mjoin (imap (fun i entry => categorical_block (n + S i) entry)
                    (charted 6 categorical_data))).
Proof.
  unfold categorical_section, charted.
  destruct categorical_data as [|entry l].
  { simpl. by rewrite Nat.add_0_r, app_nil_r. }
  unfold categorical_step.
  rewrite (counted_fold categorical_block
             (fun entry => 1 <? length entry.2)).
  by rewrite <- app_assoc.
Qed.

Lemma numeric_section_eq n story numeric_data :
  numeric_section (n, story) numeric_data
  = (n + length (charted 5 numeric_data),
     story
     ++ match numeric_data with
        | [] => []
        | _ :: _ => [PageBreak;
                     Paragraph (Literal "📈 Numeric Data Analysis")
                       heading_style]
        end
     ++ mjoin (imap (fun i entry => numeric_block (n + S i) entry)
                    (charted 5 numeric_data))).
Proof.
  unfold numeric_section, charted.
  destruct numeric_data as [|entry l].
  { simpl. by rewrite Nat.add_0_r, app_nil_r. }
  unfold numeric_step.
  rewrite (counted_fold numeric_block (fun entry => 1 <? length entry.2)).
  by rewrite <- app_assoc.
Qed.

Lemma temporal_fold_raised e l : foldl temporal_step (inl e) l = inl e.
Proof. induction l as [|entry l IH]; [done|]. apply IH. Qed.

Lemma temporal_fold n story l :
  foldl temporal_step (inr (n, story)) l
  = if existsb (fun entry => 1 <? length entry.2) l
    then inl AttributeError else inr (n, story).
Proof.
  induction l as [|[col_name dates] l IH]; [done|]. simpl.
  destruct dates as [|x [|y dates]]; simpl; [apply IH|apply IH|].
  apply temporal_fold_raised.
Qed.

Lemma date_section_eq n story date_data :
  date_section (n, story) date_data
  = if existsb (fun entry => 1 <? length entry.2) (take 3 date_data)
    then inl AttributeError
    else inr (n,
              story
              ++ match date_data with
                 | [] => []
                 | _ :: _ => [PageBreak;
                              Paragraph (Literal "📅 Temporal Data Analysis")
                                heading_style]
                 end).
Proof.
  unfold date_section. destruct date_data as [|entry l].
  { simpl. by rewrite app_nil_r. }
  apply temporal_fold.
Qed.

(** The charts of a report that is built. *)
Lemma report_images analysis report_title company_name story :
  generate_pdf_report analysis report_title company_name = inr story ->
  images story
  = imap (fun i entry => categorical_chart (S i) entry.1 entry.2)
         (charted 6 (ReportData.categorical analysis))
    ++ imap (fun i entry =>
               numeric_chart
                 (length (charted 6 (ReportData.categorical analysis)) + S i)
                 entry.1 entry.2)
            (charted 5 (ReportData.numeric analysis)).
Proof.
  unfold generate_pdf_report.
  rewrite categorical_section_eq, numeric_section_eq, date_section_eq.
  destruct (existsb _ _); [done|]. intros Hstory.
  apply (f_equal (fun result =>
                    match result with
                    | inr story => images story
                    | inl _ => []
                    end)) in Hstory.
  cbv beta iota in Hstory. rewrite <- Hstory. clear Hstory.
  rewrite !images_app, images_front_matter.
  rewrite (images_blocks _ (fun i entry =>
                              categorical_chart (0 + S i) entry.1 entry.2))
    by done.
  rewrite (images_blocks _ (fun i entry =>
             numeric_chart
               (0 + length (charted 6 (ReportData.categorical analysis)) + S i)
               entry.1 entry.2)) by done.
  assert (Hheads : forall (A : Type) (l : list A) (h : list Flowable),
             (forall f, f ∈ h -> forall chart, f <> Image chart) ->
             images match l with [] => [] | _ :: _ => h end = []).
  { intros A l h Hh. destruct l; [done|].
    induction h as [|f h IH]; [done|]. simpl.
    destruct f; try (apply IH; intros; apply Hh; by right).
    exfalso. eapply Hh; [by left|done]. }
  rewrite !Hheads;
    try (intros f Hf chart;
         repeat (apply elem_of_cons in Hf as [->|Hf]; [done|]);
         by apply elem_of_nil in Hf).
  by rewrite app_nil_r.
Qed.

Lemma insert_by_count_perm x l : insert_by_count x l ≡ₚ x :: l.
Proof.
  induction l as [|y l IH]; [done|]. simpl.
  destruct (x.2 <? y.2); [|done].
  rewrite IH. apply Permutation_swap.
Qed.

Lemma sorted_by_count_perm items : sorted_by_count items ≡ₚ items.
Proof.
  induction items as [|x items IH]; [done|]. simpl.
  by rewrite insert_by_count_perm, IH.
Qed.

Lemma insert_by_count_descending x l :
  descending l -> descending (insert_by_count x l).
Proof.
  induction l as [|y l IH]; intros Hl; simpl.
  { by split. }
  destruct Hl as [Hy Hl]. destruct (x.2 <? y.2) eqn:Hlt.
  - apply Nat.ltb_lt in Hlt. split; [|by apply IH].
    rewrite insert_by_count_perm. apply Forall_cons. split; [lia|done].
  - apply Nat.ltb_ge in Hlt. split; [|by split].
    apply Forall_cons. split; [done|].
    eapply Forall_impl; [exact Hy|]. simpl. intros z Hz. lia.
Qed.

Lemma sorted_by_count_descending items : descending (sorted_by_count items).
Proof.
  induction items as [|x items IH]; [done|]. simpl.
  by apply insert_by_count_descending.
Qed.

Lemma descending_app shown hidden :
  descending (shown ++ hidden) ->
  descending shown
  /\ (forall s h, s ∈ shown -> h ∈ hidden -> h.2 <= s.2).
Proof.
  induction shown as [|x shown IH]; simpl.
  { intros _. split; [done|]. intros s h Hs. by apply elem_of_nil in Hs. }
  intros [Hx Hrest]. apply Forall_app in Hx as [Hshown Hhidden].
  destruct (IH Hrest) as [Hdesc Hcross]. split; [by split|].
  intros s h Hs Hh. apply elem_of_cons in Hs as [->|Hs].
  - rewrite Forall_forall in Hhidden. by apply Hhidden.
  - by apply Hcross.
Qed.

(** Items of one count keep their order: the sort is stable. *)
Lemma sorted_by_count_stable (count : nat) items :
  List.filter (fun item => item.2 =? count) (sorted_by_count items)
  = List.filter (fun item => item.2 =? count) items.
Proof.
  induction items as [|x items IH]; [done|]. simpl. rewrite <- IH.
  generalize (sorted_by_count items). intros l.
  induction l as [|y l IHl]; [done|]. simpl.
  destruct (x.2 <? y.2) eqn:Hlt; [|done].
  apply Nat.ltb_lt in Hlt. simpl. rewrite IHl.
  destruct (x.2 =? count) eqn:Hx; [|done].
  apply Nat.eqb_eq in Hx.
  destruct (y.2 =? count) eqn:Hy; [|done].
  apply Nat.eqb_eq in Hy. lia.
Qed.

Lemma of_Z_inj (a b : Z) : PyStr.of_Z a = PyStr.of_Z b -> a = b.
Proof.
  unfold PyStr.of_Z. intros Heq.
  assert (Hnorm : forall z, NilZero.int_of_string
                              (NilZero.string_of_int (Z.to_int z))
                            = Some (Z.to_int z)).
  { intros z. apply NilZero.isi.
    - intros Hz. pose proof (DecimalZ.to_of (Z.to_int z)) as Hn.
      rewrite DecimalZ.of_to, Hz in Hn. discriminate Hn.
    - intros Hz. pose proof (DecimalZ.to_of (Z.to_int z)) as Hn.
      rewrite DecimalZ.of_to, Hz in Hn. discriminate Hn. }
  pose proof (Hnorm a) as Ha. rewrite Heq, Hnorm in Ha.
  injection Ha as Ha. symmetry. by apply DecimalZ.to_int_inj.
Qed.

Lemma length_append (s t : string) :
  String.length (s +:+ t) = String.length s + String.length t.
Proof. induction s as [|a s IH]; [done|]. simpl. by rewrite IH. Qed.

Lemma append_inj_r (t a b : string) : a +:+ t = b +:+ t -> a = b.
Proof.
  revert b. induction a as [|c a IH]; intros [|d b] Heq;
    pose proof (f_equal String.length Heq) as Hlen;
    rewrite !length_append in Hlen; simpl in Hlen; try lia; [done|].
  change (String c (a +:+ t) = String d (b +:+ t)) in Heq.
  injection Heq as -> Heq. f_equal. by apply IH.
Qed.

Lemma append_head (c : ascii) (s t : string) :
  String c s +:+ t = String c (s +:+ t).
Proof. done. Qed.

Lemma chart_filename_inj kind kind' n n' :
  kind ∈ ["cat_pie_"; "cat_bar_"; "num_hist_"] ->
  kind' ∈ ["cat_pie_"; "cat_bar_"; "num_hist_"] ->
  chart_filename kind n = chart_filename kind' n' -> n = n'.
Proof.
  unfold chart_filename. intros Hkind Hkind' Heq.
  assert (Hsame : kind = kind').
  { repeat (apply elem_of_cons in Hkind as [->|Hkind]);
      repeat (apply elem_of_cons in Hkind' as [->|Hkind']);
      try done; try (by apply elem_of_nil in Hkind);
      try (by apply elem_of_nil in Hkind');
      rewrite !append_head in Heq; discriminate Heq. }
  subst kind'. apply String.app_inj in Heq. apply append_inj_r in Heq.
  apply of_Z_inj in Heq. lia.
Qed.

Lemma elem_of_take_list {A : Type} (n : nat) (l : list A) (x : A) :
  x ∈ take n l -> x ∈ l.
Proof.
  intros Hin. rewrite <- (take_drop n l). apply elem_of_app. by left.
Qed.

Lemma charted_length {A : Type} limit (items : list (string * list A)) :
  length (charted limit items) <= limit.
Proof.
  unfold charted.
  etrans; [apply filter_length_le|]. rewrite length_take. lia.
Qed.

Lemma elem_of_charted {A : Type} limit (items : list (string * list A)) entry :
  entry ∈ charted limit items
  <-> entry ∈ take limit items /\ 2 <= length entry.2.
Proof.
  unfold charted. rewrite list_elem_of_In, filter_In, <- list_elem_of_In.
  by rewrite Nat.ltb_lt.
Qed.

Lemma blocks_Forall {A : Type} (P : Flowable -> Prop)
    (block : nat -> A -> list Flowable) (l : list A) :
  (forall i entry, Forall P (block i entry)) ->
  Forall P (mjoin (imap block l)).
Proof.
  revert block. induction l as [|entry l IH]; intros block Hblock; [done|].
  simpl. apply Forall_app. split; [apply Hblock|].
  apply IH. intros i x. apply Hblock.
Qed.

Lemma insight_lines_no_date_range (l : list Insight) (f : nat -> nat) :
  Forall no_date_range
    (imap (fun i insight => Paragraph (NumberedInsight (f i) insight)
                              normal_style) l).
Proof.
  revert f. induction l as [|x l IH]; intros f; [done|]. simpl.
  apply Forall_cons. split; [done|]. apply (IH (f ∘ S)).
Qed.

(** No date column is ever charted.  [create_time_series_chart] never
    returns a chart: it returns [None] for an empty list and raises
    otherwise.  So [generate_pdf_report] builds no story when one of the
    first three date columns holds two dates or more, and a story that is
    built holds no paragraph on the range of a date column. *)
Theorem report_fails_on_dates (analysis : ReportData.t)
    (report_title company_name : string) :
  (forall date_data column_name filename chart,
     create_time_series_chart date_data column_name filename
     <> inr (Some chart))
  /\ ((exists entry, entry ∈ take 3 (ReportData.dates analysis)
                     /\ 2 <= length entry.2) ->
      forall story,
        generate_pdf_report analysis report_title company_name <> inr story)
  /\ (forall story,
        generate_pdf_report analysis report_title company_name = inr story ->
        (forall entry, entry ∈ take 3 (ReportData.dates analysis) ->
                       length entry.2 <= 1)
        /\ Forall no_date_range story).
Proof.
  split; [|split].
  - intros date_data column_name filename chart. by destruct date_data.
  - intros (entry & Hin & Hlen) story.
    unfold generate_pdf_report.
    rewrite categorical_section_eq, numeric_section_eq, date_section_eq.
    assert (Hsome : existsb (fun entry : string * list Z =>
                               1 <? length entry.2)
                      (take 3 (ReportData.dates analysis)) = true).
    { apply existsb_exists. exists entry.
      rewrite <- list_elem_of_In. split; [done|]. by apply Nat.ltb_lt. }
    by rewrite Hsome.
  - intros story. unfold generate_pdf_report.
    rewrite categorical_section_eq, numeric_section_eq, date_section_eq.
    destruct (existsb _ _) eqn:Hdates; [done|]. intros Hstory.
    split.
    + intros entry Hin.
      destruct (decide (length entry.2 <= 1)) as [|Hlen]; [done|]. exfalso.
      assert (Hsome : existsb (fun entry : string * list Z =>
                                 1 <? length entry.2)
                        (take 3 (ReportData.dates analysis)) = true).
      { apply existsb_exists. exists entry.
        rewrite <- list_elem_of_In. split; [done|]. apply Nat.ltb_lt. lia. }
      by rewrite Hsome in Hdates.
    + apply (f_equal (fun result =>
                        match result with
                        | inr story => Forall no_date_range story
                        | inl _ => True
                        end)) in Hstory.
      cbv beta iota in Hstory. rewrite <- Hstory. clear Hstory.
      repeat (apply Forall_app; split);
        try apply (insight_lines_no_date_range _ S);
        try (apply blocks_Forall; intros i entry; by repeat constructor);
        try (by repeat constructor).
      * by destruct (ReportData.categorical analysis); repeat constructor.
      * by destruct (ReportData.numeric analysis); repeat constructor.
      * by destruct (ReportData.dates analysis); repeat constructor.
Qed.

Lemma chart_kinds_known analysis kind :
  kind ∈ chart_kinds analysis ->
  kind ∈ ["cat_pie_"; "cat_bar_"; "num_hist_"].
Proof.
  unfold chart_kinds. rewrite elem_of_app, !list_elem_of_fmap.
  intros [(entry & -> & _)|(entry & -> & _)].
  - destruct (length entry.2 <=? 8); [by left|right; by left].
  - right. right. by left.
Qed.

(** The charts of a report are saved under the numbers 1, 2, ... in the
    order of the story, one number for each of the first six categorical and
    the first five numeric columns with more than one entry: at most eleven
    charts, no two of them in one file. *)
Theorem charts_are_numbered (analysis : ReportData.t)
    (report_title company_name : string) (story : list Flowable) :
  generate_pdf_report analysis report_title company_name = inr story ->
  chart_path <$> images story
  = imap (fun i kind => chart_filename kind (S i)) (chart_kinds analysis)
  /\ length (images story)
     = length (charted 6 (ReportData.categorical analysis))
       + length (charted 5 (ReportData.numeric analysis))
  /\ length (images story) <= 11
  /\ NoDup (chart_path <$> images story).
Proof.
  intros Hstory.
  assert (Hpaths : chart_path <$> images story
          = imap (fun i kind => chart_filename kind (S i))
                 (chart_kinds analysis)).
  { rewrite (report_images _ _ _ _ Hstory). unfold chart_kinds.
    rewrite fmap_app, imap_app, !fmap_imap, !imap_fmap, length_fmap.
    f_equal; apply imap_ext; intros i entry _; simpl.
    - unfold categorical_chart. by destruct (length entry.2 <=? 8).
    - by rewrite Nat.add_succ_r. }
  assert (Hlen : length (images story)
                 = length (charted 6 (ReportData.categorical analysis))
                   + length (charted 5 (ReportData.numeric analysis))).
  { rewrite (report_images _ _ _ _ Hstory).
    by rewrite length_app, !length_imap. }
  split; [done|]. split; [done|]. split.
  - rewrite Hlen.
    pose proof (charted_length 6 (ReportData.categorical analysis)).
    pose proof (charted_length 5 (ReportData.numeric analysis)). lia.
  - rewrite Hpaths. apply NoDup_alt. intros i j path Hi Hj.
    apply list_lookup_imap_Some in Hi as (kind & Hkind & ->).
    apply list_lookup_imap_Some in Hj as (kind' & Hkind' & Heq).
    apply list_elem_of_lookup_2, chart_kinds_known in Hkind.
    apply list_elem_of_lookup_2, chart_kinds_known in Hkind'.
    apply (chart_filename_inj _ _ _ _ Hkind Hkind') in Heq. lia.
Qed.

(** The theorem at an analysis with two charted columns. *)
Lemma charts_are_numbered_witness :
  exists story,
    generate_pdf_report staff_report "Report" "ACME" = inr story
    /\ chart_path <$> images story = ["cat_pie_1.png"; "num_hist_2.png"].
Proof.
  assert (Hstory : generate_pdf_report staff_report "Report" "ACME"
                   = inr (match generate_pdf_report staff_report "Report"
                                  "ACME" with
                          | inr story => story
                          | inl _ => []
                          end)) by reflexivity.
  eexists. split; [exact Hstory|].
  rewrite (proj1 (charts_are_numbered _ _ _ _ Hstory)). reflexivity.
Defined.

(** What the charts of a report show.  A pie shows every category of its
    column: it is drawn for two to eight categories, so that its cut at
    twelve drops none.  Bars are drawn for nine categories or more and show
    the twenty most frequent (all of them up to twenty), under a subtitle
    that says so in either case.  A histogram is drawn for two values or
    more, in 10 to 30 bins. *)
Theorem charts_show_most_frequent (analysis : ReportData.t)
    (report_title company_name : string) (story : list Flowable)
    (chart : Chart) :
  generate_pdf_report analysis report_title company_name = inr story ->
  chart ∈ images story ->
  match drawing chart with
  | Pie shown =>
      exists entry,
        entry ∈ take 6 (ReportData.categorical analysis)
        /\ 2 <= length entry.2 <= 8
        /\ shown ≡ₚ entry.2
        /\ descending shown
  | Bars shown =>
      exists entry hidden,
        entry ∈ take 6 (ReportData.categorical analysis)
        /\ 9 <= length entry.2
        /\ shown ++ hidden ≡ₚ entry.2
        /\ length shown = Nat.min 20 (length entry.2)
        /\ descending shown
        /\ (forall s h, s ∈ shown -> h ∈ hidden -> h.2 <= s.2)
        /\ subtitle chart = TotalRecords (sum_list entry.2.*2) true
  | Histogram column_name bins _ _ samples =>
      exists entry,
        entry ∈ take 5 (ReportData.numeric analysis)
        /\ column_name = entry.1
        /\ samples = length entry.2
        /\ 2 <= samples
        /\ 10 <= bins <= 30
  end.
Proof.
  intros Hstory Hchart.
  rewrite (report_images _ _ _ _ Hstory) in Hchart.
  apply elem_of_app in Hchart as [Hchart|Hchart];
    apply elem_of_lookup_imap_1 in Hchart as (i & entry & -> & Hentry);
    apply list_elem_of_lookup_2, elem_of_charted in Hentry as [Hentry Hlen].
  - unfold categorical_chart.
    destruct (length entry.2 <=? 8) eqn:Hsize; simpl.
    + apply Nat.leb_le in Hsize. exists entry.
      pose proof (Permutation_length (sorted_by_count_perm entry.2)) as Hl.
      rewrite (take_ge (sorted_by_count entry.2)) by lia.
      split; [done|]. split; [lia|].
      split; [apply sorted_by_count_perm|apply sorted_by_count_descending].
    + apply Nat.leb_gt in Hsize.
      exists entry, (drop 20 (sorted_by_count entry.2)).
      destruct (descending_app (take 20 (sorted_by_count entry.2))
                  (drop 20 (sorted_by_count entry.2))) as [Hdesc Hcross].
      { rewrite take_drop. apply sorted_by_count_descending. }
      split; [done|]. split; [lia|]. split.
      { rewrite take_drop. apply sorted_by_count_perm. }
      split.
      { rewrite length_take.
        by rewrite (Permutation_length (sorted_by_count_perm entry.2)). }
      done.
  - unfold numeric_chart, create_professional_chart. cbn [drawing].
    exists entry. split; [done|]. split; [done|]. split; [done|].
    split; [done|]. lia.
Qed.

(** The theorem at the pie of a column of three categories. *)
Lemma charts_show_most_frequent_witness :
  exists story,
    generate_pdf_report staff_report "Report" "ACME" = inr story
    /\ categorical_chart 1 "Department" [("Sales", 1); ("Eng", 3); ("HR", 1)]
       ∈ images story
    /\ exists entry,
         entry ∈ take 6 (ReportData.categorical staff_report)
         /\ 2 <= length entry.2 <= 8
         /\ [("Eng", 3); ("Sales", 1); ("HR", 1)] ≡ₚ entry.2
         /\ descending [("Eng", 3); ("Sales", 1); ("HR", 1)].
Proof.
  assert (Hstory : generate_pdf_report staff_report "Report" "ACME"
                   = inr (match generate_pdf_report staff_report "Report"
                                  "ACME" with
                          | inr story => story
                          | inl _ => []
                          end)) by reflexivity.
  eexists. split; [exact Hstory|].
  assert (Hchart : categorical_chart 1 "Department"
                     [("Sales", 1); ("Eng", 3); ("HR", 1)]
                   ∈ images (match generate_pdf_report staff_report "Report"
                                    "ACME" with
                             | inr story => story
                             | inl _ => []
                             end)) by (vm_compute; left).
  split; [exact Hchart|].
  exact (charts_show_most_frequent _ _ _ _ _ Hstory Hchart).
Defined.

Lemma top_of_from (categories : list (string * nat)) (b : string * nat) :
  foldl (fun best entry =>
           match best with
           | None => Some entry
           | Some b => if b.2 <? entry.2 then Some entry else best
           end) (Some b) categories
  = match top_of categories with
    | Some y => if b.2 <? y.2 then Some y else Some b
    | None => Some b
    end.
Proof.
  revert b. induction categories as [|entry categories IH]; intros b; [done|].
  unfold top_of. cbn [foldl].
  replace (if b.2 <? entry.2 then Some entry else Some b)
    with (Some (if b.2 <? entry.2 then entry else b))
    by (by destruct (b.2 <? entry.2)).
  rewrite !IH. destruct (top_of categories) as [y|].
  - destruct (b.2 <? entry.2) eqn:H1; destruct (entry.2 <? y.2) eqn:H2;
      try rewrite H1; try done.
    + apply Nat.ltb_lt in H1, H2.
      assert (H3 : (b.2 <? y.2) = true) by (apply Nat.ltb_lt; lia).
      by rewrite H3.
    + destruct (b.2 <? y.2) eqn:H3; [|done].
      apply Nat.ltb_ge in H1, H2. apply Nat.ltb_lt in H3. lia.
  - by destruct (b.2 <? entry.2).
Qed.

Lemma top_of_cons (entry : string * nat) categories :
  top_of (entry :: categories)
  = match top_of categories with
    | Some y => if entry.2 <? y.2 then Some y else Some entry
    | None => Some entry
    end.
Proof. unfold top_of at 1. cbn [foldl]. apply top_of_from. Qed.

Lemma head_insert_by_count x l :
  head (insert_by_count x l)
  = match head l with
    | Some y => if x.2 <? y.2 then Some y else Some x
    | None => Some x
    end.
Proof. destruct l as [|y l]; [done|]. simpl. by destruct (x.2 <? y.2). Qed.

Lemma head_sorted_by_count items : head (sorted_by_count items) = top_of items.
Proof.
  induction items as [|x items IH]; [done|].
  rewrite top_of_cons, <- IH. apply head_insert_by_count.
Qed.

(** The line of most common values in the report starts with the value that
    [max(categories, key=categories.get)] picks for the insight line on the
    same items, with the same percentage; it names three values, or as many
    as there are, and where every count is positive each percentage lies
    above 0 and at most at 100. *)
Theorem most_common_leads_with_top (cat_data : list (string * nat)) :
  head (most_common cat_data)
  = (fun top => (top.1, (Qnat top.2 / Qnat (sum_list cat_data.*2) * 100)%Q))
      <$> top_of cat_data
  /\ length (most_common cat_data) = Nat.min 3 (length cat_data)
  /\ (Forall (fun item => 1 <= item.2) cat_data ->
      Forall (fun line => (0 < line.2)%Q /\ (line.2 <= 100)%Q)
             (most_common cat_data)).
Proof.
  unfold most_common. split; [|split].
  - rewrite <- head_sorted_by_count.
    by destruct (sorted_by_count cat_data).
  - rewrite length_fmap, length_take.
    by rewrite (Permutation_length (sorted_by_count_perm cat_data)).
  - intros Hpositive. apply Forall_fmap, Forall_forall. intros item Hitem.
    apply elem_of_take_list in Hitem.
    rewrite sorted_by_count_perm in Hitem. simpl.
    apply percentage_bounds.
    + rewrite Forall_forall in Hpositive. by apply Hpositive.
    + apply (sum_list_with_in _ id). apply list_elem_of_fmap. by exists item.
Qed.

(** ** The report handler and the state of the server *)

Lemma report_raises analysis report_title company_name entry :
  entry ∈ take 3 (ReportData.dates analysis) -> 2 <= length entry.2 ->
  generate_pdf_report analysis report_title company_name = inl AttributeError.
Proof.
  intros Hin Hlen. unfold generate_pdf_report.
  rewrite categorical_section_eq, numeric_section_eq, date_section_eq.
  assert (Hsome : existsb (fun entry : string * list Z => 1 <? length entry.2)
                    (take 3 (ReportData.dates analysis)) = true).
  { apply existsb_exists. exists entry.
    rewrite <- list_elem_of_In. split; [done|]. by apply Nat.ltb_lt. }
  by rewrite Hsome.
Qed.

Lemma in_key_order_reads analysis : reads analysis (in_key_order analysis).
Proof.
  unfold reads, in_key_order. simpl.
  split; [done|]. split; [done|]. split; [|split; [|done]].
  - rewrite <- list_fmap_compose.
    rewrite (list_fmap_ext _ id
               (map_to_list (Charts.categorical
                               (Analysis.charts_data analysis)))).
    + by rewrite list_fmap_id.
    + intros i [col categories] _. simpl. unfold prod_map. simpl.
      by rewrite list_to_map_to_list.
  - apply Forall_fmap, Forall_forall. intros [col categories] _. simpl.
    apply NoDup_fst_map_to_list.
Qed.

(** An analysis with a date column of two dates or more, among at most three
    date columns, yields no report: whatever the request, and in whatever
    order the dicts are iterated, [generate_reports] answers with an
    error, and with status 500 to a request whose two fields are strings. *)
Theorem dates_block_every_report (items : Analysis.t -> ReportData.t)
    (analysis : Analysis.t) :
  reads analysis (items analysis) ->
  size (Charts.dates (Analysis.charts_data analysis)) <= 3 ->
  (exists col dates,
     Charts.dates (Analysis.charts_data analysis) !! col = Some dates
     /\ 2 <= length dates) ->
  (forall data, exists status error,
     generate_reports items (Some analysis) data = Failed status error)
  /\ (forall report_title company_name,
        generate_reports items (Some analysis)
          (JObject [("report_title", JString report_title);
                    ("company_name", JString company_name)])
        = Failed 500 "Failed to generate reports: ").
Proof.
  intros (_ & _ & _ & _ & _ & Hdates) Hsize (col & dates & Hcol & Hlen).
  assert (Hraise : forall report_title company_name,
             generate_pdf_report (items analysis) report_title company_name
             = inl AttributeError).
  { intros report_title company_name.
    apply (report_raises _ _ _ (col, dates)); [|done].
    rewrite take_ge.
    - rewrite Hdates. by apply elem_of_map_to_list.
    - rewrite (Permutation_length Hdates), length_map_to_list. done. }
  split.
  - intros data. unfold generate_reports.
    destruct (negb (truthy data)); [by eexists _, _|].
    destruct data; try by eexists _, _.
    destruct (text_field _ _ members); [by eexists _, _|].
    destruct (text_field _ _ members); [by eexists _, _|].
    rewrite Hraise. by eexists _, _.
  - intros report_title company_name. unfold generate_reports.
    cbn [truthy length Nat.ltb Nat.leb negb].
    unfold text_field. cbn [List.filter fst]. simpl.
    by rewrite Hraise.
Qed.

(** The theorem at the analysis of a workbook with two hire dates. *)
Lemma dates_block_every_report_witness :
  Charts.dates
    (Analysis.charts_data (analyze_excel_data plain_runtime hires_input))
    !! "Hire Date" = Some [1577836800; 1609459200]%Z
  /\ generate_reports in_key_order
       (Some (analyze_excel_data plain_runtime hires_input))
       (JObject [("report_title", JString "Staff");
                 ("company_name", JString "ACME")])
     = Failed 500 "Failed to generate reports: ".
Proof.
  split; [reflexivity|].
  apply (dates_block_every_report in_key_order
           (analyze_excel_data plain_runtime hires_input)).
  - apply in_key_order_reads.
  - vm_compute. lia.
  - exists "Hire Date", [1577836800; 1609459200]%Z.
    split; [reflexivity|]. simpl. lia.
Defined.

Section Serving.
Variable rt : Runtime.
Variable items : Analysis.t -> ReportData.t.






End Serving.
